(** * compas_model elements: Beam and Block over their geometry kernel

    A shallow embedding of [compas_model.elements.element],
    [compas_model.elements.one_dimensional.beam] and
    [compas_model.elements.zero_dimensional.block].

    Conventions of the embedding:
    - a Python [float] is a real number ([R]); rounding, infinities and NaN
      are left out, so every equation below is one of exact arithmetic;
    - a method that mutates [self] is a function from the instance before the
      call to the value returned and the instance after it;
    - an exception is a [Raise] result; the state an exception leaves behind
      is not tracked, since no code of the package catches one;
    - as a condition ([if self._aabb:]), [None] and the empty list are
      false, and a box, a mesh or a non-empty list is true;
    - the classes of the geometry library the package builds on ([compas]:
      points, vectors, frames, boxes, meshes, transformations) are given in
      the first part of the file, each with the library call it stands for. *)

From Stdlib Require Import Reals Lra Psatz List String Bool Arith Lia.
Import ListNotations.
Local Open Scope R_scope.

(* ====================================================================== *)
(** * The Python runtime: exceptions, results, values *)
(* ====================================================================== *)

Inductive exn : Type :=
| ValueError (msg : string)
| TypeError (msg : string)
| AttributeError (attr : string)
| IndexError
| ZeroDivisionError
| RecursionError
| NotImplementedError.

Inductive result (A : Type) : Type :=
| Ok (a : A)
| Raise (e : exn).

Arguments Ok {A} a.
Arguments Raise {A} e.

Definition bind {A B : Type} (m : result A) (k : A -> result B) : result B :=
  match m with
  | Ok a => k a
  | Raise e => Raise e
  end.

Notation "x <- m ;; k" := (bind m (fun x => k))
  (at level 61, m at next level, right associativity).
Notation "' pat <- m ;; k" := (bind m (fun x => match x with pat => k end))
  (at level 61, pat pattern, m at next level, right associativity).

(** [[f(x) for x in xs]], stopping at the first exception. *)
Fixpoint mapM {A B : Type} (f : A -> result B) (xs : list A) : result (list B) :=
  match xs with
  | [] => Ok []
  | x :: xs' => y <- f x ;; ys <- mapM f xs' ;; Ok (y :: ys)
  end.

(** [a / b] on floats: division by zero raises. *)
Definition pydiv (a b : R) : result R :=
  if Req_dec_T b 0 then Raise ZeroDivisionError else Ok (a / b).

(** [xs[i]] on a list. *)
Definition getitem {A : Type} (xs : list A) (i : nat) : result A :=
  match nth_error xs i with
  | Some a => Ok a
  | None => Raise IndexError
  end.

(* ====================================================================== *)
(** * The geometry kernel *)
(* ====================================================================== *)

(** An XYZ triple: [compas.geometry.Vector], and [compas.geometry.Point]
    (the source adds the two freely through [add_vectors]). *)
Record Vector : Type := mkVector { vx : R; vy : R; vz : R }.
Definition Point : Type := Vector.

(** [add_vectors(u, v)], [u + v]. *)
Definition add_vectors (u v : Vector) : Vector :=
  mkVector (vx u + vx v) (vy u + vy v) (vz u + vz v).

(** [u - v]; [Vector.from_start_end(v, u)]. *)
Definition subtract_vectors (u v : Vector) : Vector :=
  mkVector (vx u - vx v) (vy u - vy v) (vz u - vz v).

(** [v * k]. *)
Definition scale_vector (v : Vector) (k : R) : Vector :=
  mkVector (vx v * k) (vy v * k) (vz v * k).

(** [-v]. *)
Definition negate_vector (v : Vector) : Vector :=
  mkVector (- vx v) (- vy v) (- vz v).

Definition dot_vectors (u v : Vector) : R :=
  vx u * vx v + vy u * vy v + vz u * vz v.

(** [cross_vectors(u, v)]. *)
Definition cross_vectors (u v : Vector) : Vector :=
  mkVector (vy u * vz v - vz u * vy v)
           (vz u * vx v - vx u * vz v)
           (vx u * vy v - vy u * vx v).

(** [v.length]. *)
Definition length_vector (v : Vector) : R := sqrt (dot_vectors v v).

(** [v.unitize()]: every component divided by the length. *)
Definition unitize (v : Vector) : result Vector :=
  x <- pydiv (vx v) (length_vector v) ;;
  y <- pydiv (vy v) (length_vector v) ;;
  z <- pydiv (vz v) (length_vector v) ;;
  Ok (mkVector x y z).

(** [angle_vectors(u, v)]: the smallest angle between the two vectors, in
    radians: the arc cosine of the cosine, clamped to [[-1, 1]]; when one of
    the vectors has length zero the answer is 0. *)
Definition angle_vectors (u v : Vector) : result R :=
  let L := length_vector u * length_vector v in
  if Req_dec_T L 0 then Ok 0
  else Ok (acos (Rmax (Rmin (dot_vectors u v / L) 1) (-1))).

Fixpoint sum_vectors (ps : list Vector) : Vector :=
  match ps with
  | [] => mkVector 0 0 0
  | p :: ps' => add_vectors p (sum_vectors ps')
  end.

(** [centroid_points(points)]: the mean of the points; unpacking the zipped
    coordinates of an empty list raises. *)
Definition centroid_points (ps : list Point) : result Point :=
  match ps with
  | [] => Raise (ValueError "not enough values to unpack")
  | _ :: _ => Ok (scale_vector (sum_vectors ps) (/ INR (List.length ps)))
  end.

(** ** Transformations *)

(** [compas.geometry.Transformation]: an affine map, the rows of its matrix
    being [[m11 m12 m13 t1]], [[m21 m22 m23 t2]], [[m31 m32 m33 t3]],
    [[0 0 0 1]]. *)
Record Transformation : Type := mkTransformation {
  m11 : R; m12 : R; m13 : R; t1 : R;
  m21 : R; m22 : R; m23 : R; t2 : R;
  m31 : R; m32 : R; m33 : R; t3 : R
}.

(** [transform_vectors]: the linear part only. *)
Definition transform_vector (T : Transformation) (v : Vector) : Vector :=
  mkVector (m11 T * vx v + m12 T * vy v + m13 T * vz v)
           (m21 T * vx v + m22 T * vy v + m23 T * vz v)
           (m31 T * vx v + m32 T * vy v + m33 T * vz v).

(** [transform_points]: linear part and translation. *)
Definition transform_point (T : Transformation) (p : Point) : Point :=
  add_vectors (transform_vector T p) (mkVector (t1 T) (t2 T) (t3 T)).

Definition determinant (T : Transformation) : R :=
  m11 T * (m22 T * m33 T - m23 T * m32 T)
  - m12 T * (m21 T * m33 T - m23 T * m31 T)
  + m13 T * (m21 T * m32 T - m22 T * m31 T).

(** A rigid transformation: the linear part is a rotation (its columns are
    orthonormal and its determinant is 1). *)
Definition is_rigid (T : Transformation) : Prop :=
  m11 T * m11 T + m21 T * m21 T + m31 T * m31 T = 1 /\
  m12 T * m12 T + m22 T * m22 T + m32 T * m32 T = 1 /\
  m13 T * m13 T + m23 T * m23 T + m33 T * m33 T = 1 /\
  m11 T * m12 T + m21 T * m22 T + m31 T * m32 T = 0 /\
  m11 T * m13 T + m21 T * m23 T + m31 T * m33 T = 0 /\
  m12 T * m13 T + m22 T * m23 T + m32 T * m33 T = 0 /\
  determinant T = 1.

(** [T.inverse()]: the inverse matrix (adjugate over determinant); a
    singular matrix raises. *)
Definition Transformation_inverse (T : Transformation) : result Transformation :=
  if Req_dec_T (determinant T) 0 then Raise (ValueError "The matrix is singular.")
  else
    let d := determinant T in
    let a11 := (m22 T * m33 T - m23 T * m32 T) / d in
    let a12 := (m13 T * m32 T - m12 T * m33 T) / d in
    let a13 := (m12 T * m23 T - m13 T * m22 T) / d in
    let a21 := (m23 T * m31 T - m21 T * m33 T) / d in
    let a22 := (m11 T * m33 T - m13 T * m31 T) / d in
    let a23 := (m13 T * m21 T - m11 T * m23 T) / d in
    let a31 := (m21 T * m32 T - m22 T * m31 T) / d in
    let a32 := (m12 T * m31 T - m11 T * m32 T) / d in
    let a33 := (m11 T * m22 T - m12 T * m21 T) / d in
    Ok (mkTransformation
          a11 a12 a13 (- (a11 * t1 T + a12 * t2 T + a13 * t3 T))
          a21 a22 a23 (- (a21 * t1 T + a22 * t2 T + a23 * t3 T))
          a31 a32 a33 (- (a31 * t1 T + a32 * t2 T + a33 * t3 T))).

(** [A * B]: the product of the two matrices, which maps a point as [B]
    does and then as [A] does. *)
Definition Transformation___mul__ (A B : Transformation) : Transformation :=
  mkTransformation
    (m11 A * m11 B + m12 A * m21 B + m13 A * m31 B)
    (m11 A * m12 B + m12 A * m22 B + m13 A * m32 B)
    (m11 A * m13 B + m12 A * m23 B + m13 A * m33 B)
    (m11 A * t1 B + m12 A * t2 B + m13 A * t3 B + t1 A)
    (m21 A * m11 B + m22 A * m21 B + m23 A * m31 B)
    (m21 A * m12 B + m22 A * m22 B + m23 A * m32 B)
    (m21 A * m13 B + m22 A * m23 B + m23 A * m33 B)
    (m21 A * t1 B + m22 A * t2 B + m23 A * t3 B + t2 A)
    (m31 A * m11 B + m32 A * m21 B + m33 A * m31 B)
    (m31 A * m12 B + m32 A * m22 B + m33 A * m32 B)
    (m31 A * m13 B + m32 A * m23 B + m33 A * m33 B)
    (m31 A * t1 B + m32 A * t2 B + m33 A * t3 B + t3 A).

(** ** Frames *)

(** [compas.geometry.Frame]: an origin and two axes; the third axis is their
    cross product. *)
Record Frame : Type := mkFrame {
  Frame_point : Point;
  Frame_xaxis : Vector;
  Frame_yaxis : Vector
}.

Definition Frame_zaxis (f : Frame) : Vector :=
  cross_vectors (Frame_xaxis f) (Frame_yaxis f).

(** The setter of [Frame.xaxis]: the vector is unitized. *)
Definition Frame_set_xaxis (f : Frame) (v : Vector) : result Frame :=
  x <- unitize v ;;
  Ok (mkFrame (Frame_point f) x (Frame_yaxis f)).

(** The setter of [Frame.yaxis]: the vector is unitized and made
    perpendicular to the x axis (through the unitized z axis). *)
Definition Frame_set_yaxis (f : Frame) (v : Vector) : result Frame :=
  y <- unitize v ;;
  z <- unitize (cross_vectors (Frame_xaxis f) y) ;;
  Ok (mkFrame (Frame_point f) (Frame_xaxis f) (cross_vectors z (Frame_xaxis f))).

(** [Frame(point, xaxis, yaxis)]: the three setters in turn. *)
Definition Frame___init__ (p : Point) (x y : Vector) : result Frame :=
  f <- Frame_set_xaxis (mkFrame p x y) x ;;
  Frame_set_yaxis f y.

(** [frame.transform(T)]: origin and axes are mapped, then set again. *)
Definition Frame_transform (T : Transformation) (f : Frame) : result Frame :=
  let point := transform_point T (Frame_point f) in
  let xaxis := transform_vector T (Frame_xaxis f) in
  let yaxis := transform_vector T (Frame_yaxis f) in
  f1 <- Frame_set_xaxis (mkFrame point (Frame_xaxis f) (Frame_yaxis f)) xaxis ;;
  Frame_set_yaxis f1 yaxis.

(** The frames the library hands out: orthonormal axes. *)
Definition orthonormal (f : Frame) : Prop :=
  dot_vectors (Frame_xaxis f) (Frame_xaxis f) = 1 /\
  dot_vectors (Frame_yaxis f) (Frame_yaxis f) = 1 /\
  dot_vectors (Frame_xaxis f) (Frame_yaxis f) = 0.

(** ** Lines and polygons *)

Record Line : Type := mkLine { Line_start : Point; Line_end : Point }.

Definition Line_transform (T : Transformation) (l : Line) : Line :=
  mkLine (transform_point T (Line_start l)) (transform_point T (Line_end l)).

(** [line.vector] and [line.length]. *)
Definition Line_vector (l : Line) : Vector :=
  subtract_vectors (Line_end l) (Line_start l).
Definition Line_length (l : Line) : R := length_vector (Line_vector l).


Record Polygon : Type := mkPolygon { Polygon_points : list Point }.

Definition Polygon_transform (T : Transformation) (p : Polygon) : Polygon :=
  mkPolygon (map (transform_point T) (Polygon_points p)).

(** ** Boxes *)

(** [compas.geometry.Box]: a frame at the centre of the box and the sizes
    along the three axes of that frame. *)
Record Box : Type := mkBox {
  Box_frame : Frame;
  Box_xsize : R;
  Box_ysize : R;
  Box_zsize : R
}.

(** [box.width], [box.depth], [box.height]: the sizes along x, y and z
    (the pairing [Beam.compute_aabb] and [Beam.compute_obb] rely on when they
    scale [xsize] by [width], [ysize] by [depth] and [zsize] by [height]). *)
Definition Box_width (b : Box) : R := Box_xsize b.
Definition Box_depth (b : Box) : R := Box_ysize b.
Definition Box_height (b : Box) : R := Box_zsize b.

(** The setters of the sizes refuse a negative value. *)
Definition Box_set_xsize (b : Box) (v : R) : result Box :=
  if Rlt_dec v 0
  then Raise (ValueError "The xsize of the box should be larger or equal to zero.")
  else Ok (mkBox (Box_frame b) v (Box_ysize b) (Box_zsize b)).

Definition Box_set_ysize (b : Box) (v : R) : result Box :=
  if Rlt_dec v 0
  then Raise (ValueError "The ysize of the box should be larger or equal to zero.")
  else Ok (mkBox (Box_frame b) (Box_xsize b) v (Box_zsize b)).

Definition Box_set_zsize (b : Box) (v : R) : result Box :=
  if Rlt_dec v 0
  then Raise (ValueError "The zsize of the box should be larger or equal to zero.")
  else Ok (mkBox (Box_frame b) (Box_xsize b) (Box_ysize b) v).

(** [Box(xsize, ysize, zsize, frame=frame)]. *)
Definition Box___init__ (xsize ysize zsize : R) (frame : Frame) : result Box :=
  b1 <- Box_set_xsize (mkBox frame 0 0 0) xsize ;;
  b2 <- Box_set_ysize b1 ysize ;;
  Box_set_zsize b2 zsize.

(** [box.vertices]: bottom face [a b c d], then top face [e f g h], with
    [e] above [a], [f] above [d], [g] above [c] and [h] above [b]. *)
Definition Box_vertices (b : Box) : list Point :=
  let point := Frame_point (Box_frame b) in
  let xaxis := Frame_xaxis (Box_frame b) in
  let yaxis := Frame_yaxis (Box_frame b) in
  let zaxis := Frame_zaxis (Box_frame b) in
  let dx := 0.5 * Box_xsize b in
  let dy := 0.5 * Box_ysize b in
  let dz := 0.5 * Box_zsize b in
  let corner sx sy :=
    add_vectors (add_vectors (add_vectors point (scale_vector xaxis sx))
                             (scale_vector yaxis sy))
                (scale_vector zaxis (- dz)) in
  let a := corner (- dx) (- dy) in
  let b' := corner (- dx) dy in
  let c := corner dx dy in
  let d := corner dx (- dy) in
  let up := scale_vector zaxis (Box_zsize b) in
  [a; b'; c; d; add_vectors a up; add_vectors d up; add_vectors c up; add_vectors b' up].

(** [box.corner(i)]: the bottom corners are the vertices 0 to 3, and every
    top corner lies above the bottom corner four places before it: corners 4
    and 6 are the vertices 4 and 6, corners 5 and 7 the vertices 7 and 5. *)
Definition Box_corner (b : Box) (i : nat) : result Point :=
  getitem (Box_vertices b) (match i with 5 => 7 | 7 => 5 | _ => i end)%nat.

(** [box.faces]: the six quads over [box.vertices]. *)
Definition Box_faces : list (list nat) :=
  [[0; 1; 2; 3]; [0; 3; 5; 4]; [3; 2; 6; 5]; [2; 1; 7; 6]; [1; 0; 4; 7]; [4; 5; 6; 7]]%nat.

(** [box.to_vertices_and_faces()]. *)
Definition Box_to_vertices_and_faces (b : Box) : list Point * list (list nat) :=
  (Box_vertices b, Box_faces).

(** [Box.from_bounding_box(bbox)]: the box spanned by the eight corners it
    is given; the corners are read, not searched for extremes: the axes are
    the edges from corner 0 to corners 1 and 3, the sizes are the lengths of
    the edges from corner 0 to corners 1, 3 and 4. *)
Definition Box_from_bounding_box (bbox : list Point) : result Box :=
  a <- getitem bbox 0 ;;
  b <- getitem bbox 1 ;;
  d <- getitem bbox 3 ;;
  e <- getitem bbox 4 ;;
  let xaxis := subtract_vectors b a in
  let yaxis := subtract_vectors d a in
  let zaxis := subtract_vectors e a in
  c <- centroid_points bbox ;;
  frame <- Frame___init__ c xaxis yaxis ;;
  Box___init__ (length_vector xaxis) (length_vector yaxis) (length_vector zaxis) frame.

(** [min] and [max] of a non-empty list of floats. *)
Definition minimum (x : R) (xs : list R) : R := fold_left Rmin xs x.
Definition maximum (x : R) (xs : list R) : R := fold_left Rmax xs x.

(** [bounding_box(points)]: the corners of the world-axis-aligned box
    around the points, bottom face first. *)
Definition bounding_box (points : list Point) : result (list Point) :=
  match points with
  | [] => Raise (ValueError "not enough values to unpack")
  | p :: ps =>
    let min_x := minimum (vx p) (map vx ps) in
    let max_x := maximum (vx p) (map vx ps) in
    let min_y := minimum (vy p) (map vy ps) in
    let max_y := maximum (vy p) (map vy ps) in
    let min_z := minimum (vz p) (map vz ps) in
    let max_z := maximum (vz p) (map vz ps) in
    Ok [mkVector min_x min_y min_z; mkVector max_x min_y min_z;
        mkVector max_x max_y min_z; mkVector min_x max_y min_z;
        mkVector min_x min_y max_z; mkVector max_x min_y max_z;
        mkVector max_x max_y max_z; mkVector min_x max_y max_z]
  end.

(** [Box.from_points(points)]: the box of the bounding box of the points. *)
Definition Box_from_points (points : list Point) : result Box :=
  bbox <- bounding_box points ;;
  Box_from_bounding_box bbox.

(** [box.transform(T)]: a shape is moved by moving its frame. *)
Definition Box_transform (T : Transformation) (b : Box) : result Box :=
  f <- Frame_transform T (Box_frame b) ;;
  Ok (mkBox f (Box_xsize b) (Box_ysize b) (Box_zsize b)).

(** ** Meshes *)

(** [compas.datastructures.Mesh], as its vertex list and its faces (each a
    loop of vertex indices). *)
Record Mesh : Type := mkMesh {
  Mesh_vertices : list Point;
  Mesh_faces : list (list nat)
}.

(** [Mesh.from_vertices_and_faces(vertices, faces)]. *)
Definition Mesh_from_vertices_and_faces (vertices : list Point) (faces : list (list nat)) : Mesh :=
  mkMesh vertices faces.

(** [mesh.to_vertices_and_faces()]. *)
Definition Mesh_to_vertices_and_faces (m : Mesh) : list Point * list (list nat) :=
  (Mesh_vertices m, Mesh_faces m).

(** [mesh.aabb()]: the bounding box of the vertices, as its eight corners. *)
Definition Mesh_aabb (m : Mesh) : result (list Point) :=
  bounding_box (Mesh_vertices m).

(** [mesh.transform(T)]: every vertex is mapped. *)
Definition Mesh_transform (T : Transformation) (m : Mesh) : Mesh :=
  mkMesh (map (transform_point T) (Mesh_vertices m)) (Mesh_faces m).

(** [mesh.to_polygons()]: the vertex loop of every face. *)
Definition Mesh_to_polygons (m : Mesh) : list (list Point) :=
  map (fun face => map (fun i => nth i (Mesh_vertices m) (mkVector 0 0 0)) face)
      (Mesh_faces m).

(** ** Tolerances *)

(** [compas.tolerance.Tolerance]: the settings object every call of
    [Tolerance()] hands out, by the two values the package reads. *)
Record Tolerance : Type := mkTolerance {
  Tolerance_angular : R;
  Tolerance_approximation : R
}.

(** The settings of a fresh interpreter: [1e-6] and [1e-3]. *)
Definition Tolerance___init__ : Tolerance :=
  mkTolerance (1 / 1000000) (1 / 1000).

(* ====================================================================== *)
(** * Python calls and instances *)
(* ====================================================================== *)

(** The values a constructor of the package is handed or stores. *)
Inductive pyval : Type :=
| VNone
| VFloat (r : R)
| VStr (s : string)
| VPolygons (l : list Polygon)
| VPoint (p : Point)
| VFrame (f : Frame)
| VLine (l : Line)
| VBox (b : Box)
| VMesh (m : Mesh).

(** Keyword arguments of a call, and the attributes of an instance, in the
    order they were given or set. *)
Definition keywords : Type := list (string * pyval).

Fixpoint lookup (k : string) (kw : keywords) : option pyval :=
  match kw with
  | [] => None
  | (k', v) :: kw' => if String.eqb k k' then Some v else lookup k kw'
  end.

Definition setattr (self : keywords) (k : string) (v : pyval) : keywords :=
  self ++ [(k, v)].

Fixpoint unique (ks : list string) : bool :=
  match ks with
  | [] => true
  | k :: ks' => negb (existsb (String.eqb k) ks') && unique ks'
  end.

(** The binding of a call [f(k1=v1, ..., **kwargs)] to a function whose
    parameters are [params] and which takes neither [*args] nor [**kwargs]:
    a keyword given twice, or one that names no parameter, raises
    [TypeError]; a parameter that is not given takes its default, [None]. *)
Definition bind_keywords (params : list string) (kw : keywords) : result keywords :=
  if negb (unique (map fst kw))
  then Raise (TypeError "got multiple values for keyword argument")
  else if negb (forallb (fun k => existsb (String.eqb k) params) (map fst kw))
  then Raise (TypeError "got an unexpected keyword argument")
  else Ok (map (fun p => (p, match lookup p kw with Some v => v | None => VNone end)) params).

(** The binding of a call of [f] with the keywords [kw] to the parameters
    of [f] that have no default: one that is not given raises [TypeError]. *)
Definition bind_required (required : list string) (kw : keywords) : result unit :=
  if forallb (fun p => existsb (String.eqb p) (map fst kw)) required
  then Ok tt
  else Raise (TypeError "missing required positional arguments").

(** The keywords that name none of [params]: what [**kwargs] collects. *)
Definition remaining (params : list string) (kw : keywords) : keywords :=
  filter (fun '(k, _) => negb (existsb (String.eqb k) params)) kw.

(** An argument in a comparison with a number ([x <= 0]): a value that is no
    number raises [TypeError]. *)
Definition as_float (v : pyval) : result R :=
  match v with
  | VFloat r => Ok r
  | _ => Raise (TypeError "'<=' not supported between instances")
  end.

(** [type(x) is None]: the type of a value is a class, never [None]. *)
Definition type_is_None {A : Type} (x : A) : bool := false.

(* ====================================================================== *)
(** * compas_model.elements.element *)
(* ====================================================================== *)

Module Element.

(** The parameters of [Element.__init__] after [self]. *)
Definition __init___params : list string := ["geometry"; "frame"; "name"]%string.

(** [Element.__init__(self, geometry=None, frame=None, name=None)]: the
    attributes of the instance after the call. *)
Definition __init__ (kw : keywords) : result keywords :=
  args <- bind_keywords __init___params kw ;;
  let arg k := match lookup k args with Some v => v | None => VNone end in
  Ok [("name", arg "name"); ("graph_node", VNone); ("tree_node", VNone);
      ("_aabb", VNone); ("_obb", VNone); ("_collision_mesh", VNone);
      ("_geometry", arg "geometry"); ("_frame", arg "frame")]%string.

(** [Element.__data__]: the frame and the name, nothing else. *)
Definition __data__ (frame name : pyval) : keywords :=
  [("frame", frame); ("name", name)]%string.

Section Methods.
Context {A C : Type}.

(** The lazily computed attributes ([aabb], [obb], [collision_mesh]):
    [if not self._x: self._x = self.compute_x()], then [return self._x]. *)
Definition cached (get : A -> option C) (set : option C -> A -> A)
  (compute : A -> result (C * A)) (self : A) : result (C * A) :=
  match get self with
  | Some c => Ok (c, self)
  | None => '(c, self') <- compute self ;; Ok (c, set (Some c) self')
  end.

(** The abstract method [transform] of the subclass. *)
Variable transform : Transformation -> A -> result A.

Fixpoint update (i : nat) (a : A) (heap : list A) : list A :=
  match heap, i with
  | [], _ => []
  | _ :: heap', O => a :: heap'
  | b :: heap', S i' => b :: update i' a heap'
  end.

(** The class of the instance, called with the entries of a dictionary for
    keyword arguments, and the attributes [frame] and [name] of an
    instance. *)
Variable cls : keywords -> result A.
Variable frame : A -> Frame.
Variable name : A -> pyval.

(** [self.copy()], which the base class inherits from the library class
    [Data]: [cls.__from_data__(deepcopy(self.__data__))], where
    [__from_data__(data)] calls [cls] with the entries of [data] for keyword
    arguments.  Instances live in a heap and are named by their index in it;
    a copy is a new instance at a fresh index.
    A reference always names an instance, so the first branch stands for no
    Python behaviour. *)
Definition copy (self : nat) (heap : list A) : result (nat * list A) :=
  match nth_error heap self with
  | None => Raise (AttributeError "self")
  | Some value =>
    element <- cls (__data__ (VFrame (frame value)) (name value)) ;;
    Ok (List.length heap, heap ++ [element])
  end.

(** [Element.transformed]: [element = self.copy()], then
    [element.transform(transformation)], which mutates the instance at
    [element], then [return element]. *)
Definition transformed (transformation : Transformation) (self : nat) (heap : list A)
  : result (nat * list A) :=
  '(element, heap) <- copy self heap ;;
  value <- getitem heap element ;;
  value <- transform transformation value ;;
  Ok (element, update element value heap).

End Methods.
End Element.

(* ====================================================================== *)
(** * compas_model.elements.one_dimensional.beam *)
(* ====================================================================== *)

Module Beam.

(** [Beam._create_box(frame, xsize, ysize, zsize)]: the frame is copied and
    its origin moved by half of [zsize] along its x axis; the box is
    [Box(zsize, xsize, ysize, frame=boxframe)]. *)
Definition _create_box (frame : Frame) (xsize ysize zsize : R) : result Box :=
  let boxframe :=
    mkFrame (add_vectors (Frame_point frame)
                         (scale_vector (scale_vector (Frame_xaxis frame) zsize) 0.5))
            (Frame_xaxis frame) (Frame_yaxis frame) in
  Box___init__ zsize xsize ysize boxframe.

(** [Beam.__init__(self, frame, length, width, height, **kwargs)].  The
    first component lists the geometry built on the way, the second is the
    outcome: the attributes of the new instance, or the exception. *)
Definition __init__ (frame : Frame) (length width height : R) (kwargs : keywords)
  : list pyval * result keywords :=
  if Rle_dec length 0
  then ([], Raise (ValueError "Length should be greater than zero."))
  else if Rle_dec width 0
  then ([], Raise (ValueError "Width should be greater than zero."))
  else if Rle_dec height 0
  then ([], Raise (ValueError "Height should be greater than zero."))
  else
    let line :=
      mkLine (Frame_point frame)
             (add_vectors (Frame_point frame) (scale_vector (Frame_xaxis frame) length)) in
    match _create_box frame width height length with
    | Raise e => ([VLine line], Raise e)
    | Ok box =>
      ([VLine line; VBox box],
       self <- Element.__init__
                 ([("frame", VFrame frame); ("geometry_simplified", VLine line);
                   ("geometry", VBox box)]%string ++ kwargs) ;;
       Ok (setattr self "_face_polygons" VNone))
    end.

(** [Beam.from_line(cls, center_axis, width, height, z_vector=None, **kwargs)],
    with [tol] the settings [Tolerance()] hands out.  A vector is true as a
    condition (as a sequence it has length 3), so [not z_vector] holds for
    [None] only.  The outcome is that of [Beam.__init__], or the exception
    raised before it is called, with no geometry built. *)
Definition from_line (tol : Tolerance) (center_axis : Line) (width height : R)
  (z_vector : option Vector) (kwargs : keywords) : list pyval * result keywords :=
  let x_vector := Line_vector center_axis in
  let z_vector :=
    match z_vector with
    | None =>
      let z_vector := mkVector 0 0 1 in
      angle <- angle_vectors z_vector x_vector ;;
      if Rlt_dec angle (Tolerance_angular tol)
      then Ok (mkVector 1 0 0)
      else if Rgt_dec angle (3.141592 - Tolerance_angular tol)
      then Ok (mkVector 1 0 0)
      else Ok z_vector
    | Some z_vector => Ok z_vector
    end in
  match z_vector with
  | Raise e => ([], Raise e)
  | Ok z_vector =>
    let y_vector := scale_vector (cross_vectors x_vector z_vector) (-1) in
    if Rlt_dec (length_vector y_vector) (Tolerance_approximation tol)
    then ([], Raise (ValueError
                       "The given z_vector seems to be parallel to the given center_axis."))
    else
      match Frame___init__ (Line_start center_axis) x_vector y_vector with
      | Raise e => ([], Raise e)
      | Ok frame => __init__ frame (Line_length center_axis) width height kwargs
      end
  end.

(** A Beam instance, by the attributes its methods read and write: what
    [Beam.__init__] hands to the base class ([frame], [geometry_simplified],
    [geometry]) and the cache slots, [None] until they are filled
    ([_face_polygons] is [None] in Python too, until the list is computed). *)
Record t : Type := mk {
  _frame : Frame;
  geometry_simplified : Line;
  _geometry : Box;
  _aabb : option Box;
  _obb : option Box;
  _collision_mesh : option Mesh;
  _face_polygons : option (list Polygon)
}.

Definition set_frame (v : Frame) (self : t) : t :=
  mk v (geometry_simplified self) (_geometry self) (_aabb self) (_obb self)
     (_collision_mesh self) (_face_polygons self).
Definition set_geometry_simplified (v : Line) (self : t) : t :=
  mk (_frame self) v (_geometry self) (_aabb self) (_obb self)
     (_collision_mesh self) (_face_polygons self).
Definition set_geometry (v : Box) (self : t) : t :=
  mk (_frame self) (geometry_simplified self) v (_aabb self) (_obb self)
     (_collision_mesh self) (_face_polygons self).
Definition set_aabb (v : option Box) (self : t) : t :=
  mk (_frame self) (geometry_simplified self) (_geometry self) v (_obb self)
     (_collision_mesh self) (_face_polygons self).
Definition set_obb (v : option Box) (self : t) : t :=
  mk (_frame self) (geometry_simplified self) (_geometry self) (_aabb self) v
     (_collision_mesh self) (_face_polygons self).
Definition set_collision_mesh (v : option Mesh) (self : t) : t :=
  mk (_frame self) (geometry_simplified self) (_geometry self) (_aabb self) (_obb self)
     v (_face_polygons self).
Definition set_face_polygons (v : option (list Polygon)) (self : t) : t :=
  mk (_frame self) (geometry_simplified self) (_geometry self) (_aabb self) (_obb self)
     (_collision_mesh self) v.

(** [Beam.dimensions]: the geometry is a [Box] by its type here, so the
    [TypeError] branch is not taken. *)
Definition dimensions (self : t) : list R :=
  [Box_width (_geometry self); Box_height (_geometry self); Box_depth (_geometry self)].

(** [Beam.compute_aabb(inflate)]. *)
Definition compute_aabb (inflate : R) (self : t) : result (Box * t) :=
  corners <- mapM (Box_corner (_geometry self)) (seq 0 8) ;;
  aabb <- Box_from_bounding_box corners ;;
  kx <- pydiv (Box_width aabb + inflate) (Box_width aabb) ;;
  aabb <- Box_set_xsize aabb (Box_xsize aabb * kx) ;;
  ky <- pydiv (Box_depth aabb + inflate) (Box_depth aabb) ;;
  aabb <- Box_set_ysize aabb (Box_ysize aabb * ky) ;;
  kz <- pydiv (Box_height aabb + inflate) (Box_height aabb) ;;
  aabb <- Box_set_zsize aabb (Box_zsize aabb * kz) ;;
  Ok (aabb, set_aabb (Some aabb) self).

(** [Beam.compute_obb(inflate)]. *)
Definition compute_obb (inflate : R) (self : t) : result (Box * t) :=
  let obb := _geometry self in
  kx <- pydiv (Box_width obb + inflate) (Box_width obb) ;;
  obb <- Box_set_xsize obb (Box_xsize obb * kx) ;;
  ky <- pydiv (Box_depth obb + inflate) (Box_depth obb) ;;
  obb <- Box_set_ysize obb (Box_ysize obb * ky) ;;
  kz <- pydiv (Box_height obb + inflate) (Box_height obb) ;;
  obb <- Box_set_zsize obb (Box_zsize obb * kz) ;;
  Ok (obb, set_obb (Some obb) self).

(** [Beam.compute_collision_mesh()]. *)
Definition compute_collision_mesh (self : t) : result (Mesh * t) :=
  let '(vertices, faces) := Box_to_vertices_and_faces (_geometry self) in
  let mesh := Mesh_from_vertices_and_faces vertices faces in
  Ok (mesh, set_collision_mesh (Some mesh) self).

(** The properties [obb] and [collision_mesh] of the base class. *)
Definition obb : t -> result (Box * t) :=
  Element.cached _obb set_obb (compute_obb 0).
Definition collision_mesh : t -> result (Mesh * t) :=
  Element.cached _collision_mesh set_collision_mesh compute_collision_mesh.
Definition aabb : t -> result (Box * t) :=
  Element.cached _aabb set_aabb (compute_aabb 0).

(** [Beam.mid_point]. *)
Definition mid_point (self : t) : result Point :=
  d2 <- getitem (dimensions self) 2 ;;
  Ok (add_vectors (Frame_point (_frame self))
                  (scale_vector (scale_vector (Frame_xaxis (_frame self)) d2) 0.5)).

(** The four corners of one face: [p + o0 + o1], [p + o0 - o1],
    [p - o0 - o1], [p - o0 + o1]. *)
Definition quad (p : Point) (offset : Vector * Vector) : Polygon :=
  let '(o0, o1) := offset in
  mkPolygon [add_vectors (add_vectors p o0) o1;
             subtract_vectors (add_vectors p o0) o1;
             subtract_vectors (subtract_vectors p o0) o1;
             add_vectors (subtract_vectors p o0) o1].

(** [Beam.compute_face_polygons()]. *)
Definition compute_face_polygons (self : t) : result (list Polygon) :=
  let frame := _frame self in
  d0 <- getitem (dimensions self) 0 ;;
  d1 <- getitem (dimensions self) 1 ;;
  d2 <- getitem (dimensions self) 2 ;;
  mid <- mid_point self ;;
  let half_x := scale_vector (scale_vector (Frame_xaxis frame) d2) 0.5 in
  let half_y := scale_vector (scale_vector (Frame_yaxis frame) d0) 0.5 in
  let half_z := scale_vector (scale_vector (Frame_zaxis frame) d1) 0.5 in
  let p0 := add_vectors mid (scale_vector (scale_vector (Frame_yaxis frame) d0) 0.5) in
  let p1 := add_vectors mid
              (scale_vector (scale_vector (negate_vector (Frame_zaxis frame)) d1) 0.5) in
  let p2 := add_vectors mid
              (scale_vector (scale_vector (negate_vector (Frame_yaxis frame)) d0) 0.5) in
  let p3 := add_vectors mid (scale_vector (scale_vector (Frame_zaxis frame) d1) 0.5) in
  let p5 := add_vectors (Frame_point frame) (scale_vector (Frame_xaxis frame) d2) in
  let offsets :=
    [(half_x, half_z); (half_x, half_y); (half_x, half_z); (half_x, half_y);
     (half_y, half_z); (half_y, half_z)] in
  Ok (map (fun '(p, offset) => quad p offset)
          (combine [p0; p1; p2; p3; Frame_point frame; p5] offsets)).

(** A list (or [None]) as a condition: empty and [None] are false. *)
Definition truthy {X : Type} (v : option (list X)) : bool :=
  match v with
  | Some (_ :: _) => true
  | _ => false
  end.

(** [Beam.face_polygons]. *)
Definition face_polygons (self : t) : result (list Polygon * t) :=
  if truthy (_face_polygons self)
  then Ok (match _face_polygons self with Some ps => ps | None => [] end, self)
  else ps <- compute_face_polygons self ;; Ok (ps, set_face_polygons (Some ps) self).

(** [Beam.transform(transformation)]. *)
Definition transform (transformation : Transformation) (self : t) : result t :=
  frame <- Frame_transform transformation (_frame self) ;;
  let self := set_frame frame self in
  let self := set_geometry_simplified
                (Line_transform transformation (geometry_simplified self)) self in
  geometry <- Box_transform transformation (_geometry self) ;;
  let self := set_geometry geometry self in
  self <- match _aabb self with
          | Some _ => '(_, self) <- compute_aabb 0 self ;; Ok self
          | None => Ok self
          end ;;
  self <- match _obb self with
          | Some _ =>
            '(box, self) <- obb self ;;
            box <- Box_transform transformation box ;;
            Ok (set_obb (Some box) self)
          | None => Ok self
          end ;;
  self <- match _collision_mesh self with
          | Some _ =>
            '(mesh, self) <- collision_mesh self ;;
            Ok (set_collision_mesh (Some (Mesh_transform transformation mesh)) self)
          | None => Ok self
          end ;;
  if truthy (_face_polygons self)
  then '(polygons, self) <- face_polygons self ;;
       Ok (set_face_polygons (Some (map (Polygon_transform transformation) polygons)) self)
  else Ok self.

(** The record of the instance that has the attributes [self]; the caches
    of a new instance are empty. *)
Definition of_attributes (self : keywords) : result t :=
  match lookup "_frame" self, lookup "geometry_simplified" self, lookup "_geometry" self with
  | Some (VFrame frame), Some (VLine line), Some (VBox box) =>
    Ok (mk frame line box None None None None)
  | _, _, _ => Raise (AttributeError "geometry_simplified")
  end.

(** The call of [Beam] with the keywords [kw]: the keywords are bound to
    the parameters of [__init__] ([frame], [length], [width] and [height]
    have no default, the other keywords go to [kwargs]), then [__init__]
    runs.  Its comparisons raise [TypeError] on an argument that is no
    number, and [frame.point] raises [AttributeError] on an argument that is
    no frame. *)
Definition __call__ (kw : keywords) : result t :=
  _ <- bind_required ["frame"; "length"; "width"; "height"]%string kw ;;
  let arg k := match lookup k kw with Some v => v | None => VNone end in
  let kwargs := remaining ["frame"; "length"; "width"; "height"]%string kw in
  length <- as_float (arg "length"%string) ;;
  if Rle_dec length 0 then Raise (ValueError "Length should be greater than zero.") else
  width <- as_float (arg "width"%string) ;;
  if Rle_dec width 0 then Raise (ValueError "Width should be greater than zero.") else
  height <- as_float (arg "height"%string) ;;
  if Rle_dec height 0 then Raise (ValueError "Height should be greater than zero.") else
  match arg "frame"%string with
  | VFrame frame =>
    self <- snd (__init__ frame length width height kwargs) ;;
    of_attributes self
  | _ => Raise (AttributeError "point")
  end.

(** [Element.transformed] on beams.  The records carry no name: [self.name]
    is the default, the name of the class. *)
Definition transformed : Transformation -> nat -> list t -> result (nat * list t) :=
  Element.transformed transform __call__ _frame (fun _ => VStr "Beam").

End Beam.

(* ====================================================================== *)
(** * compas_model.elements.zero_dimensional.block *)
(* ====================================================================== *)

Module Block.

Section Construction.

(** [mesh.centroid()]: the centroid of the faces of the mesh, weighted by
    their areas; a routine of the library. *)
Variable Mesh_centroid : Mesh -> result Point.

(** [Block.__init__(self, closed_mesh, geometry_simplified=None, **kwargs)]:
    the attributes of the new instance, or the exception. *)
Definition __init__ (closed_mesh geometry_simplified : pyval) (kwargs : keywords)
  : result keywords :=
  match closed_mesh with
  | VMesh mesh =>
    centroid <- Mesh_centroid mesh ;;
    let geometry_simplified :=
      match geometry_simplified with
      | VNone => VPoint centroid
      | v => v
      end in
    frame <- Frame___init__ centroid (mkVector 1 0 0) (mkVector 0 1 0) ;;
    self <- Element.__init__
              ([("frame", VFrame frame); ("geometry_simplified", geometry_simplified);
                ("geometry", VMesh mesh); ("index", VNone)]%string ++ kwargs) ;;
    Ok (setattr self "_face_polygons" (VPolygons []))
  | _ => Raise (TypeError "Mesh is not of type compas.datastructures.Mesh")
  end.

End Construction.

(** A Block instance, by the attributes its methods read and write.
    [_face_polygons] is [None] when the instance has no such attribute
    (the method [_compute_face_polygons] asks with [hasattr]). *)
Record t : Type := mk {
  _frame : Frame;
  geometry_simplified : Point;
  _geometry : Mesh;
  _aabb : option Box;
  _obb : option Box;
  _collision_mesh : option Mesh;
  _face_polygons : option (list Polygon)
}.

Definition set_frame (v : Frame) (self : t) : t :=
  mk v (geometry_simplified self) (_geometry self) (_aabb self) (_obb self)
     (_collision_mesh self) (_face_polygons self).
Definition set_geometry_simplified (v : Point) (self : t) : t :=
  mk (_frame self) v (_geometry self) (_aabb self) (_obb self)
     (_collision_mesh self) (_face_polygons self).
Definition set_geometry (v : Mesh) (self : t) : t :=
  mk (_frame self) (geometry_simplified self) v (_aabb self) (_obb self)
     (_collision_mesh self) (_face_polygons self).
Definition set_aabb (v : option Box) (self : t) : t :=
  mk (_frame self) (geometry_simplified self) (_geometry self) v (_obb self)
     (_collision_mesh self) (_face_polygons self).
Definition set_obb (v : option Box) (self : t) : t :=
  mk (_frame self) (geometry_simplified self) (_geometry self) (_aabb self) v
     (_collision_mesh self) (_face_polygons self).
Definition set_collision_mesh (v : option Mesh) (self : t) : t :=
  mk (_frame self) (geometry_simplified self) (_geometry self) (_aabb self) (_obb self)
     v (_face_polygons self).
Definition set_face_polygons (v : option (list Polygon)) (self : t) : t :=
  mk (_frame self) (geometry_simplified self) (_geometry self) (_aabb self) (_obb self)
     (_collision_mesh self) v.

(** [Block.compute_aabb(inflate)]. *)
Definition compute_aabb (inflate : R) (self : t) : result (Box * t) :=
  points <- Mesh_aabb (_geometry self) ;;
  aabb <- Box_from_points points ;;
  aabb <- Box_set_xsize aabb (Box_xsize aabb + inflate) ;;
  aabb <- Box_set_ysize aabb (Box_ysize aabb + inflate) ;;
  aabb <- Box_set_zsize aabb (Box_zsize aabb + inflate) ;;
  Ok (aabb, set_aabb (Some aabb) self).

(** The property [aabb] of the base class. *)
Definition aabb : t -> result (Box * t) :=
  Element.cached _aabb set_aabb (compute_aabb 0).

(** [Block.dimensions]: the test [not type(self.geometry) is None] guards
    the call of [compute_aabb()]; the list then reads the property [aabb]
    three times. *)
Definition dimensions (self : t) : result (list R * t) :=
  self <- (if negb (type_is_None (_geometry self))
           then '(_, self) <- compute_aabb 0 self ;; Ok self
           else Ok self) ;;
  '(a1, self) <- aabb self ;;
  '(a2, self) <- aabb self ;;
  '(a3, self) <- aabb self ;;
  Ok ([Box_width a1; Box_height a2; Box_depth a3], self).

(** [Block._compute_face_polygons()]: an instance that has the attribute
    returns it at once.  Without it the loop [for g in self.geometry] runs
    over the mesh itself, which is not iterable. *)
Definition _compute_face_polygons (self : t) : result (list Polygon * t) :=
  match _face_polygons self with
  | Some polygons => Ok (polygons, self)
  | None => Raise (TypeError "'Mesh' object is not iterable")
  end.

(** [Block.face_polygons]. *)
Definition face_polygons (self : t) : result (list Polygon * t) :=
  match _face_polygons self with
  | None => Raise (AttributeError "_face_polygons")
  | Some (p :: ps) => Ok (p :: ps, self)
  | Some [] =>
    '(polygons, self) <- _compute_face_polygons self ;;
    Ok (polygons, set_face_polygons (Some polygons) self)
  end.

(** The record of the instance that has the attributes [self]; the caches
    of a new instance are empty. *)
Definition of_attributes (self : keywords) : result t :=
  match lookup "_frame" self, lookup "geometry_simplified" self, lookup "_geometry" self,
        lookup "_face_polygons" self with
  | Some (VFrame frame), Some (VPoint point), Some (VMesh mesh), Some (VPolygons polygons) =>
    Ok (mk frame point mesh None None None (Some polygons))
  | _, _, _, _ => Raise (AttributeError "geometry_simplified")
  end.

Section Kernel.

(** [mesh.centroid()], as above. *)
Variable Mesh_centroid : Mesh -> result Point.

(** The call of [Block] with the keywords [kw]: the keywords are bound to
    the parameters of [__init__] ([closed_mesh] has no default,
    [geometry_simplified] has the default [None], the other keywords go to
    [kwargs]), then [__init__] runs. *)
Definition __call__ (kw : keywords) : result t :=
  _ <- bind_required ["closed_mesh"]%string kw ;;
  let arg k := match lookup k kw with Some v => v | None => VNone end in
  let kwargs := remaining ["closed_mesh"; "geometry_simplified"]%string kw in
  self <- __init__ Mesh_centroid (arg "closed_mesh"%string)
                   (arg "geometry_simplified"%string) kwargs ;;
  of_attributes self.

(** [compas.geometry.convex_hull(points)]: the faces of the hull, each a
    loop of indices into [points]. *)
Variable convex_hull : list Point -> result (list (list nat)).

(** [mesh.obb()]: the corners of an oriented box around the mesh. *)
Variable Mesh_obb : Mesh -> result (list Point).

(** [Block.compute_obb(inflate)]. *)
Definition compute_obb (inflate : R) (self : t) : result (Box * t) :=
  points <- Mesh_obb (_geometry self) ;;
  obb <- Box_from_points points ;;
  obb <- Box_set_xsize obb (Box_xsize obb + inflate) ;;
  obb <- Box_set_ysize obb (Box_ysize obb + inflate) ;;
  obb <- Box_set_zsize obb (Box_zsize obb + inflate) ;;
  Ok (obb, set_obb (Some obb) self).

(** [Block.compute_collision_mesh()]: the mesh that is stored and the mesh
    that is returned are built by two calls with the same arguments. *)
Definition compute_collision_mesh (self : t) : result (Mesh * t) :=
  let '(points, faces) := Mesh_to_vertices_and_faces (_geometry self) in
  faces <- convex_hull points ;;
  let self := set_collision_mesh (Some (Mesh_from_vertices_and_faces points faces)) self in
  Ok (Mesh_from_vertices_and_faces points faces, self).

(** The properties [obb] and [collision_mesh] of the base class. *)
Definition obb : t -> result (Box * t) :=
  Element.cached _obb set_obb (compute_obb 0).
Definition collision_mesh : t -> result (Mesh * t) :=
  Element.cached _collision_mesh set_collision_mesh compute_collision_mesh.

(** [Block.transform(transformation)].  The method calls itself when the
    collision mesh is there; [depth] is the number of frames the
    interpreter still allows on its stack. *)
Fixpoint transform (depth : nat) (transformation : Transformation) (self : t)
  : result t :=
  match depth with
  | O => Raise RecursionError
  | S depth' =>
    frame <- Frame_transform transformation (_frame self) ;;
    let self := set_frame frame self in
    let self := set_geometry_simplified
                  (transform_point transformation (geometry_simplified self)) self in
    let self := set_geometry (Mesh_transform transformation (_geometry self)) self in
    self <- match _aabb self with
            | Some _ => '(_, self) <- compute_aabb 0 self ;; Ok self
            | None => Ok self
            end ;;
    self <- match _obb self with
            | Some _ =>
              '(box, self) <- obb self ;;
              box <- Box_transform transformation box ;;
              Ok (set_obb (Some box) self)
            | None => Ok self
            end ;;
    self <- match _collision_mesh self with
            | Some _ => transform depth' transformation self
            | None => Ok self
            end ;;
    match _face_polygons self with
    | None => Raise (AttributeError "_face_polygons")
    | Some [] => Ok self
    | Some (_ :: _) =>
      '(polygons, self) <- face_polygons self ;;
      Ok (set_face_polygons (Some (map (Polygon_transform transformation) polygons)) self)
    end
  end.

(** [Element.transformed] on blocks.  The records carry no name:
    [self.name] is the default, the name of the class. *)
Definition transformed (depth : nat)
  : Transformation -> nat -> list t -> result (nat * list t) :=
  Element.transformed (transform depth) __call__ _frame (fun _ => VStr "Block").

End Kernel.
End Block.

(* ====================================================================== *)
(** * Vocabulary of the statements *)
(* ====================================================================== *)

(** A box as the library builds one: an orthonormal frame and positive
    sizes. *)
Definition well_formed_box (b : Box) : Prop :=
  orthonormal (Box_frame b) /\ 0 < Box_xsize b /\ 0 < Box_ysize b /\ 0 < Box_zsize b.

(** The frame whose origin and axes are the images of those of [f]. *)
Definition moved_frame (T : Transformation) (f : Frame) : Frame :=
  mkFrame (transform_point T (Frame_point f))
          (transform_vector T (Frame_xaxis f))
          (transform_vector T (Frame_yaxis f)).

Definition moved_box (T : Transformation) (b : Box) : Box :=
  mkBox (moved_frame T (Box_frame b)) (Box_xsize b) (Box_ysize b) (Box_zsize b).

Definition moved_polygons (T : Transformation) (v : option (list Polygon))
  : option (list Polygon) :=
  match v with
  | Some (p :: ps) => Some (map (Polygon_transform T) (p :: ps))
  | other => other
  end.

(** The transpose of the rotation, with the translation that undoes [T]. *)
Definition transpose (T : Transformation) : Transformation :=
  mkTransformation
    (m11 T) (m21 T) (m31 T) (- (m11 T * t1 T + m21 T * t2 T + m31 T * t3 T))
    (m12 T) (m22 T) (m32 T) (- (m12 T * t1 T + m22 T * t2 T + m32 T * t3 T))
    (m13 T) (m23 T) (m33 T) (- (m13 T * t1 T + m23 T * t2 T + m33 T * t3 T)).

(** The box [g] with every size grown by [inflate]. *)
Definition grown (g : Box) (inflate : R) : Box :=
  mkBox (Box_frame g) (Box_xsize g + inflate) (Box_ysize g + inflate)
        (Box_zsize g + inflate).

(** The solid of [g] read off its corners: same centre, x and y axes
    swapped, every size grown by [inflate]. *)
Definition oriented_bounds (g : Box) (inflate : R) : Box :=
  mkBox (mkFrame (Frame_point (Box_frame g)) (Frame_yaxis (Box_frame g))
                 (Frame_xaxis (Box_frame g)))
        (Box_ysize g + inflate) (Box_xsize g + inflate) (Box_zsize g + inflate).

(** Both sizes of [b] are those of [a] times one factor. *)
Definition proportional (a b : Box) : Prop :=
  exists k : R,
    Box_xsize b = k * Box_xsize a /\
    Box_ysize b = k * Box_ysize a /\
    Box_zsize b = k * Box_zsize a.

(** Every size of [b] is that size [d] of [a] times its own factor
    [(d + inflate) / d]. *)
Definition multiplied (a b : Box) (inflate : R) : Prop :=
  Box_xsize b = Box_xsize a * ((Box_xsize a + inflate) / Box_xsize a) /\
  Box_ysize b = Box_ysize a * ((Box_ysize a + inflate) / Box_ysize a) /\
  Box_zsize b = Box_zsize a * ((Box_zsize a + inflate) / Box_zsize a).

(** A direction along one of the world axes. *)
Definition along_world_axis (v : Vector) : Prop :=
  (vy v = 0 /\ vz v = 0) \/ (vx v = 0 /\ vz v = 0) \/ (vx v = 0 /\ vy v = 0).

(** The edges of the box are parallel to the world axes. *)
Definition world_aligned (b : Box) : Prop :=
  along_world_axis (Frame_xaxis (Box_frame b)) /\
  along_world_axis (Frame_yaxis (Box_frame b)) /\
  along_world_axis (Frame_zaxis (Box_frame b)).

(** A beam whose frames are orthonormal and whose box has positive sizes. *)
Definition Beam_well_formed (self : Beam.t) : Prop :=
  orthonormal (Beam._frame self) /\
  well_formed_box (Beam._geometry self) /\
  (forall b, Beam._obb self = Some b -> orthonormal (Box_frame b)).

(** The beam after [transform(T)], attribute by attribute. *)
Definition Beam_moved (T : Transformation) (self : Beam.t) : Beam.t :=
  Beam.mk
    (moved_frame T (Beam._frame self))
    (Line_transform T (Beam.geometry_simplified self))
    (moved_box T (Beam._geometry self))
    (match Beam._aabb self with
     | Some _ => Some (oriented_bounds (moved_box T (Beam._geometry self)) 0)
     | None => None
     end)
    (option_map (moved_box T) (Beam._obb self))
    (option_map (Mesh_transform T) (Beam._collision_mesh self))
    (moved_polygons T (Beam._face_polygons self)).

(** The beam with its AABB, when it has one, computed anew without
    inflation. *)
Definition Beam_refreshed (self : Beam.t) : Beam.t :=
  Beam.set_aabb
    (match Beam._aabb self with
     | Some _ => Some (oriented_bounds (Beam._geometry self) 0)
     | None => None
     end) self.

(** The world-axis-aligned box around the points [p :: ps], every size grown
    by [inflate]. *)
Definition world_bounds (p : Point) (ps : list Point) (inflate : R) : Box :=
  let min_x := minimum (vx p) (map vx ps) in
  let max_x := maximum (vx p) (map vx ps) in
  let min_y := minimum (vy p) (map vy ps) in
  let max_y := maximum (vy p) (map vy ps) in
  let min_z := minimum (vz p) (map vz ps) in
  let max_z := maximum (vz p) (map vz ps) in
  mkBox (mkFrame (mkVector ((min_x + max_x) / 2) ((min_y + max_y) / 2) ((min_z + max_z) / 2))
                 (mkVector 1 0 0) (mkVector 0 1 0))
        (max_x - min_x + inflate) (max_y - min_y + inflate) (max_z - min_z + inflate).

(** The point lies in the box: its coordinates in the frame of the box are
    within half of the sizes. *)
Definition inside (b : Box) (p : Point) : Prop :=
  let d := subtract_vectors p (Frame_point (Box_frame b)) in
  Rabs (dot_vectors d (Frame_xaxis (Box_frame b))) <= Box_xsize b / 2 /\
  Rabs (dot_vectors d (Frame_yaxis (Box_frame b))) <= Box_ysize b / 2 /\
  Rabs (dot_vectors d (Frame_zaxis (Box_frame b))) <= Box_zsize b / 2.

(** The points have some width in every direction (they lie in no plane). *)
Definition solid (ps : list Point) : Prop :=
  forall n : Vector,
    dot_vectors n n = 1 ->
    exists p q, In p ps /\ In q ps /\ dot_vectors n p <> dot_vectors n q.

(** [world_bounds] of a list of points, when it has one. *)
Definition world_bounds_of (ps : list Point) (inflate : R) : option Box :=
  match ps with
  | p :: ps' => Some (world_bounds p ps' inflate)
  | [] => None
  end.

(** A block whose frames are orthonormal, whose mesh is a solid, which has
    its list of face polygons and no collision mesh yet. *)
Definition Block_well_formed (self : Block.t) : Prop :=
  orthonormal (Block._frame self) /\
  solid (Mesh_vertices (Block._geometry self)) /\
  (forall b, Block._obb self = Some b -> orthonormal (Box_frame b)) /\
  Block._collision_mesh self = None /\
  Block._face_polygons self <> None.

(** Such a block after [transform(T)], attribute by attribute. *)
Definition Block_moved (T : Transformation) (self : Block.t) : Block.t :=
  Block.mk
    (moved_frame T (Block._frame self))
    (transform_point T (Block.geometry_simplified self))
    (Mesh_transform T (Block._geometry self))
    (match Block._aabb self with
     | Some _ => world_bounds_of (Mesh_vertices (Mesh_transform T (Block._geometry self))) 0
     | None => None
     end)
    (option_map (moved_box T) (Block._obb self))
    (Block._collision_mesh self)
    (moved_polygons T (Block._face_polygons self)).

(** The block with its AABB, when it has one, computed anew without
    inflation. *)
Definition Block_refreshed (self : Block.t) : Block.t :=
  Block.set_aabb
    (match Block._aabb self with
     | Some _ => world_bounds_of (Mesh_vertices (Block._geometry self)) 0
     | None => None
     end) self.



(** The eight corners of a box in the order of [box.corner]. *)
Definition Box_corners (b : Box) : list Point :=
  map (fun i => nth i (Box_vertices b) (mkVector 0 0 0)) [0; 1; 2; 3; 4; 7; 6; 5]%nat.

(** The point with the coordinates [(a, b, c)] in the frame [f]. *)
Definition in_frame (f : Frame) (a b c : R) : Point :=
  add_vectors (add_vectors (add_vectors (Frame_point f) (scale_vector (Frame_xaxis f) a))
                           (scale_vector (Frame_yaxis f) b))
              (scale_vector (Frame_zaxis f) c).

(* ====================================================================== *)
(** * Example instances *)
(* ====================================================================== *)

Definition worldXY : Frame :=
  mkFrame (mkVector 0 0 0) (mkVector 1 0 0) (mkVector 0 1 0).

(** The box of a beam of length 2, width 1 and height 1 on [worldXY]. *)
Definition long_box : Box :=
  mkBox (mkFrame (mkVector 1 0 0) (mkVector 1 0 0) (mkVector 0 1 0)) 2 1 1.

Definition long_beam : Beam.t :=
  Beam.mk worldXY (mkLine (mkVector 0 0 0) (mkVector 2 0 0)) long_box
          None None None None.

(** The same beam after [compute_aabb(1)]. *)
Definition long_beam_inflated : Beam.t :=
  Beam.set_aabb (Some (oriented_bounds long_box 1)) long_beam.

(** A frame turned about the world z axis (a 3-4-5 triangle). *)
Definition turned_frame : Frame :=
  mkFrame (mkVector 0 0 0) (mkVector (3 / 5) (4 / 5) 0) (mkVector (- 4 / 5) (3 / 5) 0).

(** The box of a beam of length 5, width 1 and height 1 on [turned_frame]. *)
Definition turned_box : Box :=
  mkBox (mkFrame (mkVector (3 / 2) 2 0) (mkVector (3 / 5) (4 / 5) 0)
                 (mkVector (- 4 / 5) (3 / 5) 0)) 5 1 1.

Definition turned_beam : Beam.t :=
  Beam.mk turned_frame (mkLine (mkVector 0 0 0) (mkVector 3 4 0)) turned_box
          None None None None.

Definition tetrahedron : Mesh :=
  mkMesh [mkVector 0 0 0; mkVector 1 0 0; mkVector 0 1 0; mkVector 0 0 1]
         [[0; 2; 1]; [0; 1; 3]; [1; 2; 3]; [0; 3; 2]]%nat.

(** A block over [tetrahedron] with no cache filled and an empty list of face
    polygons; its frame and its point are at the mean of the vertices. *)
Definition tetrahedron_block : Block.t :=
  Block.mk (mkFrame (mkVector (1 / 4) (1 / 4) (1 / 4)) (mkVector 1 0 0) (mkVector 0 1 0))
           (mkVector (1 / 4) (1 / 4) (1 / 4)) tetrahedron None None None (Some []).

(** The same block once its collision mesh is there. *)
Definition tetrahedron_block_with_collision_mesh : Block.t :=
  Block.set_collision_mesh (Some tetrahedron) tetrahedron_block.

(** The translation by (1, 0, 0). *)
Definition shift : Transformation :=
  mkTransformation 1 0 0 1
                   0 1 0 0
                   0 0 1 0.

(** A quarter turn about the world z axis, then the translation by (1, 2, 3). *)
Definition quarter_turn : Transformation :=
  mkTransformation 0 (-1) 0 1
                   1 0 0 2
                   0 0 1 3.

(** A hull routine that answers with the faces of [tetrahedron]. *)
Definition tetrahedron_hull (points : list Point) : result (list (list nat)) :=
  Ok [[0; 2; 1]; [0; 1; 3]; [1; 2; 3]; [0; 3; 2]]%nat.

(** A centroid routine that answers with the area-weighted centroid of the
    faces of [tetrahedron]. *)
Definition tetrahedron_centroid (mesh : Mesh) : result Point :=
  let c := (2 + sqrt 3) / (3 * (3 + sqrt 3)) in
  Ok (mkVector c c c).

(** An oriented-box routine that answers with the world-aligned corners. *)
Definition plain_obb (mesh : Mesh) : result (list Point) :=
  bounding_box (Mesh_vertices mesh).

(** A triangle in the plane [x = 0], and the block over it. *)
Definition flat_mesh : Mesh :=
  mkMesh [mkVector 0 0 0; mkVector 0 1 0; mkVector 0 0 1] [[0; 1; 2]]%nat.

Definition flat_block : Block.t :=
  Block.mk (mkFrame (mkVector 0 (1 / 3) (1 / 3)) (mkVector 1 0 0) (mkVector 0 1 0))
           (mkVector 0 (1 / 3) (1 / 3)) flat_mesh None None None (Some []).

(** An oriented-box routine that answers with the corners of [turned_box]. *)
Definition turned_corners (mesh : Mesh) : result (list Point) :=
  Ok (Box_vertices turned_box).

(** The centre axis of the beam of length 2, and an upright axis that
    points down. *)
Definition long_axis : Line := mkLine (mkVector 0 0 0) (mkVector 2 0 0).


(* ====================================================================== *)
(** * Facts about results and floats *)
(* ====================================================================== *)

(** A sequence that returns has returned from its first step. *)
Lemma bind_Ok {A B : Type} (m : result A) (k : A -> result B) (b : B) :
  bind m k = Ok b -> exists a, m = Ok a /\ k a = Ok b.
Proof. destruct m as [a|e]; simpl; [eauto | discriminate]. Qed.

Lemma pydiv_ok (a b : R) : b <> 0 -> pydiv a b = Ok (a / b).
Proof. intros H. unfold pydiv. destruct (Req_dec_T b 0); [contradiction | reflexivity]. Qed.

Lemma half_eq : 0.5 = / 2.
Proof. lra. Qed.

(** The factor of [Beam.compute_aabb]: multiplying [s] by it adds [i]. *)
Lemma inflate_factor (s i : R) : 0 < s -> pydiv (s + i) s = Ok ((s + i) / s) /\ s * ((s + i) / s) = s + i.
Proof. intros H. split; [apply pydiv_ok; lra | field; lra]. Qed.

(* ====================================================================== *)
(** * Facts about the geometry kernel *)
(* ====================================================================== *)

(** ** Vectors *)

Lemma vector_eq (u v : Vector) :
  vx u = vx v -> vy u = vy v -> vz u = vz v -> u = v.
Proof. destruct u, v; simpl; intros; subst; reflexivity. Qed.

Ltac vector_field := apply vector_eq; simpl; rewrite ?half_eq; field.

Ltac numbers := unfold dot_vectors; simpl; lra.

(** Equal lists of polygons, point by point. *)
Ltac same_points :=
  repeat match goal with
         | |- Ok _ = Ok _ => f_equal
         | |- _ :: _ = _ :: _ => f_equal
         | |- mkPolygon _ = mkPolygon _ => f_equal
         | |- mkVector _ _ _ = mkVector _ _ _ => apply vector_eq; simpl; lra
         end.

Lemma dot_vectors_comm (u v : Vector) : dot_vectors u v = dot_vectors v u.
Proof. unfold dot_vectors; ring. Qed.

Lemma dot_scale (v : Vector) (s : R) :
  dot_vectors (scale_vector v s) (scale_vector v s) = (s * s) * dot_vectors v v.
Proof. unfold dot_vectors, scale_vector; simpl; ring. Qed.

Lemma dot_cross_left (x y : Vector) : dot_vectors (cross_vectors x y) x = 0.
Proof. unfold dot_vectors, cross_vectors; simpl; ring. Qed.

Lemma dot_cross_right (x y : Vector) : dot_vectors (cross_vectors x y) y = 0.
Proof. unfold dot_vectors, cross_vectors; simpl; ring. Qed.

Lemma cross_vectors_swap (x y : Vector) :
  cross_vectors y x = negate_vector (cross_vectors x y).
Proof. apply vector_eq; simpl; ring. Qed.


Lemma length_vector_unit (v : Vector) : dot_vectors v v = 1 -> length_vector v = 1.
Proof. intros H. unfold length_vector. rewrite H. apply sqrt_1. Qed.

Lemma length_vector_scale (v : Vector) (s : R) :
  dot_vectors v v = 1 -> 0 <= s -> length_vector (scale_vector v s) = s.
Proof.
  intros H Hs. unfold length_vector. rewrite dot_scale, H, Rmult_1_r.
  apply sqrt_square; assumption.
Qed.

(** Unitizing a unit vector changes nothing. *)
Lemma unitize_unit (v : Vector) : dot_vectors v v = 1 -> unitize v = Ok v.
Proof.
  intros H. unfold unitize. rewrite (length_vector_unit v H).
  rewrite !pydiv_ok by lra. simpl.
  f_equal. apply vector_eq; simpl; field.
Qed.

Lemma unitize_scale (v : Vector) (s : R) :
  dot_vectors v v = 1 -> 0 < s -> unitize (scale_vector v s) = Ok v.
Proof.
  intros H Hs. unfold unitize.
  rewrite (length_vector_scale v s H) by lra.
  rewrite !pydiv_ok by lra. simpl.
  f_equal. apply vector_eq; simpl; field; lra.
Qed.

Section Orthonormal.

Variables x y : Vector.
Hypothesis x_unit : dot_vectors x x = 1.
Hypothesis y_unit : dot_vectors y y = 1.
Hypothesis x_y_perpendicular : dot_vectors x y = 0.

Lemma cross_unit : dot_vectors (cross_vectors x y) (cross_vectors x y) = 1.
Proof.
  replace (dot_vectors (cross_vectors x y) (cross_vectors x y))
    with (dot_vectors x x * dot_vectors y y - dot_vectors x y * dot_vectors x y)
    by (unfold dot_vectors, cross_vectors; simpl; ring).
  rewrite x_unit, y_unit, x_y_perpendicular. ring.
Qed.

Lemma cross_cross : cross_vectors (cross_vectors x y) x = y.
Proof.
  apply vector_eq; simpl.
  - transitivity (vx y * dot_vectors x x - vx x * dot_vectors x y);
      [unfold dot_vectors; ring | rewrite x_unit, x_y_perpendicular; ring].
  - transitivity (vy y * dot_vectors x x - vy x * dot_vectors x y);
      [unfold dot_vectors; ring | rewrite x_unit, x_y_perpendicular; ring].
  - transitivity (vz y * dot_vectors x x - vz x * dot_vectors x y);
      [unfold dot_vectors; ring | rewrite x_unit, x_y_perpendicular; ring].
Qed.

(** The setters of a frame leave orthonormal axes as they are. *)
Lemma Frame_set_axes (p : Point) (x0 y0 : Vector) :
  (f <- Frame_set_xaxis (mkFrame p x0 y0) x ;; Frame_set_yaxis f y)
  = Ok (mkFrame p x y).
Proof.
  unfold Frame_set_xaxis, Frame_set_yaxis. simpl.
  rewrite (unitize_unit x x_unit). simpl.
  rewrite (unitize_unit y y_unit). simpl.
  rewrite (unitize_unit _ cross_unit). simpl.
  rewrite cross_cross. reflexivity.
Qed.

(** [Frame(p, a x, b y)] is the frame of [x] and [y]. *)
Lemma Frame_init_scaled (p : Point) (a b : R) :
  0 < a -> 0 < b ->
  Frame___init__ p (scale_vector x a) (scale_vector y b) = Ok (mkFrame p x y).
Proof.
  intros Ha Hb.
  unfold Frame___init__, Frame_set_xaxis, Frame_set_yaxis. simpl.
  rewrite (unitize_scale x a x_unit Ha). simpl.
  rewrite (unitize_scale y b y_unit Hb). simpl.
  rewrite (unitize_unit _ cross_unit). simpl.
  rewrite cross_cross. reflexivity.
Qed.

End Orthonormal.

Lemma Frame_init_world (p : Point) :
  Frame___init__ p (mkVector 1 0 0) (mkVector 0 1 0)
  = Ok (mkFrame p (mkVector 1 0 0) (mkVector 0 1 0)).
Proof. apply Frame_set_axes; numbers. Qed.

(** ** Boxes *)

Lemma Box_set_xsize_ok (b : Box) (v : R) :
  0 <= v -> Box_set_xsize b v = Ok (mkBox (Box_frame b) v (Box_ysize b) (Box_zsize b)).
Proof. intros H. unfold Box_set_xsize. destruct (Rlt_dec v 0); [lra | reflexivity]. Qed.

Lemma Box_set_ysize_ok (b : Box) (v : R) :
  0 <= v -> Box_set_ysize b v = Ok (mkBox (Box_frame b) (Box_xsize b) v (Box_zsize b)).
Proof. intros H. unfold Box_set_ysize. destruct (Rlt_dec v 0); [lra | reflexivity]. Qed.

Lemma Box_set_zsize_ok (b : Box) (v : R) :
  0 <= v -> Box_set_zsize b v = Ok (mkBox (Box_frame b) (Box_xsize b) (Box_ysize b) v).
Proof. intros H. unfold Box_set_zsize. destruct (Rlt_dec v 0); [lra | reflexivity]. Qed.

Lemma Box_init_ok (x y z : R) (f : Frame) :
  0 <= x -> 0 <= y -> 0 <= z -> Box___init__ x y z f = Ok (mkBox f x y z).
Proof.
  intros Hx Hy Hz. unfold Box___init__.
  rewrite Box_set_xsize_ok by assumption. simpl.
  rewrite Box_set_ysize_ok by assumption. simpl.
  rewrite Box_set_zsize_ok by assumption. reflexivity.
Qed.

Lemma Box_init_sizes (x y z : R) (f : Frame) (b : Box) :
  Box___init__ x y z f = Ok b ->
  b = mkBox f x y z /\ 0 <= x /\ 0 <= y /\ 0 <= z.
Proof.
  unfold Box___init__, Box_set_xsize, Box_set_ysize, Box_set_zsize.
  destruct (Rlt_dec x 0); [discriminate |]. cbn [bind].
  destruct (Rlt_dec y 0); [discriminate |]. cbn [bind].
  destruct (Rlt_dec z 0); [discriminate |]. simpl.
  intros H; injection H as <-. repeat split; lra.
Qed.

(** [[box.corner(i) for i in range(8)]] is [box.vertices]. *)
Lemma corners_of_box (b : Box) : mapM (Box_corner b) (seq 0 8) = Ok (Box_corners b).
Proof. reflexivity. Qed.

(** The corners in the order of [box.corner] are the vertices. *)
Lemma Box_corners_vertices (b : Box) (v : Point) :
  In v (Box_corners b) <-> In v (Box_vertices b).
Proof.
  unfold Box_corners, Box_vertices. cbv zeta. cbn [map nth In]. tauto.
Qed.

(** The offset of a corner from the centre, measured along [w]. *)
Lemma corner_along (p x y z w : Vector) (a b c : R) :
  dot_vectors
    (subtract_vectors
       (add_vectors (add_vectors (add_vectors p (scale_vector x a)) (scale_vector y b))
                    (scale_vector z c)) p) w
  = a * dot_vectors x w + b * dot_vectors y w + c * dot_vectors z w.
Proof. unfold dot_vectors; simpl; ring. Qed.

Lemma top_corner_along (p x y z w : Vector) (a b c d : R) :
  dot_vectors
    (subtract_vectors
       (add_vectors
          (add_vectors (add_vectors (add_vectors p (scale_vector x a)) (scale_vector y b))
                       (scale_vector z c))
          (scale_vector z d)) p) w
  = a * dot_vectors x w + b * dot_vectors y w + (c + d) * dot_vectors z w.
Proof. unfold dot_vectors; simpl; ring. Qed.

(** [Box.from_bounding_box] on the corners of a box: the same solid, with
    the x and y axes swapped. *)
Lemma from_bounding_box_corners (b : Box) :
  well_formed_box b ->
  Box_from_bounding_box (Box_corners b) =
  Ok (mkBox (mkFrame (Frame_point (Box_frame b)) (Frame_yaxis (Box_frame b))
                     (Frame_xaxis (Box_frame b)))
            (Box_ysize b) (Box_xsize b) (Box_zsize b)).
Proof.
  intros [[Hx [Hy Hxy]] [Hsx [Hsy Hsz]]].
  destruct b as [[p x y] sx sy sz]; simpl in *.
  assert (Hz : dot_vectors (cross_vectors x y) (cross_vectors x y) = 1)
    by (apply cross_unit; assumption).
  unfold Box_from_bounding_box, Box_corners, Box_vertices, Frame_zaxis; simpl.
  match goal with |- context [Frame___init__ ?c ?u ?v] =>
    replace c with p by vector_field;
    replace u with (scale_vector y sy) by vector_field;
    replace v with (scale_vector x sx) by vector_field
  end.
  rewrite Frame_init_scaled; try assumption; [| rewrite dot_vectors_comm; assumption].
  simpl.
  match goal with |- context [Box___init__ _ _ (length_vector ?w) _] =>
    replace w with (scale_vector (cross_vectors x y) sz) by vector_field
  end.
  rewrite !length_vector_scale by (assumption || lra).
  apply Box_init_ok; lra.
Qed.

(** ** Bounding boxes *)

Lemma minimum_le_head (xs : list R) : forall x, minimum x xs <= x.
Proof.
  unfold minimum. induction xs as [|y ys IH]; intros x; simpl; [lra |].
  eapply Rle_trans; [apply IH | apply Rmin_l].
Qed.

Lemma minimum_le (xs : list R) : forall x y, In y xs -> minimum x xs <= y.
Proof.
  unfold minimum. induction xs as [|z zs IH]; intros x y Hy; simpl; [destruct Hy |].
  destruct Hy as [<- | Hy].
  - eapply Rle_trans; [apply (minimum_le_head zs) | apply Rmin_r].
  - apply IH; assumption.
Qed.

Lemma maximum_ge_head (xs : list R) : forall x, x <= maximum x xs.
Proof.
  unfold maximum. induction xs as [|y ys IH]; intros x; simpl; [lra |].
  eapply Rle_trans; [apply Rmax_l | apply IH].
Qed.

Lemma maximum_ge (xs : list R) : forall x y, In y xs -> y <= maximum x xs.
Proof.
  unfold maximum. induction xs as [|z zs IH]; intros x y Hy; simpl; [destruct Hy |].
  destruct Hy as [<- | Hy].
  - eapply Rle_trans; [apply Rmax_r | apply (maximum_ge_head zs)].
  - apply IH; assumption.
Qed.

Lemma minimum_le_maximum (x : R) (xs : list R) : minimum x xs <= maximum x xs.
Proof. eapply Rle_trans; [apply minimum_le_head | apply maximum_ge_head]. Qed.

Lemma minimum_le_in (x y : R) (xs : list R) : In y (x :: xs) -> minimum x xs <= y.
Proof. intros [<- | H]; [apply minimum_le_head | apply minimum_le; assumption]. Qed.

Lemma maximum_ge_in (x y : R) (xs : list R) : In y (x :: xs) -> y <= maximum x xs.
Proof. intros [<- | H]; [apply maximum_ge_head | apply maximum_ge; assumption]. Qed.

(** Two points that differ in a coordinate give the bounding box an extent. *)
Lemma extent_positive (f : Point -> R) (p : Point) (ps : list Point) (q r : Point) :
  In q (p :: ps) -> In r (p :: ps) -> f q <> f r ->
  minimum (f p) (map f ps) < maximum (f p) (map f ps).
Proof.
  intros Hq Hr Hqr.
  pose proof (minimum_le_in (f p) (f q) (map f ps) (in_map f (p :: ps) q Hq)).
  pose proof (minimum_le_in (f p) (f r) (map f ps) (in_map f (p :: ps) r Hr)).
  pose proof (maximum_ge_in (f p) (f q) (map f ps) (in_map f (p :: ps) q Hq)).
  pose proof (maximum_ge_in (f p) (f r) (map f ps) (in_map f (p :: ps) r Hr)).
  destruct (Rlt_dec (minimum (f p) (map f ps)) (maximum (f p) (map f ps))); lra.
Qed.

Ltac min_max :=
  repeat match goal with
         | |- context [Rmin ?u ?v] =>
           first [rewrite (Rmin_left u v) by lra | rewrite (Rmin_right u v) by lra]
         | |- context [Rmax ?u ?v] =>
           first [rewrite (Rmax_left u v) by lra | rewrite (Rmax_right u v) by lra]
         end.

(** The bounding box of the corners of a bounding box is that box. *)
Lemma bounding_box_corners (a b c d e f : R) :
  a <= b -> c <= d -> e <= f ->
  bounding_box [mkVector a c e; mkVector b c e; mkVector b d e; mkVector a d e;
                mkVector a c f; mkVector b c f; mkVector b d f; mkVector a d f]
  = Ok [mkVector a c e; mkVector b c e; mkVector b d e; mkVector a d e;
        mkVector a c f; mkVector b c f; mkVector b d f; mkVector a d f].
Proof.
  intros Hab Hcd Hef. unfold bounding_box, minimum, maximum; simpl.
  min_max. reflexivity.
Qed.

(** [Box.from_bounding_box] on the corners of a bounding box. *)
Lemma from_bounding_box_world (a b c d e f : R) :
  a < b -> c < d -> e <= f ->
  Box_from_bounding_box
    [mkVector a c e; mkVector b c e; mkVector b d e; mkVector a d e;
     mkVector a c f; mkVector b c f; mkVector b d f; mkVector a d f]
  = Ok (mkBox (mkFrame (mkVector ((a + b) / 2) ((c + d) / 2) ((e + f) / 2))
                      (mkVector 1 0 0) (mkVector 0 1 0))
              (b - a) (d - c) (f - e)).
Proof.
  intros Hab Hcd Hef.
  assert (Hx : dot_vectors (mkVector 1 0 0) (mkVector 1 0 0) = 1)
    by (unfold dot_vectors; simpl; lra).
  assert (Hy : dot_vectors (mkVector 0 1 0) (mkVector 0 1 0) = 1)
    by (unfold dot_vectors; simpl; lra).
  assert (Hz : dot_vectors (mkVector 0 0 1) (mkVector 0 0 1) = 1)
    by (unfold dot_vectors; simpl; lra).
  assert (Hxy : dot_vectors (mkVector 1 0 0) (mkVector 0 1 0) = 0)
    by (unfold dot_vectors; simpl; lra).
  unfold Box_from_bounding_box; simpl.
  match goal with |- context [Frame___init__ ?p ?u ?v] =>
    replace p with (mkVector ((a + b) / 2) ((c + d) / 2) ((e + f) / 2))
      by vector_field;
    replace u with (scale_vector (mkVector 1 0 0) (b - a)) by vector_field;
    replace v with (scale_vector (mkVector 0 1 0) (d - c)) by vector_field
  end.
  rewrite Frame_init_scaled by (assumption || lra). simpl.
  match goal with |- context [Box___init__ _ _ (length_vector ?w) _] =>
    replace w with (scale_vector (mkVector 0 0 1) (f - e)) by vector_field
  end.
  rewrite !length_vector_scale by (assumption || lra).
  apply Box_init_ok; lra.
Qed.

Lemma Box_from_points_sizes (points : list Point) (b : Box) :
  Box_from_points points = Ok b ->
  0 <= Box_xsize b /\ 0 <= Box_ysize b /\ 0 <= Box_zsize b.
Proof.
  unfold Box_from_points, Box_from_bounding_box. intros H.
  do 7 (apply bind_Ok in H; destruct H as (? & _ & H)).
  apply Box_init_sizes in H. destruct H as (-> & H). exact H.
Qed.

(** The three [+= inflate] of [Block.compute_aabb] and [Block.compute_obb]. *)
Lemma inflate_additive (b : Box) (inflate : R) :
  0 <= Box_xsize b -> 0 <= Box_ysize b -> 0 <= Box_zsize b -> 0 <= inflate ->
  (b1 <- Box_set_xsize b (Box_xsize b + inflate) ;;
   b2 <- Box_set_ysize b1 (Box_ysize b1 + inflate) ;;
   Box_set_zsize b2 (Box_zsize b2 + inflate)) = Ok (grown b inflate).
Proof.
  intros Hx Hy Hz Hi.
  rewrite Box_set_xsize_ok by lra. cbn [bind].
  rewrite Box_set_ysize_ok by (simpl; lra). cbn [bind].
  rewrite Box_set_zsize_ok by (simpl; lra). reflexivity.
Qed.

(** Sizes grown by one positive margin keep their proportions exactly when
    they are equal. *)
Lemma grown_sizes_proportional (x y z i : R) :
  0 < x -> 0 < y -> 0 < z -> 0 < i ->
  (exists k : R, x + i = k * x /\ y + i = k * y /\ z + i = k * z) <-> x = y /\ y = z.
Proof.
  intros Hx Hy Hz Hi. split.
  - intros (k & Ex & Ey & Ez).
    assert (Hk : k - 1 <> 0) by (intros E; nra).
    split; apply (Rmult_eq_reg_l (k - 1)); try assumption; nra.
  - intros [-> ->]. exists ((z + i) / z). repeat split; field; lra.
Qed.

Lemma grown_multiplied (g : Box) (i : R) :
  0 < Box_xsize g -> 0 < Box_ysize g -> 0 < Box_zsize g ->
  multiplied g (grown g i) i /\ multiplied (oriented_bounds g 0) (oriented_bounds g i) i.
Proof.
  intros Hx Hy Hz. unfold multiplied, grown, oriented_bounds.
  cbn [Box_xsize Box_ysize Box_zsize]. rewrite !Rplus_0_r.
  repeat split; field; lra.
Qed.

Lemma grown_proportional (g : Box) (i : R) :
  0 < Box_xsize g -> 0 < Box_ysize g -> 0 < Box_zsize g -> 0 < i ->
  proportional g (grown g i) <-> Box_xsize g = Box_ysize g /\ Box_ysize g = Box_zsize g.
Proof. intros Hx Hy Hz Hi. apply grown_sizes_proportional; assumption. Qed.

Lemma oriented_bounds_proportional (g : Box) (i : R) :
  0 < Box_xsize g -> 0 < Box_ysize g -> 0 < Box_zsize g -> 0 < i ->
  proportional (oriented_bounds g 0) (oriented_bounds g i)
  <-> Box_xsize g = Box_ysize g /\ Box_ysize g = Box_zsize g.
Proof.
  intros Hx Hy Hz Hi. unfold proportional, oriented_bounds. cbn [Box_xsize Box_ysize Box_zsize].
  rewrite !Rplus_0_r.
  pose proof (grown_sizes_proportional (Box_ysize g) (Box_xsize g) (Box_zsize g) i
                Hy Hx Hz Hi) as H.
  split.
  - intros Hk. apply H in Hk. destruct Hk as [E1 E2]. split; congruence.
  - intros [E1 E2]. apply H. split; congruence.
Qed.

Lemma grown_grown (b : Box) (i : R) : grown (grown b 0) i = grown b i.
Proof. unfold grown; simpl. f_equal; lra. Qed.

(** The world box of a list of points is parallel to the world axes ... *)
Lemma world_bounds_aligned (p : Point) (ps : list Point) (inflate : R) :
  world_aligned (world_bounds p ps inflate).
Proof. unfold world_aligned, along_world_axis; simpl. lra. Qed.

(** ... and holds every one of the points. *)
Lemma world_bounds_encloses (p q : Point) (ps : list Point) (inflate : R) :
  0 <= inflate -> In q (p :: ps) -> inside (world_bounds p ps inflate) q.
Proof.
  intros Hi Hq.
  pose proof (minimum_le_in (vx p) (vx q) (map vx ps) (in_map vx (p :: ps) q Hq)).
  pose proof (maximum_ge_in (vx p) (vx q) (map vx ps) (in_map vx (p :: ps) q Hq)).
  pose proof (minimum_le_in (vy p) (vy q) (map vy ps) (in_map vy (p :: ps) q Hq)).
  pose proof (maximum_ge_in (vy p) (vy q) (map vy ps) (in_map vy (p :: ps) q Hq)).
  pose proof (minimum_le_in (vz p) (vz q) (map vz ps) (in_map vz (p :: ps) q Hq)).
  pose proof (maximum_ge_in (vz p) (vz q) (map vz ps) (in_map vz (p :: ps) q Hq)).
  unfold inside, world_bounds, dot_vectors; simpl.
  repeat split; apply Rabs_le; lra.
Qed.

Lemma solid_not_empty (ps : list Point) : solid ps -> ps <> [].
Proof.
  intros H E. subst ps.
  destruct (H (mkVector 1 0 0)) as (p & q & [] & _).
  unfold dot_vectors; simpl; lra.
Qed.

Lemma solid_extent_x (p : Point) (ps : list Point) :
  solid (p :: ps) -> minimum (vx p) (map vx ps) < maximum (vx p) (map vx ps).
Proof.
  intros H. destruct (H (mkVector 1 0 0)) as (q & r & Hq & Hr & Hqr);
    [unfold dot_vectors; simpl; lra |].
  apply (extent_positive vx p ps q r Hq Hr).
  unfold dot_vectors in Hqr; simpl in Hqr. lra.
Qed.

Lemma solid_extent_y (p : Point) (ps : list Point) :
  solid (p :: ps) -> minimum (vy p) (map vy ps) < maximum (vy p) (map vy ps).
Proof.
  intros H. destruct (H (mkVector 0 1 0)) as (q & r & Hq & Hr & Hqr);
    [unfold dot_vectors; simpl; lra |].
  apply (extent_positive vy p ps q r Hq Hr).
  unfold dot_vectors in Hqr; simpl in Hqr. lra.
Qed.

(** The box read off the corners of a box holds these corners. *)
Lemma oriented_bounds_encloses (g : Box) (inflate : R) (v : Point) :
  well_formed_box g -> 0 <= inflate -> In v (Box_vertices g) ->
  inside (oriented_bounds g inflate) v.
Proof.
  intros ((Hx & Hy & Hxy) & Hsx & Hsy & Hsz) Hi Hv.
  destruct g as [[p x y] sx sy sz]; simpl in *.
  pose proof (cross_unit x y Hx Hy Hxy) as Hz.
  pose proof (dot_cross_left x y) as Hzx.
  pose proof (dot_cross_right x y) as Hzy.
  assert (Hyx : dot_vectors y x = 0) by (rewrite dot_vectors_comm; exact Hxy).
  assert (Hxz : dot_vectors x (cross_vectors x y) = 0)
    by (rewrite dot_vectors_comm; exact Hzx).
  assert (Hyz : dot_vectors y (cross_vectors x y) = 0)
    by (rewrite dot_vectors_comm; exact Hzy).
  assert (Hneg : forall u, dot_vectors u (negate_vector (cross_vectors x y))
                           = - dot_vectors u (cross_vectors x y))
    by (intros u; unfold dot_vectors; simpl; ring).
  unfold inside, oriented_bounds, Frame_zaxis; simpl.
  rewrite (cross_vectors_swap x y).
  unfold Box_vertices, Frame_zaxis in Hv; simpl in Hv.
  repeat (destruct Hv as [<- | Hv]);
    try (rewrite ?corner_along, ?top_corner_along, ?Hneg, ?Hx, ?Hy, ?Hxy, ?Hyx,
           ?Hz, ?Hzx, ?Hzy, ?Hxz, ?Hyz;
         repeat split; apply Rabs_le; lra).
Qed.

(** ** Rigid transformations *)

Lemma sum_squares_zero (a b c : R) : a * a + b * b + c * c = 0 -> a = 0 /\ b = 0 /\ c = 0.
Proof. intros H. repeat split; nra. Qed.

Lemma dot_transform_point (T : Transformation) (n : Vector) (p : Point) :
  dot_vectors n (transform_point T p)
  = dot_vectors (transform_vector (transpose T) n) p
    + dot_vectors n (mkVector (t1 T) (t2 T) (t3 T)).
Proof. unfold dot_vectors, transform_point, transform_vector, transpose; simpl; ring. Qed.

Section Rigid.

Variable T : Transformation.
Hypothesis T_rigid : is_rigid T.

(** A rotation keeps dot products. *)
Lemma rigid_dot (u v : Vector) :
  dot_vectors (transform_vector T u) (transform_vector T v) = dot_vectors u v.
Proof.
  destruct T_rigid as (H11 & H22 & H33 & H12 & H13 & H23 & _).
  transitivity
    (vx u * vx v * (m11 T * m11 T + m21 T * m21 T + m31 T * m31 T)
     + vy u * vy v * (m12 T * m12 T + m22 T * m22 T + m32 T * m32 T)
     + vz u * vz v * (m13 T * m13 T + m23 T * m23 T + m33 T * m33 T)
     + (vx u * vy v + vy u * vx v) * (m11 T * m12 T + m21 T * m22 T + m31 T * m32 T)
     + (vx u * vz v + vz u * vx v) * (m11 T * m13 T + m21 T * m23 T + m31 T * m33 T)
     + (vy u * vz v + vz u * vy v) * (m12 T * m13 T + m22 T * m23 T + m32 T * m33 T)).
  - unfold dot_vectors, transform_vector; simpl; ring.
  - rewrite H11, H22, H33, H12, H13, H23. unfold dot_vectors; ring.
Qed.

Lemma moved_frame_orthonormal (f : Frame) :
  orthonormal f -> orthonormal (moved_frame T f).
Proof.
  intros (Hx & Hy & Hxy). unfold orthonormal; simpl.
  rewrite !rigid_dot. auto.
Qed.

(** [frame.transform(T)] maps origin and axes; the setters change nothing. *)
Lemma Frame_transform_rigid (f : Frame) :
  orthonormal f -> Frame_transform T f = Ok (moved_frame T f).
Proof.
  intros Hf. destruct (moved_frame_orthonormal f Hf) as (Hx & Hy & Hxy).
  unfold Frame_transform. apply (Frame_set_axes _ _ Hx Hy Hxy).
Qed.

Lemma Box_transform_rigid (b : Box) :
  orthonormal (Box_frame b) -> Box_transform T b = Ok (moved_box T b).
Proof.
  intros Hb. unfold Box_transform. rewrite Frame_transform_rigid by assumption.
  reflexivity.
Qed.

Lemma moved_box_well_formed (b : Box) :
  well_formed_box b -> well_formed_box (moved_box T b).
Proof.
  intros (Hf & Hs). split; [apply moved_frame_orthonormal; assumption | exact Hs].
Qed.

(** In a rotation matrix every entry is its own cofactor. *)
Lemma rigid_cofactors :
  (m22 T * m33 T - m23 T * m32 T = m11 T /\
   m13 T * m32 T - m12 T * m33 T = m21 T /\
   m12 T * m23 T - m13 T * m22 T = m31 T) /\
  (m23 T * m31 T - m21 T * m33 T = m12 T /\
   m11 T * m33 T - m13 T * m31 T = m22 T /\
   m13 T * m21 T - m11 T * m23 T = m32 T) /\
  (m21 T * m32 T - m22 T * m31 T = m13 T /\
   m12 T * m31 T - m11 T * m32 T = m23 T /\
   m11 T * m22 T - m12 T * m21 T = m33 T).
Proof.
  destruct T_rigid as (H11 & H22 & H33 & H12 & H13 & H23 & Hd).
  unfold determinant in Hd.
  destruct T as [a b c tx d e f ty g h i tz]; simpl in *.
  assert (K1 : (e * i - f * h - a) * (e * i - f * h - a)
             + (c * h - b * i - d) * (c * h - b * i - d)
             + (b * f - c * e - g) * (b * f - c * e - g) = 0).
  { transitivity ((b * b + e * e + h * h) * (c * c + f * f + i * i)
                  - (b * c + e * f + h * i) * (b * c + e * f + h * i)
                  - 2 * (a * (e * i - f * h) - b * (d * i - f * g) + c * (d * h - e * g))
                  + (a * a + d * d + g * g));
      [ring | rewrite H11, H22, H33, H23, Hd; ring]. }
  assert (K2 : (f * g - d * i - b) * (f * g - d * i - b)
             + (a * i - c * g - e) * (a * i - c * g - e)
             + (c * d - a * f - h) * (c * d - a * f - h) = 0).
  { transitivity ((a * a + d * d + g * g) * (c * c + f * f + i * i)
                  - (a * c + d * f + g * i) * (a * c + d * f + g * i)
                  - 2 * (a * (e * i - f * h) - b * (d * i - f * g) + c * (d * h - e * g))
                  + (b * b + e * e + h * h));
      [ring | rewrite H11, H22, H33, H13, Hd; ring]. }
  assert (K3 : (d * h - e * g - c) * (d * h - e * g - c)
             + (b * g - a * h - f) * (b * g - a * h - f)
             + (a * e - b * d - i) * (a * e - b * d - i) = 0).
  { transitivity ((a * a + d * d + g * g) * (b * b + e * e + h * h)
                  - (a * b + d * e + g * h) * (a * b + d * e + g * h)
                  - 2 * (a * (e * i - f * h) - b * (d * i - f * g) + c * (d * h - e * g))
                  + (c * c + f * f + i * i));
      [ring | rewrite H11, H22, H33, H12, Hd; ring]. }
  apply sum_squares_zero in K1, K2, K3.
  repeat split; lra.
Qed.

(** [T.inverse()] of a rigid [T] is its transpose ... *)
Lemma inverse_rigid : Transformation_inverse T = Ok (transpose T).
Proof.
  pose proof rigid_cofactors
    as ((C11 & C12 & C13) & (C21 & C22 & C23) & (C31 & C32 & C33)).
  destruct T_rigid as (_ & _ & _ & _ & _ & _ & Hd).
  unfold Transformation_inverse.
  destruct (Req_dec_T (determinant T) 0); [lra |].
  rewrite Hd, C11, C12, C13, C21, C22, C23, C31, C32, C33.
  unfold transpose. f_equal. f_equal; field.
Qed.

(** ... which is rigid too. *)
Lemma transpose_rigid : is_rigid (transpose T).
Proof.
  pose proof rigid_cofactors
    as ((C11 & C12 & C13) & (C21 & C22 & C23) & (C31 & C32 & C33)).
  destruct T_rigid as (H11 & H22 & H33 & H12 & H13 & H23 & Hd).
  unfold determinant in Hd.
  destruct T as [a b c tx d e f ty g h i tz]; simpl in *.
  unfold is_rigid, determinant; simpl.
  repeat split.
  - rewrite <- C11 at 1. rewrite <- C21 at 1. rewrite <- C31 at 1. lra.
  - rewrite <- C12 at 1. rewrite <- C22 at 1. rewrite <- C32 at 1. lra.
  - rewrite <- C13 at 1. rewrite <- C23 at 1. rewrite <- C33 at 1. lra.
  - rewrite <- C11 at 1. rewrite <- C21 at 1. rewrite <- C31 at 1. lra.
  - rewrite <- C11 at 1. rewrite <- C21 at 1. rewrite <- C31 at 1. lra.
  - rewrite <- C12 at 1. rewrite <- C22 at 1. rewrite <- C32 at 1. lra.
  - lra.
Qed.

End Rigid.

(** A solid stays one under a rigid motion. *)
Lemma solid_moved (T : Transformation) (ps : list Point) :
  is_rigid T -> solid ps -> solid (map (transform_point T) ps).
Proof.
  intros HT H n Hn.
  destruct (H (transform_vector (transpose T) n)) as (p & q & Hp & Hq & Hpq).
  - rewrite rigid_dot by (apply transpose_rigid; assumption). exact Hn.
  - exists (transform_point T p), (transform_point T q).
    repeat split; try (apply in_map; assumption).
    rewrite !dot_transform_point. lra.
Qed.

(** ** Moving there and back *)

Section Inverse.

Variables T T' : Transformation.
Hypothesis T'_inverse : Transformation_inverse T = Ok T'.

Lemma inverse_vector (v : Vector) :
  transform_vector T' (transform_vector T v) = v.
Proof.
  revert T'_inverse. unfold Transformation_inverse.
  destruct (Req_dec_T (determinant T) 0) as [|Hd]; [discriminate |].
  intros H; injection H as <-. unfold determinant in Hd.
  apply vector_eq; unfold determinant; simpl; field; exact Hd.
Qed.

Lemma inverse_point (p : Point) :
  transform_point T' (transform_point T p) = p.
Proof.
  revert T'_inverse. unfold Transformation_inverse.
  destruct (Req_dec_T (determinant T) 0) as [|Hd]; [discriminate |].
  intros H; injection H as <-. unfold determinant in Hd.
  apply vector_eq; unfold determinant; simpl; field; exact Hd.
Qed.

Lemma points_inverse (ps : list Point) :
  map (transform_point T') (map (transform_point T) ps) = ps.
Proof.
  induction ps as [|p ps IH]; simpl; [reflexivity |].
  rewrite inverse_point, IH. reflexivity.
Qed.

Lemma moved_frame_inverse (f : Frame) : moved_frame T' (moved_frame T f) = f.
Proof.
  destruct f as [p x y]. unfold moved_frame; simpl.
  rewrite inverse_point, !inverse_vector. reflexivity.
Qed.

Lemma moved_box_inverse (b : Box) : moved_box T' (moved_box T b) = b.
Proof.
  destruct b as [f x y z]. unfold moved_box; simpl.
  rewrite moved_frame_inverse. reflexivity.
Qed.

Lemma Line_transform_inverse (l : Line) : Line_transform T' (Line_transform T l) = l.
Proof.
  destruct l as [a b]. unfold Line_transform; simpl.
  rewrite !inverse_point. reflexivity.
Qed.

Lemma Mesh_transform_inverse (m : Mesh) : Mesh_transform T' (Mesh_transform T m) = m.
Proof.
  destruct m as [vs fs]. unfold Mesh_transform; simpl.
  rewrite points_inverse. reflexivity.
Qed.

Lemma Polygon_transform_inverse (p : Polygon) :
  Polygon_transform T' (Polygon_transform T p) = p.
Proof.
  destruct p as [ps]. unfold Polygon_transform; simpl.
  rewrite points_inverse. reflexivity.
Qed.

Lemma moved_polygons_inverse (v : option (list Polygon)) :
  moved_polygons T' (moved_polygons T v) = v.
Proof.
  destruct v as [[|p ps]|]; simpl; try reflexivity.
  rewrite Polygon_transform_inverse. do 2 f_equal.
  induction ps as [|q qs IH]; simpl; [reflexivity |].
  rewrite Polygon_transform_inverse, IH. reflexivity.
Qed.

Lemma Beam_moved_inverse (self : Beam.t) :
  Beam_moved T' (Beam_moved T self) = Beam_refreshed self.
Proof.
  destruct self as [frame gs geometry aabb obb mesh polygons].
  unfold Beam_moved, Beam_refreshed, Beam.set_aabb; simpl.
  rewrite moved_frame_inverse, Line_transform_inverse, moved_box_inverse,
    moved_polygons_inverse.
  f_equal.
  - destruct aabb; reflexivity.
  - destruct obb as [o|]; simpl; [rewrite moved_box_inverse |]; reflexivity.
  - destruct mesh as [m|]; simpl; [rewrite Mesh_transform_inverse |]; reflexivity.
Qed.

Lemma Block_moved_inverse (self : Block.t) :
  Block_moved T' (Block_moved T self) = Block_refreshed self.
Proof.
  destruct self as [frame gs geometry aabb obb mesh polygons].
  unfold Block_moved, Block_refreshed, Block.set_aabb; simpl.
  rewrite moved_frame_inverse, inverse_point, points_inverse, moved_polygons_inverse.
  replace (Mesh_transform T' (Mesh_transform T geometry)) with geometry
    by (symmetry; apply Mesh_transform_inverse).
  f_equal.
  - destruct aabb as [a|]; [| reflexivity].
    destruct (Mesh_vertices geometry) as [|p ps]; reflexivity.
  - destruct obb as [o|]; simpl; [rewrite moved_box_inverse |]; reflexivity.
Qed.

End Inverse.

(* ====================================================================== *)
(** * The constructors *)
(* ====================================================================== *)

(** A keyword that names no parameter makes the call raise [TypeError]. *)
Lemma bind_keywords_unexpected (params : list string) (before after : keywords)
  (k : string) (v : pyval) :
  existsb (String.eqb k) params = false ->
  exists msg, bind_keywords params (before ++ (k, v) :: after) = Raise (TypeError msg).
Proof.
  intros Hk. unfold bind_keywords.
  destruct (negb (unique _)); [eauto |].
  assert (E : forallb (fun k0 => existsb (String.eqb k0) params)
                (map fst (before ++ (k, v) :: after)) = false).
  { rewrite map_app, forallb_app. cbn [map fst forallb].
    rewrite Hk. cbn [andb]. apply andb_false_r. }
  rewrite E. cbn [negb]. eauto.
Qed.

Lemma Element_init_rejects (before after : keywords) (k : string) (v : pyval) :
  existsb (String.eqb k) Element.__init___params = false ->
  exists msg, Element.__init__ (before ++ (k, v) :: after) = Raise (TypeError msg).
Proof.
  intros Hk. unfold Element.__init__.
  destruct (bind_keywords_unexpected _ before after k v Hk) as [msg ->].
  simpl. eauto.
Qed.

Lemma Beam_create_box_ok (frame : Frame) (xsize ysize zsize : R) :
  0 < xsize -> 0 < ysize -> 0 < zsize ->
  exists box, Beam._create_box frame xsize ysize zsize = Ok box /\
              Box_xsize box = zsize /\ Box_ysize box = xsize /\ Box_zsize box = ysize.
Proof.
  intros Hx Hy Hz. unfold Beam._create_box.
  rewrite Box_init_ok by lra. eexists; repeat split.
Qed.

Lemma Beam_init_TypeError (frame : Frame) (length width height : R) (kwargs : keywords) :
  0 < length -> 0 < width -> 0 < height ->
  exists line box msg,
    Beam.__init__ frame length width height kwargs
    = ([VLine line; VBox box], Raise (TypeError msg)).
Proof.
  intros Hl Hw Hh. unfold Beam.__init__.
  destruct (Rle_dec length 0); [lra |].
  destruct (Rle_dec width 0); [lra |].
  destruct (Rle_dec height 0); [lra |].
  destruct (Beam_create_box_ok frame width height length Hw Hh Hl) as (box & -> & _).
  destruct (Element_init_rejects [("frame", VFrame frame)]%string
              (("geometry"%string, VBox box) :: kwargs) "geometry_simplified"%string
              (VLine (mkLine (Frame_point frame)
                        (add_vectors (Frame_point frame)
                           (scale_vector (Frame_xaxis frame) length)))) eq_refl)
    as [msg Hmsg].
  simpl in Hmsg. simpl. rewrite Hmsg. simpl. eauto.
Qed.

Lemma Block_init_TypeError (Mesh_centroid : Mesh -> result Point) (mesh : Mesh)
  (centroid : Point) (geometry_simplified : pyval) (kwargs : keywords) :
  Mesh_centroid mesh = Ok centroid ->
  exists msg,
    Block.__init__ Mesh_centroid (VMesh mesh) geometry_simplified kwargs
    = Raise (TypeError msg).
Proof.
  intros Hc. unfold Block.__init__. rewrite Hc. cbn [bind].
  rewrite Frame_init_world. cbn [bind app].
  match goal with |- context [Element.__init__ (?a :: (?k, ?v) :: ?rest)] =>
    destruct (Element_init_rejects [a] rest k v eq_refl) as [msg Hmsg] end.
  simpl in Hmsg. rewrite Hmsg. simpl. eauto.
Qed.

Lemma Block_init_never_returns (Mesh_centroid : Mesh -> result Point)
  (closed_mesh geometry_simplified : pyval) (kwargs : keywords) :
  exists e, Block.__init__ Mesh_centroid closed_mesh geometry_simplified kwargs = Raise e.
Proof.
  destruct closed_mesh as [| | | | | | | |mesh]; try (simpl; eauto; fail).
  destruct (Mesh_centroid mesh) as [centroid|e] eqn:E.
  - destruct (Block_init_TypeError Mesh_centroid mesh centroid geometry_simplified kwargs E)
      as [msg ->]. eauto.
  - unfold Block.__init__. rewrite E. simpl. eauto.
Qed.

Lemma Beam_init_never_returns (frame : Frame) (length width height : R) (kwargs : keywords) :
  exists e, snd (Beam.__init__ frame length width height kwargs) = Raise e.
Proof.
  destruct (Rle_dec length 0) as [Hl|Hl].
  { unfold Beam.__init__. destruct (Rle_dec length 0); [simpl; eauto | contradiction]. }
  destruct (Rle_dec width 0) as [Hw|Hw].
  { unfold Beam.__init__. destruct (Rle_dec length 0); [simpl; eauto |].
    destruct (Rle_dec width 0); [simpl; eauto | contradiction]. }
  destruct (Rle_dec height 0) as [Hh|Hh].
  { unfold Beam.__init__. repeat (destruct (Rle_dec _ 0); [simpl; eauto |]).
    contradiction. }
  destruct (Beam_init_TypeError frame length width height kwargs)
    as (line & box & msg & ->); [lra | lra | lra | simpl; eauto].
Qed.

(* ====================================================================== *)
(** * The methods of Beam *)
(* ====================================================================== *)

(** [Beam.compute_aabb]: the beam's own box with x and y swapped, every
    size grown by [inflate]. *)
Lemma Beam_compute_aabb_ok (inflate : R) (self : Beam.t) :
  well_formed_box (Beam._geometry self) -> 0 <= inflate ->
  Beam.compute_aabb inflate self =
  Ok (oriented_bounds (Beam._geometry self) inflate,
      Beam.set_aabb (Some (oriented_bounds (Beam._geometry self) inflate)) self).
Proof.
  intros Hg Hi. unfold Beam.compute_aabb.
  rewrite corners_of_box. simpl.
  rewrite (from_bounding_box_corners _ Hg). simpl.
  destruct Hg as (_ & Hx & Hy & Hz).
  unfold Box_width, Box_depth, Box_height, oriented_bounds; simpl.
  destruct (inflate_factor (Box_ysize (Beam._geometry self)) inflate Hy) as [-> E1]. simpl.
  rewrite E1, Box_set_xsize_ok by lra. simpl.
  destruct (inflate_factor (Box_xsize (Beam._geometry self)) inflate Hx) as [-> E2]. simpl.
  rewrite E2, Box_set_ysize_ok by lra. simpl.
  destruct (inflate_factor (Box_zsize (Beam._geometry self)) inflate Hz) as [-> E3]. simpl.
  rewrite E3, Box_set_zsize_ok by lra. simpl.
  reflexivity.
Qed.

(** [Beam.compute_obb]: the beam's box, every size grown by [inflate]. *)
Lemma Beam_compute_obb_ok (inflate : R) (self : Beam.t) :
  well_formed_box (Beam._geometry self) -> 0 <= inflate ->
  Beam.compute_obb inflate self =
  Ok (grown (Beam._geometry self) inflate,
      Beam.set_obb (Some (grown (Beam._geometry self) inflate)) self).
Proof.
  intros (_ & Hx & Hy & Hz) Hi. unfold Beam.compute_obb.
  unfold Box_width, Box_depth, Box_height, grown; simpl.
  destruct (inflate_factor (Box_xsize (Beam._geometry self)) inflate Hx) as [-> E1]. simpl.
  rewrite E1, Box_set_xsize_ok by lra. simpl.
  destruct (inflate_factor (Box_ysize (Beam._geometry self)) inflate Hy) as [-> E2]. simpl.
  rewrite E2, Box_set_ysize_ok by lra. simpl.
  destruct (inflate_factor (Box_zsize (Beam._geometry self)) inflate Hz) as [-> E3]. simpl.
  rewrite E3, Box_set_zsize_ok by lra. simpl.
  reflexivity.
Qed.

(** The box [Beam.compute_aabb] returns holds every corner of the beam's
    box. *)
Lemma Beam_aabb_encloses (inflate : R) (self : Beam.t) :
  well_formed_box (Beam._geometry self) -> 0 <= inflate ->
  exists box self',
    Beam.compute_aabb inflate self = Ok (box, self') /\
    forall v, In v (Box_vertices (Beam._geometry self)) -> inside box v.
Proof.
  intros Hg Hi. do 2 eexists. split; [apply Beam_compute_aabb_ok; assumption |].
  intros v Hv. apply oriented_bounds_encloses; assumption.
Qed.

(** [Beam.compute_face_polygons] returns six quads. *)
Lemma Beam_compute_face_polygons_six (self : Beam.t) :
  exists polygons,
    Beam.compute_face_polygons self = Ok polygons /\
    List.length polygons = 6%nat /\
    Forall (fun q => List.length (Polygon_points q) = 4%nat) polygons.
Proof.
  eexists. split; [reflexivity |]. split; [reflexivity |].
  repeat constructor.
Qed.

(** [Beam.transform] with a rigid [T] completes: the caches that are there
    are brought up to date, the others stay empty. *)
Lemma Beam_transform_rigid (T : Transformation) (self : Beam.t) :
  is_rigid T -> Beam_well_formed self ->
  Beam.transform T self = Ok (Beam_moved T self).
Proof.
  intros HT (Hf & Hg & Ho).
  destruct self as [frame gs geometry aabb obb mesh polygons]; simpl in *.
  unfold Beam.transform; simpl.
  rewrite (Frame_transform_rigid T HT frame Hf); simpl.
  rewrite (Box_transform_rigid T HT geometry) by apply Hg; simpl.
  unfold Beam_moved; simpl.
  destruct aabb as [a|]; simpl.
  - rewrite Beam_compute_aabb_ok
      by (simpl; first [apply moved_box_well_formed; assumption | lra]).
    simpl. destruct obb as [o|]; simpl.
    + rewrite (Box_transform_rigid T HT o) by auto. simpl.
      destruct mesh as [m|]; simpl; destruct polygons as [[|p ps]|]; reflexivity.
    + destruct mesh as [m|]; simpl; destruct polygons as [[|p ps]|]; reflexivity.
  - destruct obb as [o|]; simpl.
    + rewrite (Box_transform_rigid T HT o) by auto. simpl.
      destruct mesh as [m|]; simpl; destruct polygons as [[|p ps]|]; reflexivity.
    + destruct mesh as [m|]; simpl; destruct polygons as [[|p ps]|]; reflexivity.
Qed.

Lemma Beam_moved_well_formed (T : Transformation) (self : Beam.t) :
  is_rigid T -> Beam_well_formed self -> Beam_well_formed (Beam_moved T self).
Proof.
  intros HT (Hf & Hg & Ho). split; [| split]; simpl.
  - apply (moved_frame_orthonormal T HT _ Hf).
  - apply (moved_box_well_formed T HT _ Hg).
  - intros b Hb. destruct (Beam._obb self) as [o|]; [| discriminate].
    injection Hb as <-. apply (moved_frame_orthonormal T HT), Ho. reflexivity.
Qed.

Lemma Beam_refreshed_same (self : Beam.t) :
  Beam._aabb self = None \/
  Beam._aabb self = Some (oriented_bounds (Beam._geometry self) 0) ->
  Beam_refreshed self = self.
Proof.
  destruct self as [f gs g a o m p]; unfold Beam_refreshed, Beam.set_aabb; simpl.
  intros [-> | ->]; reflexivity.
Qed.

(* ====================================================================== *)
(** * The methods of Block *)
(* ====================================================================== *)

Lemma Block_compute_aabb_state (inflate : R) (self self' : Block.t) (box : Box) :
  Block.compute_aabb inflate self = Ok (box, self') ->
  self' = Block.set_aabb (Some box) self.
Proof.
  unfold Block.compute_aabb. intros H.
  repeat (apply bind_Ok in H; destruct H as (? & _ & H)).
  injection H as <- <-. reflexivity.
Qed.

(** [Block.compute_aabb] does not look at the cache. *)
Lemma Block_compute_aabb_ignores_cache (inflate : R) (old : option Box) (self : Block.t) :
  Block.compute_aabb inflate (Block.set_aabb old self)
  = ('(box, _) <- Block.compute_aabb inflate self ;;
     Ok (box, Block.set_aabb (Some box) self)).
Proof.
  unfold Block.compute_aabb. simpl.
  destruct (Mesh_aabb _) as [points|]; [| reflexivity]. cbn [bind].
  destruct (Box_from_points _) as [b|]; [| reflexivity]. cbn [bind].
  destruct (Box_set_xsize _ _) as [b1|]; [| reflexivity]. cbn [bind].
  destruct (Box_set_ysize _ _) as [b2|]; [| reflexivity]. cbn [bind].
  destruct (Box_set_zsize _ _) as [b3|]; reflexivity.
Qed.

(** [Block.compute_aabb]: the world box of the vertices, when they have an
    extent along x and y. *)
Lemma Block_compute_aabb_ok (inflate : R) (self : Block.t) (p : Point) (ps : list Point) :
  Mesh_vertices (Block._geometry self) = p :: ps ->
  minimum (vx p) (map vx ps) < maximum (vx p) (map vx ps) ->
  minimum (vy p) (map vy ps) < maximum (vy p) (map vy ps) ->
  0 <= inflate ->
  Block.compute_aabb inflate self
  = Ok (world_bounds p ps inflate, Block.set_aabb (Some (world_bounds p ps inflate)) self).
Proof.
  intros Hv Hx Hy Hi.
  pose proof (minimum_le_maximum (vz p) (map vz ps)) as Hz.
  unfold Block.compute_aabb, Mesh_aabb, Box_from_points, world_bounds.
  rewrite Hv. unfold bounding_box at 1. cbn [bind].
  rewrite bounding_box_corners by lra. cbn [bind].
  rewrite from_bounding_box_world by lra. cbn [bind].
  rewrite Box_set_xsize_ok by (simpl; lra). cbn [bind].
  rewrite Box_set_ysize_ok by (simpl; lra). cbn [bind].
  rewrite Box_set_zsize_ok by (simpl; lra). cbn [bind].
  reflexivity.
Qed.

Lemma Block_compute_aabb_solid (inflate : R) (self : Block.t) :
  solid (Mesh_vertices (Block._geometry self)) -> 0 <= inflate ->
  exists box,
    world_bounds_of (Mesh_vertices (Block._geometry self)) inflate = Some box /\
    Block.compute_aabb inflate self = Ok (box, Block.set_aabb (Some box) self).
Proof.
  intros Hs Hi. destruct (Mesh_vertices (Block._geometry self)) as [|p ps] eqn:E.
  - exfalso. exact (solid_not_empty [] Hs eq_refl).
  - exists (world_bounds p ps inflate). split; [reflexivity |].
    apply Block_compute_aabb_ok; auto using solid_extent_x, solid_extent_y.
Qed.

(** The box [Block.compute_aabb] returns for a solid mesh is parallel to
    the world axes and holds every vertex of the mesh. *)
Lemma Block_aabb_encloses (inflate : R) (self : Block.t) :
  solid (Mesh_vertices (Block._geometry self)) -> 0 <= inflate ->
  exists box self',
    Block.compute_aabb inflate self = Ok (box, self') /\
    world_aligned box /\
    forall v, In v (Mesh_vertices (Block._geometry self)) -> inside box v.
Proof.
  intros Hs Hi.
  destruct (Block_compute_aabb_solid inflate self Hs Hi) as (box & Hb & Hc).
  exists box, (Block.set_aabb (Some box) self). split; [exact Hc |].
  destruct (Mesh_vertices (Block._geometry self)) as [|p ps]; [discriminate |].
  injection Hb as <-. split; [apply world_bounds_aligned |].
  intros v Hv. apply world_bounds_encloses; assumption.
Qed.

Lemma Block_compute_aabb_additive (inflate : R) (self s0 : Block.t) (box0 : Box) :
  0 <= inflate ->
  Block.compute_aabb 0 self = Ok (box0, s0) ->
  Block.compute_aabb inflate self
  = Ok (grown box0 inflate, Block.set_aabb (Some (grown box0 inflate)) self).
Proof.
  intros Hi. unfold Block.compute_aabb.
  destruct (Mesh_aabb (Block._geometry self)) as [points|]; [| discriminate]. cbn [bind].
  destruct (Box_from_points points) as [b|] eqn:E; [| discriminate]. cbn [bind].
  destruct (Box_from_points_sizes points b E) as (Hx & Hy & Hz).
  pose proof (inflate_additive b 0 Hx Hy Hz (Rle_refl 0)) as H0.
  pose proof (inflate_additive b inflate Hx Hy Hz Hi) as H1.
  unfold bind in H0, H1 |- *.
  destruct (Box_set_xsize b (Box_xsize b + 0)) as [b1|]; [| discriminate].
  destruct (Box_set_ysize b1 (Box_ysize b1 + 0)) as [b2|]; [| discriminate].
  rewrite H0.
  destruct (Box_set_xsize b (Box_xsize b + inflate)) as [c1|]; [| discriminate].
  destruct (Box_set_ysize c1 (Box_ysize c1 + inflate)) as [c2|]; [| discriminate].
  rewrite H1. intros H; injection H as <- <-.
  rewrite grown_grown. reflexivity.
Qed.

(** [Block.dimensions] is [compute_aabb()] and a look at the box. *)
Lemma Block_dimensions_unfolded (self : Block.t) :
  Block.dimensions self
  = ('(box, self') <- Block.compute_aabb 0 self ;;
     Ok ([Box_width box; Box_height box; Box_depth box], self')).
Proof.
  unfold Block.dimensions, type_is_None. cbn [negb].
  destruct (Block.compute_aabb 0 self) as [[box s]|e] eqn:E; [| reflexivity].
  apply Block_compute_aabb_state in E. subst s. reflexivity.
Qed.

Lemma Block_dimensions_after_inflation :
  forall (self s1 : Block.t) (inflate : R) (inflated : Box),
    0 < inflate ->
    Block.compute_aabb inflate self = Ok (inflated, s1) ->
    Block._aabb s1 = Some inflated /\
    exists plain s2,
      Block.compute_aabb 0 s1 = Ok (plain, s2) /\
      Block.dimensions s1 = Ok ([Box_width plain; Box_height plain; Box_depth plain], s2) /\
      Block._aabb s2 = Some plain /\
      inflated = grown plain inflate /\
      plain <> inflated.
Proof.
  intros self s1 inflate inflated Hi H.
  pose proof (Block_compute_aabb_state _ _ _ _ H) as ->.
  split; [reflexivity |].
  assert (H0 : exists plain, Block.compute_aabb 0 self
                             = Ok (plain, Block.set_aabb (Some plain) self)).
  { revert H. unfold Block.compute_aabb.
    destruct (Mesh_aabb (Block._geometry self)) as [points|]; [| discriminate]. cbn [bind].
    destruct (Box_from_points points) as [b|] eqn:E; [| discriminate]. cbn [bind].
    destruct (Box_from_points_sizes points b E) as (Hx & Hy & Hz). intros _.
    pose proof (inflate_additive b 0 Hx Hy Hz (Rle_refl 0)) as H0.
    unfold bind in H0 |- *.
    destruct (Box_set_xsize b (Box_xsize b + 0)) as [b1|]; [| discriminate].
    destruct (Box_set_ysize b1 (Box_ysize b1 + 0)) as [b2|]; [| discriminate].
    rewrite H0. eauto. }
  destruct H0 as [plain H0].
  pose proof (Block_compute_aabb_additive inflate self _ plain (Rlt_le _ _ Hi) H0) as H1.
  rewrite H in H1. injection H1 as ->.
  exists plain, (Block.set_aabb (Some plain) self).
  assert (E : Block.compute_aabb 0 (Block.set_aabb (Some (grown plain inflate)) self)
              = Ok (plain, Block.set_aabb (Some plain) self))
    by (rewrite Block_compute_aabb_ignores_cache, H0; reflexivity).
  repeat split.
  - exact E.
  - rewrite Block_dimensions_unfolded, E. reflexivity.
  - intros Heq. apply (f_equal Box_xsize) in Heq. simpl in Heq. lra.
Qed.

Lemma Block_face_polygons_stay_empty (self : Block.t) :
  Block._face_polygons self = Some [] -> Block.face_polygons self = Ok ([], self).
Proof.
  intros H. unfold Block.face_polygons, Block._compute_face_polygons. rewrite H. simpl.
  destruct self; simpl in *; subst; reflexivity.
Qed.

(** [Block.face_polygons] returns what the attribute holds, never more. *)
Lemma Block_face_polygons_from_cache (self self' : Block.t) (polygons : list Polygon) :
  Block.face_polygons self = Ok (polygons, self') ->
  Block._face_polygons self = Some polygons /\ self' = self.
Proof.
  unfold Block.face_polygons, Block._compute_face_polygons.
  destruct self as [f gs g a o m [[|p ps]|]]; simpl; intros H; try discriminate;
    injection H as <- <-; split; reflexivity.
Qed.

Lemma Block_refreshed_same (self : Block.t) :
  Block._aabb self = None \/
  Block._aabb self = world_bounds_of (Mesh_vertices (Block._geometry self)) 0 ->
  Block_refreshed self = self.
Proof.
  destruct self as [f gs g a o m p]; unfold Block_refreshed, Block.set_aabb; simpl.
  intros [-> | ->]; [reflexivity |].
  destruct (world_bounds_of (Mesh_vertices g) 0); reflexivity.
Qed.

Section Kernel.

Variable Mesh_obb : Mesh -> result (list Point).

Lemma Block_compute_obb_state (inflate : R) (self self' : Block.t) (box : Box) :
  Block.compute_obb Mesh_obb inflate self = Ok (box, self') ->
  self' = Block.set_obb (Some box) self.
Proof.
  unfold Block.compute_obb. intros H.
  repeat (apply bind_Ok in H; destruct H as (? & _ & H)).
  injection H as <- <-. reflexivity.
Qed.

Lemma Block_obb_collision_mesh (self self' : Block.t) (box : Box) :
  Block.obb Mesh_obb self = Ok (box, self') ->
  Block._collision_mesh self' = Block._collision_mesh self.
Proof.
  unfold Block.obb, Element.cached. destruct (Block._obb self) as [o|].
  - intros H; injection H as <- <-. reflexivity.
  - intros H. apply bind_Ok in H. destruct H as ([c s] & Hc & H).
    injection H as <- <-. apply Block_compute_obb_state in Hc. subst s. reflexivity.
Qed.

Lemma Block_compute_obb_additive (inflate : R) (self s0 : Block.t) (box0 : Box) :
  0 <= inflate ->
  Block.compute_obb Mesh_obb 0 self = Ok (box0, s0) ->
  Block.compute_obb Mesh_obb inflate self
  = Ok (grown box0 inflate, Block.set_obb (Some (grown box0 inflate)) self).
Proof.
  intros Hi. unfold Block.compute_obb.
  destruct (Mesh_obb (Block._geometry self)) as [points|]; [| discriminate]. cbn [bind].
  destruct (Box_from_points points) as [b|] eqn:E; [| discriminate]. cbn [bind].
  destruct (Box_from_points_sizes points b E) as (Hx & Hy & Hz).
  pose proof (inflate_additive b 0 Hx Hy Hz (Rle_refl 0)) as H0.
  pose proof (inflate_additive b inflate Hx Hy Hz Hi) as H1.
  unfold bind in H0, H1 |- *.
  destruct (Box_set_xsize b (Box_xsize b + 0)) as [b1|]; [| discriminate].
  destruct (Box_set_ysize b1 (Box_ysize b1 + 0)) as [b2|]; [| discriminate].
  rewrite H0.
  destruct (Box_set_xsize b (Box_xsize b + inflate)) as [c1|]; [| discriminate].
  destruct (Box_set_ysize c1 (Box_ysize c1 + inflate)) as [c2|]; [| discriminate].
  rewrite H1. intros H; injection H as <- <-.
  rewrite grown_grown. reflexivity.
Qed.

(** [Block.transform] returns for no block whose collision mesh is there,
    whatever the stack allows. *)
Lemma Block_transform_never_returns (depth : nat) (T : Transformation) :
  forall self : Block.t,
    Block._collision_mesh self <> None ->
    exists e, Block.transform Mesh_obb depth T self = Raise e.
Proof.
  induction depth as [|depth IH]; intros self Hm; simpl; [eauto |].
  destruct (Frame_transform T (Block._frame self)) as [frame|e]; simpl; [| eauto].
  match goal with |- context [bind ?step _] => destruct step as [self1|e] eqn:E1 end;
    simpl; [| eauto].
  assert (H1 : Block._collision_mesh self1 = Block._collision_mesh self).
  { destruct (Block._aabb _) in E1.
    - apply bind_Ok in E1. destruct E1 as ([box s] & Hc & E1).
      injection E1 as <-. apply Block_compute_aabb_state in Hc. subst s. reflexivity.
    - injection E1 as <-. reflexivity. }
  match goal with |- context [bind ?step _] => destruct step as [self2|e] eqn:E2 end;
    simpl; [| eauto].
  assert (H2 : Block._collision_mesh self2 = Block._collision_mesh self1).
  { destruct (Block._obb self1).
    - apply bind_Ok in E2. destruct E2 as ([box s] & Hc & E2).
      apply bind_Ok in E2. destruct E2 as (box' & _ & E2).
      injection E2 as <-. apply Block_obb_collision_mesh in Hc. exact Hc.
    - injection E2 as <-. reflexivity. }
  destruct (Block._collision_mesh self2) as [m|] eqn:E3.
  - destruct (IH self2) as [e He]; [congruence |]. rewrite He. simpl. eauto.
  - congruence.
Qed.

(** With only the collision mesh there, every step before the recursive
    call succeeds, so the recursion runs until the stack is used up. *)
Lemma Block_transform_overflows (depth : nat) (T : Transformation) :
  is_rigid T ->
  forall self : Block.t,
    orthonormal (Block._frame self) ->
    Block._aabb self = None -> Block._obb self = None ->
    Block._collision_mesh self <> None ->
    Block.transform Mesh_obb depth T self = Raise RecursionError.
Proof.
  intros HT. induction depth as [|depth IH]; intros self Hf Ha Ho Hm; [reflexivity |].
  destruct self as [frame gs geometry aabb obb mesh polygons]; simpl in *.
  subst aabb obb. destruct mesh as [m|]; [| congruence].
  rewrite (Frame_transform_rigid T HT frame Hf). cbn [bind].
  simpl. rewrite IH; simpl; auto; try congruence.
  apply (moved_frame_orthonormal T HT frame Hf).
Qed.

(** [Block.transform] with a rigid [T] on a block without collision mesh
    completes: the caches that are there are brought up to date, the others
    stay empty. *)
Lemma Block_transform_rigid (depth : nat) (T : Transformation) (self : Block.t) :
  is_rigid T -> Block_well_formed self ->
  Block.transform Mesh_obb (S depth) T self = Ok (Block_moved T self).
Proof.
  intros HT (Hf & Hs & Ho & Hm & Hp).
  destruct self as [frame gs geometry aabb obb mesh polygons]; simpl in *. subst mesh.
  rewrite (Frame_transform_rigid T HT frame Hf). cbn [bind].
  unfold Block_moved; simpl.
  assert (Hs' : solid (Mesh_vertices (Mesh_transform T geometry)))
    by (apply solid_moved; assumption).
  destruct polygons as [polygons|]; [| congruence].
  destruct aabb as [a|]; simpl.
  - match goal with |- context [Block.compute_aabb 0 ?s] =>
      destruct (Block_compute_aabb_solid 0 s Hs' (Rle_refl 0)) as (box & Hb & ->) end.
    simpl in Hb. rewrite Hb. simpl.
    destruct obb as [o|]; simpl.
    + rewrite (Box_transform_rigid T HT o) by auto. simpl.
      destruct polygons as [|p ps]; reflexivity.
    + destruct polygons as [|p ps]; reflexivity.
  - destruct obb as [o|]; simpl.
    + rewrite (Box_transform_rigid T HT o) by auto. simpl.
      destruct polygons as [|p ps]; reflexivity.
    + destruct polygons as [|p ps]; reflexivity.
Qed.

End Kernel.

Lemma Block_moved_well_formed (T : Transformation) (self : Block.t) :
  is_rigid T -> Block_well_formed self -> Block_well_formed (Block_moved T self).
Proof.
  intros HT (Hf & Hs & Ho & Hm & Hp).
  split; [| split; [| split; [| split]]]; simpl.
  - apply (moved_frame_orthonormal T HT _ Hf).
  - apply (solid_moved T _ HT Hs).
  - intros b Hb. destruct (Block._obb self) as [o|]; [| discriminate].
    injection Hb as <-. apply (moved_frame_orthonormal T HT), Ho. reflexivity.
  - exact Hm.
  - destruct (Block._face_polygons self) as [[|p ps]|]; simpl; congruence.
Qed.

(* ====================================================================== *)
(** * [copy] and [transformed] *)
(* ====================================================================== *)

(** The data of an element hold none of [length], [width] and [height]. *)
Lemma Beam_call_data (frame name : pyval) :
  exists msg, Beam.__call__ (Element.__data__ frame name) = Raise (TypeError msg).
Proof. eexists. reflexivity. Qed.

(** Nor do they hold [closed_mesh]. *)
Lemma Block_call_data (Mesh_centroid : Mesh -> result Point) (frame name : pyval) :
  exists msg,
    Block.__call__ Mesh_centroid (Element.__data__ frame name) = Raise (TypeError msg).
Proof. eexists. reflexivity. Qed.

Section Heap.
Context {A : Type}.
Variable transform : Transformation -> A -> result A.
Variable cls : keywords -> result A.
Variable frame : A -> Frame.
Variable name : A -> pyval.

(** When the class cannot be called with the data of the instance,
    [transformed] ends in [copy]. *)
Lemma transformed_copy_raises (T : Transformation) (heap : list A) (self : nat) (e : A)
  (err : exn) :
  nth_error heap self = Some e ->
  cls (Element.__data__ (VFrame (frame e)) (name e)) = Raise err ->
  Element.transformed transform cls frame name T self heap = Raise err.
Proof.
  intros He Hcls. unfold Element.transformed, Element.copy.
  rewrite He, Hcls. reflexivity.
Qed.

End Heap.

Lemma Beam_transformed_raises (T : Transformation) (heap : list Beam.t) (self : nat)
  (e : Beam.t) :
  nth_error heap self = Some e ->
  exists msg, Beam.transformed T self heap = Raise (TypeError msg).
Proof.
  intros He.
  destruct (Beam_call_data (VFrame (Beam._frame e)) (VStr "Beam")) as [msg Hmsg].
  exists msg. unfold Beam.transformed.
  apply (transformed_copy_raises _ _ _ _ T heap self e); assumption.
Qed.

Lemma Block_transformed_raises (Mesh_centroid : Mesh -> result Point)
  (Mesh_obb : Mesh -> result (list Point)) (depth : nat) (T : Transformation)
  (heap : list Block.t) (self : nat) (e : Block.t) :
  nth_error heap self = Some e ->
  exists msg, Block.transformed Mesh_centroid Mesh_obb depth T self heap
              = Raise (TypeError msg).
Proof.
  intros He.
  destruct (Block_call_data Mesh_centroid (VFrame (Block._frame e)) (VStr "Block"))
    as [msg Hmsg].
  exists msg. unfold Block.transformed.
  apply (transformed_copy_raises _ _ _ _ T heap self e); assumption.
Qed.

(* ====================================================================== *)
(** * Facts about the example instances *)
(* ====================================================================== *)

Lemma shift_rigid : is_rigid shift.
Proof. unfold is_rigid, determinant; simpl. repeat split; lra. Qed.

Lemma quarter_turn_rigid : is_rigid quarter_turn.
Proof. unfold is_rigid, determinant; simpl. repeat split; lra. Qed.

Lemma worldXY_orthonormal : orthonormal worldXY.
Proof. repeat split; numbers. Qed.

Lemma long_box_well_formed : well_formed_box long_box.
Proof. repeat split; try numbers; simpl; lra. Qed.

Lemma turned_box_well_formed : well_formed_box turned_box.
Proof. repeat split; try numbers; simpl; lra. Qed.

Lemma long_beam_well_formed : Beam_well_formed long_beam.
Proof.
  split; [exact worldXY_orthonormal | split; [exact long_box_well_formed |]].
  intros b H; discriminate.
Qed.

Lemma long_beam_inflated_well_formed : Beam_well_formed long_beam_inflated.
Proof.
  split; [exact worldXY_orthonormal | split; [exact long_box_well_formed |]].
  intros b H; discriminate.
Qed.

(** [long_box] and [turned_box] are the boxes [Beam._create_box] builds. *)
Lemma long_box_created : Beam._create_box worldXY 1 1 2 = Ok long_box.
Proof.
  unfold Beam._create_box. rewrite Box_init_ok by lra.
  unfold long_box. do 3 f_equal. apply vector_eq; simpl; lra.
Qed.

Lemma turned_box_created : Beam._create_box turned_frame 1 1 5 = Ok turned_box.
Proof.
  unfold Beam._create_box. rewrite Box_init_ok by lra.
  unfold turned_box. do 3 f_equal. apply vector_eq; simpl; lra.
Qed.

Lemma long_box_vertices :
  Box_vertices long_box =
  [mkVector 0 (-1/2) (-1/2); mkVector 0 (1/2) (-1/2); mkVector 2 (1/2) (-1/2); mkVector 2 (-1/2) (-1/2);
   mkVector 0 (-1/2) (1/2); mkVector 2 (-1/2) (1/2); mkVector 2 (1/2) (1/2); mkVector 0 (1/2) (1/2)].
Proof.
  unfold Box_vertices. simpl.
  unfold add_vectors, subtract_vectors, scale_vector, negate_vector; simpl.
  same_points.
Qed.

(** The face polygons of [long_beam], as [compute_face_polygons] lists them. *)
Lemma long_beam_face_polygons :
  Beam.compute_face_polygons long_beam =
  Ok [mkPolygon [mkVector 1 1 (1/2); mkVector 1 1 (-1/2); mkVector 0 1 (-1/2); mkVector 0 1 (1/2)];
      mkPolygon [mkVector 1 1 (-1/2); mkVector 1 (-1) (-1/2); mkVector 0 (-1) (-1/2); mkVector 0 1 (-1/2)];
      mkPolygon [mkVector 1 (-1) (1/2); mkVector 1 (-1) (-1/2); mkVector 0 (-1) (-1/2); mkVector 0 (-1) (1/2)];
      mkPolygon [mkVector 1 1 (1/2); mkVector 1 (-1) (1/2); mkVector 0 (-1) (1/2); mkVector 0 1 (1/2)];
      mkPolygon [mkVector 0 1 (1/2); mkVector 0 1 (-1/2); mkVector 0 (-1) (-1/2); mkVector 0 (-1) (1/2)];
      mkPolygon [mkVector 1 1 (1/2); mkVector 1 1 (-1/2); mkVector 1 (-1) (-1/2); mkVector 1 (-1) (1/2)]].
Proof.
  unfold Beam.compute_face_polygons, Beam.mid_point. simpl.
  unfold add_vectors, subtract_vectors, scale_vector, negate_vector; simpl.
  same_points.
Qed.

Lemma tetrahedron_solid : solid (Mesh_vertices tetrahedron).
Proof.
  intros n Hn. unfold dot_vectors in Hn.
  destruct (Req_dec_T (vx n) 0) as [Hx|Hx];
    [destruct (Req_dec_T (vy n) 0) as [Hy|Hy] |].
  - exists (mkVector 0 0 0), (mkVector 0 0 1). simpl.
    repeat split; [tauto | tauto |]. unfold dot_vectors; simpl. nra.
  - exists (mkVector 0 0 0), (mkVector 0 1 0). simpl.
    repeat split; [tauto | tauto |]. unfold dot_vectors; simpl. lra.
  - exists (mkVector 0 0 0), (mkVector 1 0 0). simpl.
    repeat split; [tauto | tauto |]. unfold dot_vectors; simpl. lra.
Qed.

Lemma tetrahedron_block_well_formed : Block_well_formed tetrahedron_block.
Proof.
  split; [| split; [exact tetrahedron_solid | split; [| split]]]; simpl.
  - repeat split; numbers.
  - intros b H; discriminate.
  - reflexivity.
  - discriminate.
Qed.

Lemma tetrahedron_aabb (inflate : R) :
  0 <= inflate ->
  Block.compute_aabb inflate tetrahedron_block
  = Ok (mkBox (mkFrame (mkVector (1/2) (1/2) (1/2)) (mkVector 1 0 0) (mkVector 0 1 0))
              (1 + inflate) (1 + inflate) (1 + inflate),
        Block.set_aabb
          (Some (mkBox (mkFrame (mkVector (1/2) (1/2) (1/2)) (mkVector 1 0 0) (mkVector 0 1 0))
                       (1 + inflate) (1 + inflate) (1 + inflate)))
          tetrahedron_block).
Proof.
  intros Hi.
  destruct (Block_compute_aabb_solid inflate tetrahedron_block tetrahedron_solid Hi)
    as (box & Hb & ->).
  simpl in Hb. injection Hb as <-.
  assert (E : world_bounds (mkVector 0 0 0) [mkVector 1 0 0; mkVector 0 1 0; mkVector 0 0 1] inflate
              = mkBox (mkFrame (mkVector (1/2) (1/2) (1/2)) (mkVector 1 0 0) (mkVector 0 1 0))
                      (1 + inflate) (1 + inflate) (1 + inflate)).
  { unfold world_bounds, minimum, maximum; simpl. min_max.
    f_equal; try lra. f_equal. apply vector_eq; simpl; lra. }
  rewrite E. reflexivity.
Qed.

Lemma tetrahedron_obb (inflate : R) :
  0 <= inflate ->
  Block.compute_obb plain_obb inflate tetrahedron_block
  = Ok (mkBox (mkFrame (mkVector (1/2) (1/2) (1/2)) (mkVector 1 0 0) (mkVector 0 1 0))
              (1 + inflate) (1 + inflate) (1 + inflate),
        Block.set_obb
          (Some (mkBox (mkFrame (mkVector (1/2) (1/2) (1/2)) (mkVector 1 0 0) (mkVector 0 1 0))
                       (1 + inflate) (1 + inflate) (1 + inflate)))
          tetrahedron_block).
Proof.
  intros Hi. pose proof (tetrahedron_aabb inflate Hi) as H.
  unfold Block.compute_aabb, Mesh_aabb in H. unfold Block.compute_obb, plain_obb.
  destruct (bounding_box _) as [points|]; [| discriminate]. cbn [bind] in *.
  destruct (Box_from_points points) as [b|]; [| discriminate]. cbn [bind] in *.
  destruct (Box_set_xsize _ _) as [b1|]; [| discriminate]. cbn [bind] in *.
  destruct (Box_set_ysize _ _) as [b2|]; [| discriminate]. cbn [bind] in *.
  destruct (Box_set_zsize _ _) as [b3|]; [| discriminate]. cbn [bind] in *.
  injection H as ->. reflexivity.
Qed.

(* ====================================================================== *)
(** * The statements of the specification, C1 to C10 *)
(* ====================================================================== *)

(** C1.  [Block.transform] does not complete once the collision mesh is
    there: in place of [self.collision_mesh.transform(transformation)], which
    [Beam.transform] has, it calls [self.transform(transformation)] again.  On
    the tetrahedron block with its collision mesh, moved by a translation,
    every stack depth ends in [RecursionError]. *)
Theorem Block_transform_with_collision_mesh_overflows :
  forall (Mesh_obb : Mesh -> result (list Point)) (depth : nat),
    Block.transform Mesh_obb depth shift tetrahedron_block_with_collision_mesh
    = Raise RecursionError.
Proof.
  intros Mesh_obb depth.
  apply Block_transform_overflows; simpl;
    [exact shift_rigid | repeat split; numbers | reflexivity | reflexivity | discriminate].
Qed.

(** C2.  [transformed] returns for no beam and no block, whatever the
    transformation: [self.copy()] calls the class with the entries of
    [__data__], which are [frame] and [name], for keyword arguments;
    [Beam.__init__] is left without [length], [width] and [height],
    [Block.__init__] without [closed_mesh], and the call ends in [TypeError]
    before [transform] is reached. *)
Theorem transformed_raises_TypeError :
  forall (Mesh_centroid : Mesh -> result Point) (Mesh_obb : Mesh -> result (list Point))
         (depth : nat) (T : Transformation)
         (beams : list Beam.t) (i : nat) (beam : Beam.t)
         (blocks : list Block.t) (j : nat) (block : Block.t),
    nth_error beams i = Some beam ->
    nth_error blocks j = Some block ->
    (exists msg, Beam.transformed T i beams = Raise (TypeError msg)) /\
    (exists msg,
       Block.transformed Mesh_centroid Mesh_obb depth T j blocks = Raise (TypeError msg)).
Proof.
  intros Mesh_centroid Mesh_obb depth T beams i beam blocks j block Hi Hj. split.
  - exact (Beam_transformed_raises T beams i beam Hi).
  - exact (Block_transformed_raises Mesh_centroid Mesh_obb depth T blocks j block Hj).
Qed.

(** C2, at the beam of length 2 and the tetrahedron block, for the
    translation by (1, 0, 0). *)
Lemma transformed_raises_TypeError_witness :
  nth_error [long_beam] 0 = Some long_beam /\
  nth_error [tetrahedron_block] 0 = Some tetrahedron_block /\
  (exists msg, Beam.transformed shift 0 [long_beam] = Raise (TypeError msg)) /\
  (exists msg,
     Block.transformed tetrahedron_centroid plain_obb 1 shift 0 [tetrahedron_block]
     = Raise (TypeError msg)).
Proof.
  split; [reflexivity |]. split; [reflexivity |].
  exact (transformed_raises_TypeError tetrahedron_centroid plain_obb 1 shift
           [long_beam] 0 long_beam [tetrahedron_block] 0 tetrahedron_block
           eq_refl eq_refl).
Defined.

(** C3.  [Beam.compute_aabb] hands the corners of the beam's box to
    [Box.from_bounding_box], which spans a box over the corners it is given:
    on a beam whose frame is turned about the world z axis the box returned
    has the axes of the beam's frame, and its edges are not parallel to the
    world axes. *)
Theorem Beam_compute_aabb_follows_the_frame :
  exists box self',
    Beam.compute_aabb 0 turned_beam = Ok (box, self') /\
    Frame_xaxis (Box_frame box) = Frame_yaxis turned_frame /\
    Frame_yaxis (Box_frame box) = Frame_xaxis turned_frame /\
    ~ world_aligned box.
Proof.
  eexists; eexists. split.
  - apply Beam_compute_aabb_ok; [exact turned_box_well_formed | lra].
  - simpl. repeat split.
    unfold world_aligned, along_world_axis; simpl. lra.
Qed.

(** C4.  A length, width or height that is zero or negative makes
    [Beam.__init__] raise [ValueError] with no geometry built. *)
Theorem Beam_init_rejects_non_positive_dimensions :
  forall (frame : Frame) (length width height : R) (kwargs : keywords),
    length <= 0 \/ width <= 0 \/ height <= 0 ->
    exists msg, Beam.__init__ frame length width height kwargs = ([], Raise (ValueError msg)).
Proof.
  intros frame length width height kwargs H. unfold Beam.__init__.
  destruct (Rle_dec length 0); [eauto |].
  destruct (Rle_dec width 0); [eauto |].
  destruct (Rle_dec height 0); [eauto |].
  exfalso; tauto.
Qed.

(** C4, at length 0. *)
Lemma Beam_init_rejects_zero_length :
  (0 <= 0 \/ 1 <= 0 \/ 1 <= 0) /\
  exists msg, Beam.__init__ (mkFrame (mkVector 0 0 0) (mkVector 1 0 0) (mkVector 0 1 0)) 0 1 1 []
              = ([], Raise (ValueError msg)).
Proof.
  split; [left; lra |].
  apply Beam_init_rejects_non_positive_dimensions. left; lra.
Defined.

(** C5 (amended).  For [inflate > 0] and a beam whose box has an orthonormal
    frame and positive sizes, [Beam.compute_obb] and [Beam.compute_aabb]
    multiply every size [d] of the box by its own factor [(d + inflate) / d],
    which grows it by [inflate] ([grown], [oriented_bounds]); the inflated
    box is in the proportions of the box before inflation (for the AABB, the
    box read off the corners) exactly when the three sizes are equal.  On a
    block for which they return without inflation, [Block.compute_aabb] and
    [Block.compute_obb] add [inflate] to every size of that box. *)
Theorem inflation_grows_every_size_by_the_margin :
  forall (Mesh_obb : Mesh -> result (list Point)) (inflate : R)
         (beam : Beam.t) (block s1 s2 : Block.t) (aabb0 obb0 : Box),
    0 < inflate ->
    well_formed_box (Beam._geometry beam) ->
    Block.compute_aabb 0 block = Ok (aabb0, s1) ->
    Block.compute_obb Mesh_obb 0 block = Ok (obb0, s2) ->
    (Beam.compute_obb inflate beam
     = Ok (grown (Beam._geometry beam) inflate,
           Beam.set_obb (Some (grown (Beam._geometry beam) inflate)) beam) /\
     Beam.compute_aabb inflate beam
     = Ok (oriented_bounds (Beam._geometry beam) inflate,
           Beam.set_aabb (Some (oriented_bounds (Beam._geometry beam) inflate)) beam)) /\
    (multiplied (Beam._geometry beam) (grown (Beam._geometry beam) inflate) inflate /\
     multiplied (oriented_bounds (Beam._geometry beam) 0)
                (oriented_bounds (Beam._geometry beam) inflate) inflate) /\
    (proportional (Beam._geometry beam) (grown (Beam._geometry beam) inflate)
     <-> Box_xsize (Beam._geometry beam) = Box_ysize (Beam._geometry beam) /\
         Box_ysize (Beam._geometry beam) = Box_zsize (Beam._geometry beam)) /\
    (proportional (oriented_bounds (Beam._geometry beam) 0)
                  (oriented_bounds (Beam._geometry beam) inflate)
     <-> Box_xsize (Beam._geometry beam) = Box_ysize (Beam._geometry beam) /\
         Box_ysize (Beam._geometry beam) = Box_zsize (Beam._geometry beam)) /\
    Block.compute_aabb inflate block
    = Ok (grown aabb0 inflate, Block.set_aabb (Some (grown aabb0 inflate)) block) /\
    Block.compute_obb Mesh_obb inflate block
    = Ok (grown obb0 inflate, Block.set_obb (Some (grown obb0 inflate)) block).
Proof.
  intros Mesh_obb inflate beam block s1 s2 aabb0 obb0 Hi Hg Ha Ho.
  pose proof Hg as (_ & Hx & Hy & Hz).
  assert (Hi' : 0 <= inflate) by lra.
  split; [split |].
  - apply Beam_compute_obb_ok; assumption.
  - apply Beam_compute_aabb_ok; assumption.
  - split; [apply grown_multiplied; assumption |].
    split; [apply grown_proportional; assumption |].
    split; [apply oriented_bounds_proportional; assumption |].
    split.
    + apply (Block_compute_aabb_additive inflate block s1); assumption.
    + apply (Block_compute_obb_additive Mesh_obb inflate block s2); assumption.
Qed.

(** C5, at the beam of length 2 and the tetrahedron block, inflated by 1. *)
Lemma inflation_by_one_witness :
  0 < 1 /\ well_formed_box (Beam._geometry long_beam) /\
  exists aabb0 s1 obb0 s2,
    Block.compute_aabb 0 tetrahedron_block = Ok (aabb0, s1) /\
    Block.compute_obb plain_obb 0 tetrahedron_block = Ok (obb0, s2) /\
    Beam.compute_obb 1 long_beam
    = Ok (grown long_box 1, Beam.set_obb (Some (grown long_box 1)) long_beam) /\
    Beam.compute_aabb 1 long_beam
    = Ok (oriented_bounds long_box 1,
          Beam.set_aabb (Some (oriented_bounds long_box 1)) long_beam) /\
    ~ proportional long_box (grown long_box 1) /\
    ~ proportional (oriented_bounds long_box 0) (oriented_bounds long_box 1) /\
    Block.compute_aabb 1 tetrahedron_block
    = Ok (grown aabb0 1, Block.set_aabb (Some (grown aabb0 1)) tetrahedron_block) /\
    Block.compute_obb plain_obb 1 tetrahedron_block
    = Ok (grown obb0 1, Block.set_obb (Some (grown obb0 1)) tetrahedron_block).
Proof.
  split; [exact Rlt_0_1 |]. split; [exact long_box_well_formed |].
  do 4 eexists.
  split; [exact (tetrahedron_aabb 0 (Rle_refl 0)) |].
  split; [exact (tetrahedron_obb 0 (Rle_refl 0)) |].
  destruct (inflation_grows_every_size_by_the_margin plain_obb 1 long_beam tetrahedron_block
              _ _ _ _ Rlt_0_1 long_box_well_formed
              (tetrahedron_aabb 0 (Rle_refl 0)) (tetrahedron_obb 0 (Rle_refl 0)))
    as ((Hobb & Haabb) & _ & Hp & Hq & Hba & Hbo).
  split; [exact Hobb |]. split; [exact Haabb |].
  split; [intros H; apply Hp in H; simpl in H; lra |].
  split; [intros H; apply Hq in H; simpl in H; lra |].
  split; [exact Hba | exact Hbo].
Defined.

(** C5 (as stated) fails: inflated by 1, the 2 x 1 x 1 box of the beam
    becomes 3 x 2 x 2, which is not in the proportions of the original. *)
Lemma Beam_inflation_changes_proportions :
  exists box self',
    Beam.compute_obb 1 long_beam = Ok (box, self') /\
    Box_xsize box = 3 /\ Box_ysize box = 2 /\ Box_zsize box = 2 /\
    ~ proportional (Beam._geometry long_beam) box.
Proof.
  eexists; eexists. split;
    [apply Beam_compute_obb_ok; [exact long_box_well_formed | lra] |].
  simpl. repeat split; try lra.
  intros (k & Hx & Hy & Hz). simpl in *. lra.
Qed.

(** C6.  [Beam.dimensions] lists width, height and depth of the box, that
    is its sizes along x, z and y, and [compute_face_polygons] takes entry 2
    for the extent along the x axis and entry 0 for the extent along the y
    axis.  For the beam of length 2, width 1 and height 1 it returns six
    quads, and each of them has a vertex that is no corner of the beam's box. *)
Theorem Beam_face_polygons_miss_the_box :
  exists polygons,
    Beam.compute_face_polygons long_beam = Ok polygons /\
    List.length polygons = 6%nat /\
    Forall (fun q => List.length (Polygon_points q) = 4%nat) polygons /\
    Forall (fun q => exists v, In v (Polygon_points q) /\
                               ~ In v (Box_vertices (Beam._geometry long_beam))) polygons.
Proof.
  eexists. split; [exact long_beam_face_polygons |].
  split; [reflexivity |]. split; [repeat constructor |].
  simpl Beam._geometry. rewrite long_box_vertices.
  repeat constructor; simpl;
    (eexists; split; [left; reflexivity |]);
    intros H; repeat (destruct H as [H | H]; [injection H; intros; lra |]); exact H.
Qed.

(** C7.  [Block.face_polygons] of a block over a tetrahedron, whose list
    of face polygons is empty as [Block.__init__] sets it, is the empty list:
    [_compute_face_polygons] returns the attribute it finds.  The mesh has
    four faces. *)
Theorem Block_face_polygons_of_tetrahedron_empty :
  Block.face_polygons tetrahedron_block = Ok ([], tetrahedron_block) /\
  List.length (Mesh_to_polygons (Block._geometry tetrahedron_block)) = 4%nat.
Proof. split; [apply Block_face_polygons_stay_empty |]; reflexivity. Qed.

(** C8.  [Block.compute_collision_mesh] returns (and stores) the mesh over
    the vertices of the block's mesh whose faces are those [convex_hull]
    gives for these vertices; [Beam.compute_collision_mesh] returns (and
    stores) the mesh of the eight corners and six quads of the beam's box. *)
Theorem collision_mesh_is_hull_for_block_and_box_for_beam :
  forall (convex_hull : list Point -> result (list (list nat)))
         (block : Block.t) (hull : list (list nat)) (beam : Beam.t),
    convex_hull (Mesh_vertices (Block._geometry block)) = Ok hull ->
    (exists mesh,
       Block.compute_collision_mesh convex_hull block
       = Ok (mesh, Block.set_collision_mesh (Some mesh) block) /\
       Mesh_vertices mesh = Mesh_vertices (Block._geometry block) /\
       Mesh_faces mesh = hull) /\
    (exists mesh,
       Beam.compute_collision_mesh beam
       = Ok (mesh, Beam.set_collision_mesh (Some mesh) beam) /\
       Mesh_vertices mesh = Box_vertices (Beam._geometry beam) /\
       Mesh_faces mesh = Box_faces /\
       List.length (Mesh_vertices mesh) = 8%nat /\
       Forall (fun face => List.length face = 4%nat /\
                           Forall (fun i => (i < 8)%nat) face) (Mesh_faces mesh)).
Proof.
  intros convex_hull block hull beam Hh. split.
  - exists (mkMesh (Mesh_vertices (Block._geometry block)) hull).
    unfold Block.compute_collision_mesh. simpl. rewrite Hh. simpl. auto.
  - exists (mkMesh (Box_vertices (Beam._geometry beam)) Box_faces).
    unfold Beam.compute_collision_mesh. simpl.
    repeat split; repeat constructor.
Qed.

(** C8, at the tetrahedron block and the beam of length 2. *)
Lemma collision_mesh_witness :
  tetrahedron_hull (Mesh_vertices (Block._geometry tetrahedron_block))
  = Ok (Mesh_faces tetrahedron) /\
  (exists mesh,
     Block.compute_collision_mesh tetrahedron_hull tetrahedron_block
     = Ok (mesh, Block.set_collision_mesh (Some mesh) tetrahedron_block) /\
     Mesh_vertices mesh = Mesh_vertices tetrahedron /\
     Mesh_faces mesh = Mesh_faces tetrahedron) /\
  (exists mesh,
     Beam.compute_collision_mesh long_beam
     = Ok (mesh, Beam.set_collision_mesh (Some mesh) long_beam) /\
     Mesh_vertices mesh = Box_vertices long_box /\
     Mesh_faces mesh = Box_faces /\
     List.length (Mesh_vertices mesh) = 8%nat /\
     Forall (fun face => List.length face = 4%nat /\
                         Forall (fun i => (i < 8)%nat) face) (Mesh_faces mesh)).
Proof.
  split; [reflexivity |].
  exact (collision_mesh_is_hull_for_block_and_box_for_beam
           tetrahedron_hull tetrahedron_block (Mesh_faces tetrahedron) long_beam eq_refl).
Defined.

(** C9.  With positive dimensions [Beam.__init__] builds the centre line and
    the box and then raises [TypeError]: it hands the keyword
    [geometry_simplified] to [Element.__init__], whose parameters are
    [geometry], [frame] and [name].  [Block.__init__] on a mesh for which
    [centroid()] returns raises [TypeError] likewise.  Neither constructor
    returns an instance, whatever it is given. *)
Theorem constructors_raise_TypeError :
  (forall (frame : Frame) (length width height : R) (kwargs : keywords),
     0 < length -> 0 < width -> 0 < height ->
     exists line box msg,
       Beam.__init__ frame length width height kwargs
       = ([VLine line; VBox box], Raise (TypeError msg))) /\
  (forall (Mesh_centroid : Mesh -> result Point) (mesh : Mesh) (centroid : Point)
          (geometry_simplified : pyval) (kwargs : keywords),
     Mesh_centroid mesh = Ok centroid ->
     exists msg,
       Block.__init__ Mesh_centroid (VMesh mesh) geometry_simplified kwargs
       = Raise (TypeError msg)) /\
  (forall (frame : Frame) (length width height : R) (kwargs : keywords),
     exists e, snd (Beam.__init__ frame length width height kwargs) = Raise e) /\
  (forall (Mesh_centroid : Mesh -> result Point) (closed_mesh geometry_simplified : pyval)
          (kwargs : keywords),
     exists e, Block.__init__ Mesh_centroid closed_mesh geometry_simplified kwargs = Raise e).
Proof.
  split; [| split; [| split]].
  - intros frame length width height kwargs Hl Hw Hh.
    apply Beam_init_TypeError; assumption.
  - intros Mesh_centroid mesh centroid geometry_simplified kwargs Hc.
    apply (Block_init_TypeError Mesh_centroid mesh centroid); assumption.
  - intros frame length width height kwargs. apply Beam_init_never_returns.
  - intros Mesh_centroid closed_mesh geometry_simplified kwargs.
    apply Block_init_never_returns.
Qed.

(** C9, at the beam of length 2 on the world frame and the tetrahedron. *)
Lemma constructors_raise_TypeError_witness :
  (0 < 2 /\ 0 < 1 /\ 0 < 1 /\
   exists line box msg,
     Beam.__init__ worldXY 2 1 1 [] = ([VLine line; VBox box], Raise (TypeError msg))) /\
  ((exists centroid, tetrahedron_centroid tetrahedron = Ok centroid) /\
   exists msg,
     Block.__init__ tetrahedron_centroid (VMesh tetrahedron) VNone []
     = Raise (TypeError msg)).
Proof.
  destruct constructors_raise_TypeError as (Hbeam & Hblock & _).
  split.
  - assert (H2 : 0 < 2) by lra. assert (H1 : 0 < 1) by lra.
    repeat split; try assumption.
    exact (Hbeam worldXY 2 1 1 [] H2 H1 H1).
  - split; [eexists; reflexivity |].
    exact (Hblock tetrahedron_centroid tetrahedron _ VNone [] eq_refl).
Defined.

(** C10.  [Block.dimensions] is [compute_aabb()] followed by reading the
    sizes of the box it returns: the cache is not consulted, so the outcome
    is the same whatever [_aabb] held.  After [compute_aabb(inflate)] with
    [inflate > 0] the cache holds the inflated box; [dimensions] then
    succeeds, returns the sizes without inflation and leaves the box without
    inflation in the cache. *)
Theorem Block_dimensions_recomputes_aabb :
  forall self : Block.t,
    Block.dimensions self
    = ('(box, self') <- Block.compute_aabb 0 self ;;
       Ok ([Box_width box; Box_height box; Box_depth box], self')) /\
    (forall old : option Box,
       Block.dimensions (Block.set_aabb old self)
       = Block.dimensions (Block.set_aabb None self)) /\
    (forall (inflate : R) (inflated : Box) (s1 : Block.t),
       0 < inflate ->
       Block.compute_aabb inflate self = Ok (inflated, s1) ->
       Block._aabb s1 = Some inflated /\
       exists plain s2,
         Block.dimensions s1
         = Ok ([Box_width plain; Box_height plain; Box_depth plain], s2) /\
         Block._aabb s2 = Some plain /\
         inflated = grown plain inflate /\
         plain <> inflated).
Proof.
  intros self. split; [apply Block_dimensions_unfolded |]. split.
  - intros old. rewrite !Block_dimensions_unfolded, !Block_compute_aabb_ignores_cache.
    destruct (Block.compute_aabb 0 self) as [[box s]|e]; reflexivity.
  - intros inflate inflated s1 Hi H.
    destruct (Block_dimensions_after_inflation self s1 inflate inflated Hi H)
      as (Hc & plain & s2 & _ & Hd & Hp & Hg & Hne).
    split; [exact Hc |]. exists plain, s2. auto.
Qed.

(** C10, at the tetrahedron block after [compute_aabb(1)]. *)
Lemma Block_dimensions_witness :
  0 < 1 /\
  exists inflated s1,
    Block.compute_aabb 1 tetrahedron_block = Ok (inflated, s1) /\
    Block._aabb s1 = Some inflated /\
    exists plain s2,
      Block.dimensions s1
      = Ok ([Box_width plain; Box_height plain; Box_depth plain], s2) /\
      Block._aabb s2 = Some plain /\
      inflated = grown plain 1 /\
      plain <> inflated.
Proof.
  split; [exact Rlt_0_1 |].
  destruct (Block_dimensions_recomputes_aabb tetrahedron_block) as (_ & _ & H).
  do 2 eexists. split; [exact (tetrahedron_aabb 1 Rle_0_1) |].
  exact (H 1 _ _ Rlt_0_1 (tetrahedron_aabb 1 Rle_0_1)).
Defined.

(* ====================================================================== *)
(** * Further properties of the elements, X1 to X25 *)
(* ====================================================================== *)

(* ====================================================================== *)
(** * Rigid maps and the corners of a box *)
(* ====================================================================== *)

Section RigidShapes.

Variable T : Transformation.
Hypothesis T_rigid : is_rigid T.

(** A rotation maps the cross product of two vectors to the cross product
    of their images. *)
Lemma rigid_cross (u v : Vector) :
  transform_vector T (cross_vectors u v)
  = cross_vectors (transform_vector T u) (transform_vector T v).
Proof.
  destruct (rigid_cofactors T T_rigid)
    as [[H11 [H21 H31]] [[H12 [H22 H32]] [H13 [H23 H33]]]].
  apply vector_eq; simpl.
  - rewrite <- H11, <- H12, <- H13. ring.
  - rewrite <- H21, <- H22, <- H23. ring.
  - rewrite <- H31, <- H32, <- H33. ring.
Qed.

Lemma moved_frame_zaxis (f : Frame) :
  Frame_zaxis (moved_frame T f) = transform_vector T (Frame_zaxis f).
Proof. unfold Frame_zaxis. simpl. symmetry. apply rigid_cross. Qed.

Lemma transform_point_add (p v : Vector) :
  transform_point T (add_vectors p v)
  = add_vectors (transform_point T p) (transform_vector T v).
Proof. apply vector_eq; simpl; ring. Qed.

Lemma transform_point_subtract (p v : Vector) :
  transform_point T (subtract_vectors p v)
  = subtract_vectors (transform_point T p) (transform_vector T v).
Proof. apply vector_eq; simpl; ring. Qed.

Lemma transform_vector_scale (v : Vector) (k : R) :
  transform_vector T (scale_vector v k) = scale_vector (transform_vector T v) k.
Proof. apply vector_eq; simpl; ring. Qed.

Lemma transform_vector_negate (v : Vector) :
  transform_vector T (negate_vector v) = negate_vector (transform_vector T v).
Proof. apply vector_eq; simpl; ring. Qed.

(** The corners of the moved box are the images of the corners. *)
Lemma Box_vertices_moved (b : Box) :
  Box_vertices (moved_box T b) = map (transform_point T) (Box_vertices b).
Proof.
  unfold Box_vertices. cbn [map].
  cbn [moved_box Box_frame Box_xsize Box_ysize Box_zsize].
  rewrite moved_frame_zaxis.
  cbn [moved_frame Frame_point Frame_xaxis Frame_yaxis].
  rewrite ?transform_point_add, ?transform_vector_scale.
  reflexivity.
Qed.

End RigidShapes.

(* ====================================================================== *)
(** * Degenerate and general bounding boxes *)
(* ====================================================================== *)

Lemma minimum_all_equal (x : R) (xs : list R) :
  (forall y, In y xs -> y = x) -> minimum x xs = x.
Proof.
  unfold minimum. induction xs as [|y ys IH]; intros H; [reflexivity |].
  simpl. rewrite (H y) by (left; reflexivity).
  rewrite Rmin_left by lra. apply IH. intros z Hz. apply H. right. exact Hz.
Qed.

Lemma maximum_all_equal (x : R) (xs : list R) :
  (forall y, In y xs -> y = x) -> maximum x xs = x.
Proof.
  unfold maximum. induction xs as [|y ys IH]; intros H; [reflexivity |].
  simpl. rewrite (H y) by (left; reflexivity).
  rewrite Rmax_left by lra. apply IH. intros z Hz. apply H. right. exact Hz.
Qed.

(** Points that share a coordinate have no extent along it. *)
Lemma extent_zero (f : Point -> R) (p : Point) (ps : list Point) :
  (forall a b, In a (p :: ps) -> In b (p :: ps) -> f a = f b) ->
  minimum (f p) (map f ps) = f p /\ maximum (f p) (map f ps) = f p.
Proof.
  intros H.
  assert (Hall : forall y, In y (map f ps) -> y = f p).
  { intros y Hy. apply in_map_iff in Hy. destruct Hy as (q & <- & Hq).
    apply H; [right; exact Hq | left; reflexivity]. }
  split; [apply minimum_all_equal | apply maximum_all_equal]; exact Hall.
Qed.

(** Two points that differ in a coordinate give the points an extent. *)
Lemma extent_of_two (f : Point -> R) (p : Point) (ps : list Point) :
  (exists a b, In a (p :: ps) /\ In b (p :: ps) /\ f a <> f b) ->
  minimum (f p) (map f ps) < maximum (f p) (map f ps).
Proof.
  intros (a & b & Ha & Hb & Hab). exact (extent_positive f p ps a b Ha Hb Hab).
Qed.

Lemma length_vector_zero : length_vector (mkVector 0 0 0) = 0.
Proof.
  unfold length_vector, dot_vectors; simpl.
  replace (0 * 0 + 0 * 0 + 0 * 0) with 0 by ring. apply sqrt_0.
Qed.

(** The vector of length zero has no direction. *)
Lemma unitize_zero : unitize (mkVector 0 0 0) = Raise ZeroDivisionError.
Proof.
  unfold unitize, pydiv. rewrite length_vector_zero.
  destruct (Req_dec_T 0 0) as [_ | H]; [reflexivity | contradiction H; reflexivity].
Qed.

(** [Box.from_bounding_box] on corners without extent along x, or along y. *)
Lemma from_bounding_box_flat (a b c d e f : R) :
  a = b \/ c = d ->
  Box_from_bounding_box
    [mkVector a c e; mkVector b c e; mkVector b d e; mkVector a d e;
     mkVector a c f; mkVector b c f; mkVector b d f; mkVector a d f]
  = Raise ZeroDivisionError.
Proof.
  intros H. unfold Box_from_bounding_box; cbn [getitem nth_error bind centroid_points].
  unfold Frame___init__, Frame_set_xaxis.
  destruct (Req_dec_T a b) as [Hab | Hab].
  - subst b.
    replace (subtract_vectors (mkVector a c e) (mkVector a c e)) with (mkVector 0 0 0)
      by (apply vector_eq; simpl; ring).
    rewrite unitize_zero. reflexivity.
  - destruct H as [H | H]; [contradiction |]. subst d.
    assert (Hx : dot_vectors (mkVector 1 0 0) (mkVector 1 0 0) = 1)
      by (unfold dot_vectors; simpl; lra).
    destruct (Rlt_or_le a b) as [Hlt | Hle].
    + replace (subtract_vectors (mkVector b c e) (mkVector a c e))
        with (scale_vector (mkVector 1 0 0) (b - a)) by (apply vector_eq; simpl; ring).
      rewrite unitize_scale by (assumption || lra). cbn [bind].
      unfold Frame_set_yaxis.
      replace (subtract_vectors (mkVector a c e) (mkVector a c e)) with (mkVector 0 0 0)
        by (apply vector_eq; simpl; ring).
      rewrite unitize_zero. reflexivity.
    + assert (Hx' : dot_vectors (mkVector (-1) 0 0) (mkVector (-1) 0 0) = 1)
        by (unfold dot_vectors; simpl; lra).
      replace (subtract_vectors (mkVector b c e) (mkVector a c e))
        with (scale_vector (mkVector (-1) 0 0) (a - b)) by (apply vector_eq; simpl; ring).
      rewrite unitize_scale by (assumption || lra). cbn [bind].
      unfold Frame_set_yaxis.
      replace (subtract_vectors (mkVector a c e) (mkVector a c e)) with (mkVector 0 0 0)
        by (apply vector_eq; simpl; ring).
      rewrite unitize_zero. reflexivity.
Qed.

(** [Box.from_points]: the box of the world around points that have an
    extent along x and y. *)
Lemma Box_from_points_world (p : Point) (ps : list Point) :
  minimum (vx p) (map vx ps) < maximum (vx p) (map vx ps) ->
  minimum (vy p) (map vy ps) < maximum (vy p) (map vy ps) ->
  Box_from_points (p :: ps)
  = Ok (mkBox (mkFrame (mkVector ((minimum (vx p) (map vx ps) + maximum (vx p) (map vx ps)) / 2)
                                 ((minimum (vy p) (map vy ps) + maximum (vy p) (map vy ps)) / 2)
                                 ((minimum (vz p) (map vz ps) + maximum (vz p) (map vz ps)) / 2))
                       (mkVector 1 0 0) (mkVector 0 1 0))
              (maximum (vx p) (map vx ps) - minimum (vx p) (map vx ps))
              (maximum (vy p) (map vy ps) - minimum (vy p) (map vy ps))
              (maximum (vz p) (map vz ps) - minimum (vz p) (map vz ps))).
Proof.
  intros Hx Hy.
  pose proof (minimum_le_maximum (vz p) (map vz ps)) as Hz.
  unfold Box_from_points, bounding_box. cbn [bind].
  apply from_bounding_box_world; lra.
Qed.

(** [Box.from_points] on points without extent along x, or along y. *)
Lemma Box_from_points_flat (p : Point) (ps : list Point) :
  (forall a b, In a (p :: ps) -> In b (p :: ps) -> vx a = vx b) \/
  (forall a b, In a (p :: ps) -> In b (p :: ps) -> vy a = vy b) ->
  Box_from_points (p :: ps) = Raise ZeroDivisionError.
Proof.
  intros H. unfold Box_from_points, bounding_box. cbn [bind].
  apply from_bounding_box_flat.
  destruct H as [H | H]; [left | right];
    destruct (extent_zero _ p ps H) as [E1 E2]; exact (eq_trans E1 (eq_sym E2)).
Qed.

(** [Box.from_points] returns only the box of the world around the
    points, and only when they have an extent along x and y. *)
Lemma Box_from_points_frame (points : list Point) (b : Box) :
  Box_from_points points = Ok b ->
  Frame_xaxis (Box_frame b) = mkVector 1 0 0 /\ Frame_yaxis (Box_frame b) = mkVector 0 1 0.
Proof.
  destruct points as [|p ps]; [discriminate |]. intros H.
  pose proof (minimum_le_maximum (vx p) (map vx ps)) as Hx.
  pose proof (minimum_le_maximum (vy p) (map vy ps)) as Hy.
  destruct (Req_dec_T (minimum (vx p) (map vx ps)) (maximum (vx p) (map vx ps))) as [Ex | Nx].
  { unfold Box_from_points, bounding_box in H. cbn [bind] in H.
    rewrite from_bounding_box_flat in H by (left; exact Ex). discriminate H. }
  destruct (Req_dec_T (minimum (vy p) (map vy ps)) (maximum (vy p) (map vy ps))) as [Ey | Ny].
  { unfold Box_from_points, bounding_box in H. cbn [bind] in H.
    rewrite from_bounding_box_flat in H by (right; exact Ey). discriminate H. }
  rewrite Box_from_points_world in H by lra.
  injection H as <-. split; reflexivity.
Qed.

Lemma Block_compute_obb_frame (Mesh_obb : Mesh -> result (list Point)) (inflate : R)
  (self self' : Block.t) (obb : Box) :
  Block.compute_obb Mesh_obb inflate self = Ok (obb, self') ->
  orthonormal (Box_frame obb).
Proof.
  unfold Block.compute_obb. intros H.
  apply bind_Ok in H. destruct H as (points & _ & H).
  apply bind_Ok in H. destruct H as (b & Hb & H).
  apply Box_from_points_frame in Hb. destruct Hb as [Hx Hy].
  unfold Box_set_xsize, Box_set_ysize, Box_set_zsize in H.
  destruct (Rlt_dec _ 0); [discriminate |]. cbn [bind] in H.
  destruct (Rlt_dec _ 0); [discriminate |]. cbn [bind] in H.
  destruct (Rlt_dec _ 0); [discriminate |]. cbn [bind] in H.
  injection H as <- _. cbn [Box_frame].
  unfold orthonormal. rewrite Hx, Hy. unfold dot_vectors; simpl. repeat split; lra.
Qed.

(* ====================================================================== *)
(** * The lazily computed attributes *)
(* ====================================================================== *)

Section Cached.
Context {A C : Type}.
Variable get : A -> option C.
Variable set : option C -> A -> A.
Variable compute : A -> result (C * A).
Hypothesis get_set : forall v self, get (set v self) = v.

(** What a lazily computed attribute returns is in its slot afterwards. *)
Lemma cached_stored (self self' : A) (c : C) :
  Element.cached get set compute self = Ok (c, self') -> get self' = Some c.
Proof.
  unfold Element.cached. destruct (get self) as [c0|] eqn:E.
  - intros H. injection H as <- <-. exact E.
  - intros H. apply bind_Ok in H. destruct H as ([c1 s1] & _ & H).
    injection H as <- <-. apply get_set.
Qed.

(** A slot that is filled is returned as it is. *)
Lemma cached_hit (self : A) (c : C) :
  get self = Some c -> Element.cached get set compute self = Ok (c, self).
Proof. unfold Element.cached. intros ->. reflexivity. Qed.

(** The second access returns what the first did and changes nothing. *)
Lemma cached_twice (self self' : A) (c : C) :
  Element.cached get set compute self = Ok (c, self') ->
  Element.cached get set compute self' = Ok (c, self').
Proof. intros H. apply cached_hit. apply (cached_stored self). exact H. Qed.

End Cached.

Lemma Beam_aabb_miss (self : Beam.t) :
  well_formed_box (Beam._geometry self) -> Beam._aabb self = None ->
  Beam.aabb self
  = Ok (oriented_bounds (Beam._geometry self) 0,
        Beam.set_aabb (Some (oriented_bounds (Beam._geometry self) 0)) self).
Proof.
  intros Hg E. unfold Beam.aabb, Element.cached. rewrite E.
  rewrite Beam_compute_aabb_ok by (try assumption; lra). reflexivity.
Qed.

Lemma Beam_obb_miss (self : Beam.t) :
  well_formed_box (Beam._geometry self) -> Beam._obb self = None ->
  Beam.obb self
  = Ok (grown (Beam._geometry self) 0,
        Beam.set_obb (Some (grown (Beam._geometry self) 0)) self).
Proof.
  intros Hg E. unfold Beam.obb, Element.cached. rewrite E.
  rewrite Beam_compute_obb_ok by (try assumption; lra). reflexivity.
Qed.

Lemma Beam_collision_mesh_miss (self : Beam.t) :
  Beam._collision_mesh self = None ->
  Beam.collision_mesh self
  = Ok (mkMesh (Box_vertices (Beam._geometry self)) Box_faces,
        Beam.set_collision_mesh
          (Some (mkMesh (Box_vertices (Beam._geometry self)) Box_faces)) self).
Proof.
  intros E. unfold Beam.collision_mesh, Element.cached. rewrite E. reflexivity.
Qed.

(** Filling a slot keeps a beam well formed. *)
Lemma Beam_set_aabb_well_formed (v : option Box) (self : Beam.t) :
  Beam_well_formed self -> Beam_well_formed (Beam.set_aabb v self).
Proof. intros H. exact H. Qed.

Lemma Beam_set_collision_mesh_well_formed (v : option Mesh) (self : Beam.t) :
  Beam_well_formed self -> Beam_well_formed (Beam.set_collision_mesh v self).
Proof. intros H. exact H. Qed.

Lemma Beam_set_face_polygons_well_formed (v : option (list Polygon)) (self : Beam.t) :
  Beam_well_formed self -> Beam_well_formed (Beam.set_face_polygons v self).
Proof. intros H. exact H. Qed.

Lemma Beam_set_obb_well_formed (b : Box) (self : Beam.t) :
  Beam_well_formed self -> orthonormal (Box_frame b) ->
  Beam_well_formed (Beam.set_obb (Some b) self).
Proof.
  intros (Hf & Hg & _) Hb. split; [exact Hf | split; [exact Hg |]].
  simpl. intros b' E. injection E as <-. exact Hb.
Qed.

(** The six quads of the moved beam are the images of the six quads. *)
Lemma Beam_face_polygons_moved (T : Transformation) (self : Beam.t) :
  is_rigid T ->
  Beam.compute_face_polygons (Beam_moved T self)
  = (polygons <- Beam.compute_face_polygons self ;;
     Ok (map (Polygon_transform T) polygons)).
Proof.
  intros HT. unfold Beam.compute_face_polygons, Beam.mid_point, Beam.dimensions.
  cbn [Beam_moved Beam._frame Beam._geometry getitem nth_error bind].
  rewrite (moved_frame_zaxis T HT).
  unfold Frame_zaxis, Box_width, Box_height, Box_depth.
  cbn [moved_frame Frame_point Frame_xaxis Frame_yaxis moved_box
       Box_xsize Box_ysize Box_zsize].
  unfold Polygon_transform, Beam.quad.
  cbn [combine map Polygon_points]. unfold Point.
  repeat first [rewrite (transform_point_add T)
               | rewrite (transform_point_subtract T)
               | rewrite (transform_vector_scale T)
               | rewrite (transform_vector_negate T)].
  reflexivity.
Qed.

(* ====================================================================== *)
(** * Further properties of Beam *)
(* ====================================================================== *)

(** X1.  [Beam.transform] with a rigid transformation completes on a well
    formed beam: the frame and the centre line are moved, the corners of the
    box are the images of the corners and the dimensions are kept, a cache is
    there afterwards exactly when it was there before, an AABB that is there
    holds every corner of the moved box, and the beam is well formed again. *)
Theorem Beam_transform_moves_the_beam :
  forall (T : Transformation) (self : Beam.t),
    is_rigid T -> Beam_well_formed self ->
    exists self',
      Beam.transform T self = Ok self' /\
      Beam._frame self' = moved_frame T (Beam._frame self) /\
      Beam.geometry_simplified self' = Line_transform T (Beam.geometry_simplified self) /\
      Box_vertices (Beam._geometry self')
      = map (transform_point T) (Box_vertices (Beam._geometry self)) /\
      Beam.dimensions self' = Beam.dimensions self /\
      (Beam._aabb self' = None <-> Beam._aabb self = None) /\
      (Beam._obb self' = None <-> Beam._obb self = None) /\
      (Beam._collision_mesh self' = None <-> Beam._collision_mesh self = None) /\
      (Beam._face_polygons self' = None <-> Beam._face_polygons self = None) /\
      (forall box v, Beam._aabb self' = Some box ->
                     In v (Box_vertices (Beam._geometry self')) -> inside box v) /\
      Beam_well_formed self'.
Proof.
  intros T self HT Hself. exists (Beam_moved T self).
  split; [apply Beam_transform_rigid; assumption |].
  split; [reflexivity |]. split; [reflexivity |].
  split; [apply (Box_vertices_moved T HT) |].
  split; [reflexivity |].
  destruct self as [f gs g a o m p]; simpl.
  split; [destruct a; split; intros; congruence |].
  split; [destruct o; split; intros; simpl in *; congruence |].
  split; [destruct m; split; intros; simpl in *; congruence |].
  split; [destruct p as [[|q qs]|]; split; intros; simpl in *; congruence |].
  split; [| apply (Beam_moved_well_formed T _ HT Hself)].
  intros box v Hbox Hv. destruct a as [a|]; [| discriminate Hbox].
  injection Hbox as <-.
  apply oriented_bounds_encloses;
    [apply (moved_box_well_formed T HT), Hself | lra | exact Hv].
Qed.

(** X1, at the beam of length 2 with an inflated AABB, for a quarter turn. *)
Lemma Beam_transform_moves_the_beam_witness :
  is_rigid quarter_turn /\ Beam_well_formed long_beam_inflated /\
  exists self',
    Beam.transform quarter_turn long_beam_inflated = Ok self' /\
    Beam._frame self' = moved_frame quarter_turn (Beam._frame long_beam_inflated) /\
    Beam.geometry_simplified self'
    = Line_transform quarter_turn (Beam.geometry_simplified long_beam_inflated) /\
    Box_vertices (Beam._geometry self')
    = map (transform_point quarter_turn) (Box_vertices (Beam._geometry long_beam_inflated)) /\
    Beam.dimensions self' = Beam.dimensions long_beam_inflated /\
    (Beam._aabb self' = None <-> Beam._aabb long_beam_inflated = None) /\
    (Beam._obb self' = None <-> Beam._obb long_beam_inflated = None) /\
    (Beam._collision_mesh self' = None <-> Beam._collision_mesh long_beam_inflated = None) /\
    (Beam._face_polygons self' = None <-> Beam._face_polygons long_beam_inflated = None) /\
    (forall box v, Beam._aabb self' = Some box ->
                   In v (Box_vertices (Beam._geometry self')) -> inside box v) /\
    Beam_well_formed self'.
Proof.
  split; [exact quarter_turn_rigid |].
  split; [exact long_beam_inflated_well_formed |].
  exact (Beam_transform_moves_the_beam quarter_turn long_beam_inflated
           quarter_turn_rigid long_beam_inflated_well_formed).
Defined.

(** X2.  On a well formed beam and for a rigid transformation, reading a
    lazily computed attribute ([aabb], [obb], [collision_mesh]) and then
    calling [transform] leaves the same beam as calling [transform] and then
    reading the attribute: the cache [transform] moves is the cache that
    would be computed from the moved box. *)
Theorem Beam_transform_commutes_with_lazy_attributes :
  forall (T : Transformation) (self : Beam.t),
    is_rigid T -> Beam_well_formed self ->
    (exists s,
       ('(_, s1) <- Beam.aabb self ;; Beam.transform T s1) = Ok s /\
       (s1 <- Beam.transform T self ;; '(_, s2) <- Beam.aabb s1 ;; Ok s2) = Ok s) /\
    (exists s,
       ('(_, s1) <- Beam.obb self ;; Beam.transform T s1) = Ok s /\
       (s1 <- Beam.transform T self ;; '(_, s2) <- Beam.obb s1 ;; Ok s2) = Ok s) /\
    (exists s,
       ('(_, s1) <- Beam.collision_mesh self ;; Beam.transform T s1) = Ok s /\
       (s1 <- Beam.transform T self ;; '(_, s2) <- Beam.collision_mesh s1 ;; Ok s2) = Ok s).
Proof.
  intros T self HT Hself.
  assert (Hg : well_formed_box (Beam._geometry self)) by apply Hself.
  assert (Hg' : well_formed_box (Beam._geometry (Beam_moved T self)))
    by apply (Beam_moved_well_formed T self HT Hself).
  rewrite (Beam_transform_rigid T self HT Hself). cbn [bind].
  split; [| split].
  - destruct (Beam._aabb self) as [a|] eqn:E.
    + exists (Beam_moved T self).
      unfold Beam.aabb at 1. rewrite (cached_hit _ _ _ self a E). cbn [bind].
      split; [apply Beam_transform_rigid; assumption |].
      unfold Beam.aabb.
      rewrite (cached_hit _ _ _ (Beam_moved T self)
                 (oriented_bounds (moved_box T (Beam._geometry self)) 0))
        by (simpl; rewrite E; reflexivity).
      reflexivity.
    + rewrite (Beam_aabb_miss self Hg E). cbn [bind].
      rewrite (Beam_transform_rigid T _ HT (Beam_set_aabb_well_formed _ self Hself)).
      rewrite (Beam_aabb_miss (Beam_moved T self) Hg')
        by (simpl; rewrite E; reflexivity).
      cbn [bind]. eexists. split; [reflexivity |].
      destruct self as [f gs g a o m p]; simpl in E; subst a. reflexivity.
  - destruct (Beam._obb self) as [b|] eqn:E.
    + exists (Beam_moved T self).
      unfold Beam.obb at 1. rewrite (cached_hit _ _ _ self b E). cbn [bind].
      split; [apply Beam_transform_rigid; assumption |].
      unfold Beam.obb.
      rewrite (cached_hit _ _ _ (Beam_moved T self) (moved_box T b))
        by (simpl; rewrite E; reflexivity).
      reflexivity.
    + rewrite (Beam_obb_miss self Hg E). cbn [bind].
      rewrite (Beam_transform_rigid T _ HT
                 (Beam_set_obb_well_formed (grown (Beam._geometry self) 0) self Hself
                    (proj1 Hg))).
      rewrite (Beam_obb_miss (Beam_moved T self) Hg')
        by (simpl; rewrite E; reflexivity).
      cbn [bind]. eexists. split; [reflexivity |].
      destruct self as [f gs g a o m p]; simpl in E; subst o. reflexivity.
  - destruct (Beam._collision_mesh self) as [m0|] eqn:E.
    + exists (Beam_moved T self).
      unfold Beam.collision_mesh at 1. rewrite (cached_hit _ _ _ self m0 E). cbn [bind].
      split; [apply Beam_transform_rigid; assumption |].
      unfold Beam.collision_mesh.
      rewrite (cached_hit _ _ _ (Beam_moved T self) (Mesh_transform T m0))
        by (simpl; rewrite E; reflexivity).
      reflexivity.
    + rewrite (Beam_collision_mesh_miss self E). cbn [bind].
      rewrite (Beam_transform_rigid T _ HT
                 (Beam_set_collision_mesh_well_formed _ self Hself)).
      rewrite (Beam_collision_mesh_miss (Beam_moved T self))
        by (simpl; rewrite E; reflexivity).
      cbn [bind]. eexists. split; [reflexivity |].
      destruct self as [f gs g a o m p]; simpl in E; subst m.
      unfold Beam_moved, Beam.set_collision_mesh, Mesh_transform; simpl.
      rewrite (Box_vertices_moved T HT). reflexivity.
Qed.

(** X2, at the beam of length 2 with an inflated AABB, for a quarter turn. *)
Lemma Beam_transform_commutes_with_lazy_attributes_witness :
  is_rigid quarter_turn /\ Beam_well_formed long_beam_inflated /\
  (exists s,
     ('(_, s1) <- Beam.aabb long_beam_inflated ;; Beam.transform quarter_turn s1) = Ok s /\
     (s1 <- Beam.transform quarter_turn long_beam_inflated ;;
      '(_, s2) <- Beam.aabb s1 ;; Ok s2) = Ok s) /\
  (exists s,
     ('(_, s1) <- Beam.obb long_beam_inflated ;; Beam.transform quarter_turn s1) = Ok s /\
     (s1 <- Beam.transform quarter_turn long_beam_inflated ;;
      '(_, s2) <- Beam.obb s1 ;; Ok s2) = Ok s) /\
  (exists s,
     ('(_, s1) <- Beam.collision_mesh long_beam_inflated ;;
      Beam.transform quarter_turn s1) = Ok s /\
     (s1 <- Beam.transform quarter_turn long_beam_inflated ;;
      '(_, s2) <- Beam.collision_mesh s1 ;; Ok s2) = Ok s).
Proof.
  split; [exact quarter_turn_rigid |].
  split; [exact long_beam_inflated_well_formed |].
  exact (Beam_transform_commutes_with_lazy_attributes quarter_turn long_beam_inflated
           quarter_turn_rigid long_beam_inflated_well_formed).
Defined.

(** X3.  [Beam.face_polygons] and [Beam.transform] commute likewise: the
    six quads of the moved beam are the images of the six quads of the beam,
    so computing them before or after a rigid [transform] leaves the same
    beam. *)
Theorem Beam_transform_commutes_with_face_polygons :
  forall (T : Transformation) (self : Beam.t),
    is_rigid T -> Beam_well_formed self ->
    Beam.compute_face_polygons (Beam_moved T self)
    = (polygons <- Beam.compute_face_polygons self ;;
       Ok (map (Polygon_transform T) polygons)) /\
    exists s,
      ('(_, s1) <- Beam.face_polygons self ;; Beam.transform T s1) = Ok s /\
      (s1 <- Beam.transform T self ;; '(_, s2) <- Beam.face_polygons s1 ;; Ok s2) = Ok s.
Proof.
  intros T self HT Hself.
  split; [apply Beam_face_polygons_moved; exact HT |].
  rewrite (Beam_transform_rigid T self HT Hself). cbn [bind].
  destruct (Beam.truthy (Beam._face_polygons self)) eqn:E.
  - exists (Beam_moved T self).
    unfold Beam.face_polygons at 1. rewrite E. cbn [bind].
    split; [apply Beam_transform_rigid; assumption |].
    unfold Beam.face_polygons.
    destruct self as [f gs g a o m [[|q qs]|]]; try discriminate E. reflexivity.
  - unfold Beam.face_polygons at 1. rewrite E.
    destruct (Beam_compute_face_polygons_six self) as (ps & Hps & Hlen & _).
    rewrite Hps. cbn [bind].
    rewrite (Beam_transform_rigid T _ HT
               (Beam_set_face_polygons_well_formed _ self Hself)).
    unfold Beam.face_polygons.
    replace (Beam.truthy (Beam._face_polygons (Beam_moved T self))) with false
      by (destruct self as [f gs g a o m [[|q qs]|]]; try discriminate E; reflexivity).
    rewrite (Beam_face_polygons_moved T self HT), Hps. cbn [bind].
    eexists. split; [reflexivity |].
    destruct ps as [|q qs]; [discriminate Hlen |].
    destruct self as [f gs g a o m p]. reflexivity.
Qed.

(** X3, at the beam of length 2, for a quarter turn. *)
Lemma Beam_transform_commutes_with_face_polygons_witness :
  is_rigid quarter_turn /\ Beam_well_formed long_beam /\
  Beam.compute_face_polygons (Beam_moved quarter_turn long_beam)
  = (polygons <- Beam.compute_face_polygons long_beam ;;
     Ok (map (Polygon_transform quarter_turn) polygons)) /\
  exists s,
    ('(_, s1) <- Beam.face_polygons long_beam ;; Beam.transform quarter_turn s1) = Ok s /\
    (s1 <- Beam.transform quarter_turn long_beam ;;
     '(_, s2) <- Beam.face_polygons s1 ;; Ok s2) = Ok s.
Proof.
  split; [exact quarter_turn_rigid |].
  split; [exact long_beam_well_formed |].
  exact (Beam_transform_commutes_with_face_polygons quarter_turn long_beam
           quarter_turn_rigid long_beam_well_formed).
Defined.

(* ====================================================================== *)
(** * Bounding boxes and caches of Beam *)
(* ====================================================================== *)

(** The corners of the box [Beam.compute_aabb] returns without inflation
    are the corners of the beam's box. *)
Lemma oriented_bounds_vertices (g : Box) (v : Point) :
  In v (Box_vertices g) <-> In v (Box_vertices (oriented_bounds g 0)).
Proof.
  unfold Box_vertices, oriented_bounds, Frame_zaxis.
  cbn [Box_frame Box_xsize Box_ysize Box_zsize Frame_point Frame_xaxis Frame_yaxis].
  split; intros H; cbn [In] in H;
    repeat (destruct H as [<- | H]; [| try contradiction]);
    cbn [In];
    repeat first [left; apply vector_eq; simpl; rewrite ?half_eq; field | right].
Qed.

Ltac inflate_step H i :=
  destruct (inflate_factor _ i H) as [-> ?E]; cbn [bind];
  match goal with E : _ * _ = _ |- _ => rewrite E; clear E end.

Lemma Beam_compute_obb_shrinks (inflate : R) (self : Beam.t) :
  well_formed_box (Beam._geometry self) ->
  - Box_xsize (Beam._geometry self) <= inflate ->
  - Box_ysize (Beam._geometry self) <= inflate ->
  - Box_zsize (Beam._geometry self) <= inflate ->
  Beam.compute_obb inflate self =
  Ok (grown (Beam._geometry self) inflate,
      Beam.set_obb (Some (grown (Beam._geometry self) inflate)) self).
Proof.
  intros (_ & Hx & Hy & Hz) Ix Iy Iz. unfold Beam.compute_obb.
  unfold Box_width, Box_depth, Box_height, grown.
  inflate_step Hx inflate. rewrite Box_set_xsize_ok by lra. cbn [bind Box_ysize Box_zsize].
  inflate_step Hy inflate. rewrite Box_set_ysize_ok by lra. cbn [bind Box_xsize Box_zsize].
  inflate_step Hz inflate. rewrite Box_set_zsize_ok by lra. reflexivity.
Qed.

Lemma Beam_compute_obb_refuses (inflate : R) (self : Beam.t) :
  well_formed_box (Beam._geometry self) ->
  inflate < - Box_xsize (Beam._geometry self) \/
  inflate < - Box_ysize (Beam._geometry self) \/
  inflate < - Box_zsize (Beam._geometry self) ->
  exists msg, Beam.compute_obb inflate self = Raise (ValueError msg).
Proof.
  intros (_ & Hx & Hy & Hz) H. unfold Beam.compute_obb.
  unfold Box_width, Box_depth, Box_height.
  inflate_step Hx inflate. unfold Box_set_xsize at 1.
  destruct (Rlt_dec _ 0) as [| Nx]; [eexists; reflexivity |]. cbn [bind Box_ysize Box_zsize].
  inflate_step Hy inflate. unfold Box_set_ysize at 1.
  destruct (Rlt_dec _ 0) as [| Ny]; [eexists; reflexivity |]. cbn [bind Box_xsize Box_zsize].
  inflate_step Hz inflate. unfold Box_set_zsize at 1.
  destruct (Rlt_dec _ 0) as [| Nz]; [eexists; reflexivity |]. lra.
Qed.

Lemma Beam_compute_aabb_shrinks (inflate : R) (self : Beam.t) :
  well_formed_box (Beam._geometry self) ->
  - Box_xsize (Beam._geometry self) <= inflate ->
  - Box_ysize (Beam._geometry self) <= inflate ->
  - Box_zsize (Beam._geometry self) <= inflate ->
  Beam.compute_aabb inflate self =
  Ok (oriented_bounds (Beam._geometry self) inflate,
      Beam.set_aabb (Some (oriented_bounds (Beam._geometry self) inflate)) self).
Proof.
  intros Hg Ix Iy Iz. unfold Beam.compute_aabb.
  rewrite corners_of_box. cbn [bind].
  rewrite (from_bounding_box_corners _ Hg). cbn [bind].
  destruct Hg as (_ & Hx & Hy & Hz).
  unfold Box_width, Box_depth, Box_height, oriented_bounds.
  cbn [Box_xsize Box_ysize Box_zsize].
  inflate_step Hy inflate. rewrite Box_set_xsize_ok by lra. cbn [bind Box_ysize Box_zsize].
  inflate_step Hx inflate. rewrite Box_set_ysize_ok by lra. cbn [bind Box_xsize Box_zsize].
  inflate_step Hz inflate. rewrite Box_set_zsize_ok by lra. reflexivity.
Qed.

Lemma Beam_compute_aabb_refuses (inflate : R) (self : Beam.t) :
  well_formed_box (Beam._geometry self) ->
  inflate < - Box_xsize (Beam._geometry self) \/
  inflate < - Box_ysize (Beam._geometry self) \/
  inflate < - Box_zsize (Beam._geometry self) ->
  exists msg, Beam.compute_aabb inflate self = Raise (ValueError msg).
Proof.
  intros Hg H. unfold Beam.compute_aabb.
  rewrite corners_of_box. cbn [bind].
  rewrite (from_bounding_box_corners _ Hg). cbn [bind].
  destruct Hg as (_ & Hx & Hy & Hz).
  unfold Box_width, Box_depth, Box_height.
  cbn [Box_xsize Box_ysize Box_zsize].
  inflate_step Hy inflate. unfold Box_set_xsize at 1.
  destruct (Rlt_dec _ 0) as [| Nx]; [eexists; reflexivity |]. cbn [bind Box_ysize Box_zsize].
  inflate_step Hx inflate. unfold Box_set_ysize at 1.
  destruct (Rlt_dec _ 0) as [| Ny]; [eexists; reflexivity |]. cbn [bind Box_xsize Box_zsize].
  inflate_step Hz inflate. unfold Box_set_zsize at 1.
  destruct (Rlt_dec _ 0) as [| Nz]; [eexists; reflexivity |]. lra.
Qed.

(** X6.  The box [Beam.compute_aabb] returns and stores, for a well formed
    box and [inflate >= 0], has the centre of the beam's box and holds each
    of its eight corners; without inflation its corners are the corners of
    the beam's box. *)
Theorem Beam_compute_aabb_holds_the_box :
  forall (inflate : R) (self : Beam.t),
    well_formed_box (Beam._geometry self) -> 0 <= inflate ->
    exists box,
      Beam.compute_aabb inflate self = Ok (box, Beam.set_aabb (Some box) self) /\
      Frame_point (Box_frame box) = Frame_point (Box_frame (Beam._geometry self)) /\
      (forall v, In v (Box_vertices (Beam._geometry self)) -> inside box v) /\
      (inflate = 0 ->
       forall v, In v (Box_vertices (Beam._geometry self)) <-> In v (Box_vertices box)).
Proof.
  intros inflate self Hg Hi. exists (oriented_bounds (Beam._geometry self) inflate).
  split; [apply Beam_compute_aabb_ok; assumption |].
  split; [reflexivity |].
  split; [intros v Hv; apply oriented_bounds_encloses; assumption |].
  intros -> v. apply oriented_bounds_vertices.
Qed.

(** X6, at the beam on the turned frame, without inflation. *)
Lemma Beam_compute_aabb_holds_the_box_witness :
  well_formed_box (Beam._geometry turned_beam) /\ 0 <= 0 /\
  exists box,
    Beam.compute_aabb 0 turned_beam = Ok (box, Beam.set_aabb (Some box) turned_beam) /\
    Frame_point (Box_frame box) = Frame_point (Box_frame (Beam._geometry turned_beam)) /\
    (forall v, In v (Box_vertices (Beam._geometry turned_beam)) -> inside box v) /\
    (0 = 0 ->
     forall v, In v (Box_vertices (Beam._geometry turned_beam)) <-> In v (Box_vertices box)).
Proof.
  split; [exact turned_box_well_formed |]. split; [exact (Rle_refl 0) |].
  exact (Beam_compute_aabb_holds_the_box 0 turned_beam turned_box_well_formed (Rle_refl 0)).
Defined.

(** X10.  A lazily computed attribute of [Element] ([aabb], [obb],
    [collision_mesh]) is computed once: after an access that returned, the
    slot holds the value, and the next access returns it with the instance
    unchanged, whatever the compute method would return or raise by then. *)
Theorem lazy_attribute_is_computed_once :
  forall (A C : Type) (get : A -> option C) (set : option C -> A -> A)
         (compute compute' : A -> result (C * A)) (self self' : A) (c : C),
    (forall v s, get (set v s) = v) ->
    Element.cached get set compute self = Ok (c, self') ->
    get self' = Some c /\
    Element.cached get set compute' self' = Ok (c, self').
Proof.
  intros A C get set compute compute' self self' c Hgs H.
  pose proof (cached_stored get set compute Hgs self self' c H) as Hc.
  split; [exact Hc | apply cached_hit; exact Hc].
Qed.

(** X10, at the AABB of the beam of length 2, read a second time when
    [compute_aabb] would raise. *)
Lemma lazy_attribute_is_computed_once_witness :
  (forall v s, Beam._aabb (Beam.set_aabb v s) = v) /\
  Beam.aabb long_beam
  = Ok (oriented_bounds long_box 0, Beam.set_aabb (Some (oriented_bounds long_box 0)) long_beam) /\
  Beam._aabb (Beam.set_aabb (Some (oriented_bounds long_box 0)) long_beam)
  = Some (oriented_bounds long_box 0) /\
  Element.cached Beam._aabb Beam.set_aabb (fun _ => Raise NotImplementedError)
    (Beam.set_aabb (Some (oriented_bounds long_box 0)) long_beam)
  = Ok (oriented_bounds long_box 0, Beam.set_aabb (Some (oriented_bounds long_box 0)) long_beam).
Proof.
  split; [intros v s; reflexivity |].
  split; [exact (Beam_aabb_miss long_beam long_box_well_formed eq_refl) |].
  exact (lazy_attribute_is_computed_once Beam.t Box Beam._aabb Beam.set_aabb
           (Beam.compute_aabb 0) (fun _ => Raise NotImplementedError)
           long_beam (Beam.set_aabb (Some (oriented_bounds long_box 0)) long_beam)
           (oriented_bounds long_box 0) (fun v s => eq_refl)
           (Beam_aabb_miss long_beam long_box_well_formed eq_refl)).
Defined.

(** X11.  [Beam.compute_obb] and [Beam.compute_aabb] with a negative
    margin, on a well formed box: while no size would become negative the
    sizes shrink by the margin (down to zero); a margin below minus the
    smallest size raises [ValueError], from the setter of the size. *)
Theorem Beam_bounding_boxes_with_negative_margin :
  forall (inflate : R) (self : Beam.t),
    well_formed_box (Beam._geometry self) ->
    (- Box_xsize (Beam._geometry self) <= inflate /\
     - Box_ysize (Beam._geometry self) <= inflate /\
     - Box_zsize (Beam._geometry self) <= inflate ->
     Beam.compute_obb inflate self
     = Ok (grown (Beam._geometry self) inflate,
           Beam.set_obb (Some (grown (Beam._geometry self) inflate)) self) /\
     Beam.compute_aabb inflate self
     = Ok (oriented_bounds (Beam._geometry self) inflate,
           Beam.set_aabb (Some (oriented_bounds (Beam._geometry self) inflate)) self)) /\
    (inflate < - Box_xsize (Beam._geometry self) \/
     inflate < - Box_ysize (Beam._geometry self) \/
     inflate < - Box_zsize (Beam._geometry self) ->
     (exists msg, Beam.compute_obb inflate self = Raise (ValueError msg)) /\
     (exists msg, Beam.compute_aabb inflate self = Raise (ValueError msg))).
Proof.
  intros inflate self Hg. split.
  - intros (Ix & Iy & Iz).
    split; [apply Beam_compute_obb_shrinks | apply Beam_compute_aabb_shrinks]; assumption.
  - intros H.
    split; [apply Beam_compute_obb_refuses | apply Beam_compute_aabb_refuses]; assumption.
Qed.

(** X11, at the beam of length 2, width 1 and height 1: the margin -1
    leaves a box of sizes 1, 0, 0; the margin -2 raises. *)
Lemma Beam_bounding_boxes_with_negative_margin_witness :
  well_formed_box (Beam._geometry long_beam) /\
  (Beam.compute_obb (-1) long_beam
   = Ok (grown long_box (-1), Beam.set_obb (Some (grown long_box (-1))) long_beam) /\
   Beam.compute_aabb (-1) long_beam
   = Ok (oriented_bounds long_box (-1),
         Beam.set_aabb (Some (oriented_bounds long_box (-1))) long_beam)) /\
  ((exists msg, Beam.compute_obb (-2) long_beam = Raise (ValueError msg)) /\
   (exists msg, Beam.compute_aabb (-2) long_beam = Raise (ValueError msg))).
Proof.
  split; [exact long_box_well_formed |]. split.
  - apply (proj1 (Beam_bounding_boxes_with_negative_margin (-1) long_beam long_box_well_formed)).
    simpl. lra.
  - apply (proj2 (Beam_bounding_boxes_with_negative_margin (-2) long_beam long_box_well_formed)).
    simpl. lra.
Defined.

(** X17.  [Beam.face_polygons] computes the six quads once: the first
    access of a beam without them returns six polygons and stores them, and
    any access after one that returned hands out the same list with the beam
    unchanged. *)
Theorem Beam_face_polygons_are_computed_once :
  forall self : Beam.t,
    exists polygons self',
      Beam.face_polygons self = Ok (polygons, self') /\
      polygons <> [] /\
      (Beam.truthy (Beam._face_polygons self) = false -> List.length polygons = 6%nat) /\
      Beam._face_polygons self' = Some polygons /\
      Beam.face_polygons self' = Ok (polygons, self').
Proof.
  intros self. unfold Beam.face_polygons.
  destruct (Beam.truthy (Beam._face_polygons self)) eqn:E.
  - destruct (Beam._face_polygons self) as [[|q qs]|] eqn:Ep; try discriminate E.
    exists (q :: qs), self. rewrite Ep. cbn [Beam.truthy].
    repeat split; try reflexivity; try discriminate.
  - destruct (Beam_compute_face_polygons_six self) as (ps & Hps & Hlen & _).
    rewrite Hps. cbn [bind].
    exists ps, (Beam.set_face_polygons (Some ps) self).
    destruct ps as [|q qs]; [discriminate Hlen |].
    repeat split; try reflexivity; try discriminate. intros _. exact Hlen.
Qed.

(* ====================================================================== *)
(** * Further properties of Block *)
(* ====================================================================== *)

Lemma Block_compute_obb_ok (Mesh_obb : Mesh -> result (list Point)) (inflate : R)
  (self : Block.t) (p : Point) (ps : list Point) :
  Mesh_obb (Block._geometry self) = Ok (p :: ps) ->
  minimum (vx p) (map vx ps) < maximum (vx p) (map vx ps) ->
  minimum (vy p) (map vy ps) < maximum (vy p) (map vy ps) ->
  0 <= inflate ->
  Block.compute_obb Mesh_obb inflate self
  = Ok (world_bounds p ps inflate, Block.set_obb (Some (world_bounds p ps inflate)) self).
Proof.
  intros Hv Hx Hy Hi.
  pose proof (minimum_le_maximum (vz p) (map vz ps)) as Hz.
  unfold Block.compute_obb. rewrite Hv. cbn [bind].
  rewrite Box_from_points_world by assumption. cbn [bind].
  rewrite Box_set_xsize_ok by (simpl; lra). cbn [bind].
  rewrite Box_set_ysize_ok by (simpl; lra). cbn [bind].
  rewrite Box_set_zsize_ok by (simpl; lra). cbn [bind].
  reflexivity.
Qed.

Lemma Block_compute_aabb_flat (inflate : R) (self : Block.t) :
  (forall a b, In a (Mesh_vertices (Block._geometry self)) ->
               In b (Mesh_vertices (Block._geometry self)) -> vx a = vx b) \/
  (forall a b, In a (Mesh_vertices (Block._geometry self)) ->
               In b (Mesh_vertices (Block._geometry self)) -> vy a = vy b) ->
  Block.compute_aabb inflate self
  = Raise (match Mesh_vertices (Block._geometry self) with
           | [] => ValueError "not enough values to unpack"
           | _ :: _ => ZeroDivisionError
           end).
Proof.
  intros H. unfold Block.compute_aabb, Mesh_aabb.
  destruct (Mesh_vertices (Block._geometry self)) as [|p ps]; [reflexivity |].
  pose proof (minimum_le_maximum (vx p) (map vx ps)) as Hx.
  pose proof (minimum_le_maximum (vy p) (map vy ps)) as Hy.
  pose proof (minimum_le_maximum (vz p) (map vz ps)) as Hz.
  unfold bounding_box at 1. cbn [bind].
  unfold Box_from_points. rewrite bounding_box_corners by lra. cbn [bind].
  rewrite from_bounding_box_flat; [reflexivity |].
  destruct H as [H | H]; [left | right];
    destruct (extent_zero _ p ps H) as [E1 E2]; exact (eq_trans E1 (eq_sym E2)).
Qed.

(** X4.  [Block.transform] with a rigid transformation completes, within one
    stack frame, on a well formed block (one without collision mesh): frame
    and centre are moved, the vertices of the mesh are the images of the
    vertices and the faces are kept, a cache is there afterwards exactly when
    it was there before, an AABB that is there is parallel to the world axes
    and holds every moved vertex, and the block is well formed again. *)
Theorem Block_transform_moves_the_block :
  forall (Mesh_obb : Mesh -> result (list Point)) (depth : nat)
         (T : Transformation) (self : Block.t),
    is_rigid T -> Block_well_formed self ->
    exists self',
      Block.transform Mesh_obb (S depth) T self = Ok self' /\
      Block._frame self' = moved_frame T (Block._frame self) /\
      Block.geometry_simplified self' = transform_point T (Block.geometry_simplified self) /\
      Mesh_vertices (Block._geometry self')
      = map (transform_point T) (Mesh_vertices (Block._geometry self)) /\
      Mesh_faces (Block._geometry self') = Mesh_faces (Block._geometry self) /\
      (Block._aabb self' = None <-> Block._aabb self = None) /\
      (Block._obb self' = None <-> Block._obb self = None) /\
      Block._collision_mesh self' = None /\
      (forall box v, Block._aabb self' = Some box ->
                     In v (Mesh_vertices (Block._geometry self')) ->
                     world_aligned box /\ inside box v) /\
      Block_well_formed self'.
Proof.
  intros Mesh_obb depth T self HT Hself. exists (Block_moved T self).
  pose proof (Block_moved_well_formed T self HT Hself) as Hmoved.
  split; [apply Block_transform_rigid; assumption |].
  split; [reflexivity |]. split; [reflexivity |].
  split; [reflexivity |]. split; [reflexivity |].
  assert (Hne : Mesh_vertices (Block._geometry (Block_moved T self)) <> [])
    by (apply solid_not_empty, Hmoved).
  destruct self as [f gs g a o m p]; simpl in *.
  destruct (map (transform_point T) (Mesh_vertices g)) as [|q qs] eqn:E;
    [contradiction Hne; reflexivity |].
  split; [destruct a; simpl; split; intros; congruence |].
  split; [destruct o; simpl; split; intros; congruence |].
  split; [apply Hself |].
  split; [| exact Hmoved].
  intros box v Hbox Hv. destruct a as [a|]; [| discriminate Hbox].
  simpl in Hbox. injection Hbox as <-.
  split; [apply world_bounds_aligned | apply world_bounds_encloses; [lra | exact Hv]].
Qed.

(** X4, at the tetrahedron block, for a quarter turn. *)
Lemma Block_transform_moves_the_block_witness :
  is_rigid quarter_turn /\ Block_well_formed tetrahedron_block /\
  exists self',
    Block.transform plain_obb 1 quarter_turn tetrahedron_block = Ok self' /\
    Block._frame self' = moved_frame quarter_turn (Block._frame tetrahedron_block) /\
    Block.geometry_simplified self'
    = transform_point quarter_turn (Block.geometry_simplified tetrahedron_block) /\
    Mesh_vertices (Block._geometry self')
    = map (transform_point quarter_turn) (Mesh_vertices (Block._geometry tetrahedron_block)) /\
    Mesh_faces (Block._geometry self') = Mesh_faces (Block._geometry tetrahedron_block) /\
    (Block._aabb self' = None <-> Block._aabb tetrahedron_block = None) /\
    (Block._obb self' = None <-> Block._obb tetrahedron_block = None) /\
    Block._collision_mesh self' = None /\
    (forall box v, Block._aabb self' = Some box ->
                   In v (Mesh_vertices (Block._geometry self')) ->
                   world_aligned box /\ inside box v) /\
    Block_well_formed self'.
Proof.
  split; [exact quarter_turn_rigid |].
  split; [exact tetrahedron_block_well_formed |].
  exact (Block_transform_moves_the_block plain_obb 0 quarter_turn tetrahedron_block
           quarter_turn_rigid tetrahedron_block_well_formed).
Defined.

(** X5.  Once the property [collision_mesh] of a block has been read,
    [Block.transform] and [transformed] return for no transformation and no
    stack depth: the branch for the collision mesh calls [transform] itself
    again, on a block that still has its collision mesh, and [transformed]
    ends before that, in [copy]. *)
Theorem Block_transform_never_returns_after_collision_mesh :
  forall (convex_hull : list Point -> result (list (list nat)))
         (self self' : Block.t) (mesh : Mesh),
    Block.collision_mesh convex_hull self = Ok (mesh, self') ->
    forall (Mesh_centroid : Mesh -> result Point) (Mesh_obb : Mesh -> result (list Point))
           (depth : nat) (T : Transformation),
      (exists e, Block.transform Mesh_obb depth T self' = Raise e) /\
      (forall (heap : list Block.t) (i : nat),
         nth_error heap i = Some self' ->
         exists e, Block.transformed Mesh_centroid Mesh_obb depth T i heap = Raise e).
Proof.
  intros convex_hull self self' mesh Hread Mesh_centroid Mesh_obb depth T.
  assert (Hm : Block._collision_mesh self' <> None).
  { apply cached_stored in Hread; [congruence |].
    intros v s. reflexivity. }
  split; [apply Block_transform_never_returns; exact Hm |].
  intros heap i Hi.
  destruct (Block_transformed_raises Mesh_centroid Mesh_obb depth T heap i self' Hi)
    as [msg ->].
  eauto.
Qed.

(** X5, at the tetrahedron block. *)
Lemma Block_transform_never_returns_after_collision_mesh_witness :
  Block.collision_mesh tetrahedron_hull tetrahedron_block
  = Ok (tetrahedron, tetrahedron_block_with_collision_mesh) /\
  forall (Mesh_centroid : Mesh -> result Point) (Mesh_obb : Mesh -> result (list Point))
         (depth : nat) (T : Transformation),
    (exists e, Block.transform Mesh_obb depth T tetrahedron_block_with_collision_mesh
               = Raise e) /\
    (forall (heap : list Block.t) (i : nat),
       nth_error heap i = Some tetrahedron_block_with_collision_mesh ->
       exists e, Block.transformed Mesh_centroid Mesh_obb depth T i heap = Raise e).
Proof.
  split; [reflexivity |].
  exact (Block_transform_never_returns_after_collision_mesh tetrahedron_hull
           tetrahedron_block tetrahedron_block_with_collision_mesh tetrahedron eq_refl).
Defined.

(** X7.  [Block.compute_aabb] on a mesh whose vertices differ somewhere in x
    and somewhere in y, with [inflate >= 0]: it returns and stores the box of
    the world around the vertices, grown by [inflate]; the box is parallel to
    the world axes and every vertex lies in it. *)
Theorem Block_compute_aabb_bounds_the_mesh :
  forall (inflate : R) (self : Block.t),
    (exists a b, In a (Mesh_vertices (Block._geometry self)) /\
                 In b (Mesh_vertices (Block._geometry self)) /\ vx a <> vx b) ->
    (exists a b, In a (Mesh_vertices (Block._geometry self)) /\
                 In b (Mesh_vertices (Block._geometry self)) /\ vy a <> vy b) ->
    0 <= inflate ->
    exists box,
      Block.compute_aabb inflate self = Ok (box, Block.set_aabb (Some box) self) /\
      world_bounds_of (Mesh_vertices (Block._geometry self)) inflate = Some box /\
      world_aligned box /\
      forall v, In v (Mesh_vertices (Block._geometry self)) -> inside box v.
Proof.
  intros inflate self Hx Hy Hi.
  destruct (Mesh_vertices (Block._geometry self)) as [|p ps] eqn:E.
  - destruct Hx as (a & _ & [] & _).
  - exists (world_bounds p ps inflate).
    split; [apply Block_compute_aabb_ok; auto using extent_of_two |].
    split; [reflexivity |].
    split; [apply world_bounds_aligned |].
    intros v Hv. apply world_bounds_encloses; assumption.
Qed.

(** X7, at the tetrahedron block, inflated by 1. *)
Lemma Block_compute_aabb_bounds_the_mesh_witness :
  (exists a b, In a (Mesh_vertices tetrahedron) /\
               In b (Mesh_vertices tetrahedron) /\ vx a <> vx b) /\
  (exists a b, In a (Mesh_vertices tetrahedron) /\
               In b (Mesh_vertices tetrahedron) /\ vy a <> vy b) /\
  0 <= 1 /\
  exists box,
    Block.compute_aabb 1 tetrahedron_block
    = Ok (box, Block.set_aabb (Some box) tetrahedron_block) /\
    world_bounds_of (Mesh_vertices tetrahedron) 1 = Some box /\
    world_aligned box /\
    forall v, In v (Mesh_vertices tetrahedron) -> inside box v.
Proof.
  assert (Hx : exists a b, In a (Mesh_vertices tetrahedron) /\
                           In b (Mesh_vertices tetrahedron) /\ vx a <> vx b).
  { exists (mkVector 0 0 0), (mkVector 1 0 0). simpl. split; [tauto |]. split; [tauto | lra]. }
  assert (Hy : exists a b, In a (Mesh_vertices tetrahedron) /\
                           In b (Mesh_vertices tetrahedron) /\ vy a <> vy b).
  { exists (mkVector 0 0 0), (mkVector 0 1 0). simpl. split; [tauto |]. split; [tauto | lra]. }
  split; [exact Hx |]. split; [exact Hy |]. split; [exact Rle_0_1 |].
  exact (Block_compute_aabb_bounds_the_mesh 1 tetrahedron_block Hx Hy Rle_0_1).
Defined.

(** X8.  [Block.compute_aabb] on a mesh without extent along x, or along y
    (all vertices share the coordinate): an empty mesh raises [ValueError],
    any other raises [ZeroDivisionError], for [Box.from_bounding_box] cannot
    give the frame of the box an axis of length zero.  [Block.dimensions],
    which calls [compute_aabb], raises the same. *)
Theorem Block_compute_aabb_of_flat_mesh_raises :
  forall (inflate : R) (self : Block.t),
    (forall a b, In a (Mesh_vertices (Block._geometry self)) ->
                 In b (Mesh_vertices (Block._geometry self)) -> vx a = vx b) \/
    (forall a b, In a (Mesh_vertices (Block._geometry self)) ->
                 In b (Mesh_vertices (Block._geometry self)) -> vy a = vy b) ->
    Block.compute_aabb inflate self
    = Raise (match Mesh_vertices (Block._geometry self) with
             | [] => ValueError "not enough values to unpack"
             | _ :: _ => ZeroDivisionError
             end) /\
    Block.dimensions self
    = Raise (match Mesh_vertices (Block._geometry self) with
             | [] => ValueError "not enough values to unpack"
             | _ :: _ => ZeroDivisionError
             end).
Proof.
  intros inflate self H.
  split; [apply Block_compute_aabb_flat; exact H |].
  rewrite Block_dimensions_unfolded, (Block_compute_aabb_flat 0 self H). reflexivity.
Qed.

(** X8, at the block over a triangle in the plane [x = 0]. *)
Lemma Block_compute_aabb_of_flat_mesh_raises_witness :
  ((forall a b, In a (Mesh_vertices (Block._geometry flat_block)) ->
                In b (Mesh_vertices (Block._geometry flat_block)) -> vx a = vx b) \/
   (forall a b, In a (Mesh_vertices (Block._geometry flat_block)) ->
                In b (Mesh_vertices (Block._geometry flat_block)) -> vy a = vy b)) /\
  Block.compute_aabb 0 flat_block = Raise ZeroDivisionError /\
  Block.dimensions flat_block = Raise ZeroDivisionError.
Proof.
  assert (H : (forall a b, In a (Mesh_vertices (Block._geometry flat_block)) ->
                           In b (Mesh_vertices (Block._geometry flat_block)) -> vx a = vx b) \/
              (forall a b, In a (Mesh_vertices (Block._geometry flat_block)) ->
                           In b (Mesh_vertices (Block._geometry flat_block)) -> vy a = vy b)).
  { left. intros a b Ha Hb. simpl in Ha, Hb.
    destruct Ha as [<- | [<- | [<- | []]]]; destruct Hb as [<- | [<- | [<- | []]]];
      reflexivity. }
  split; [exact H |].
  exact (Block_compute_aabb_of_flat_mesh_raises 0 flat_block H).
Defined.

(** X9.  [Block.compute_obb] hands the corners [mesh.obb()] gives to
    [Box.from_points], which takes the box of the world around them: for
    corners that differ somewhere in x and somewhere in y and [inflate >= 0]
    the box returned and stored is that box grown by [inflate], parallel to
    the world axes however the corners are oriented, and it holds them all. *)
Theorem Block_compute_obb_is_parallel_to_the_world :
  forall (Mesh_obb : Mesh -> result (list Point)) (inflate : R) (self : Block.t)
         (corners : list Point),
    Mesh_obb (Block._geometry self) = Ok corners ->
    (exists a b, In a corners /\ In b corners /\ vx a <> vx b) ->
    (exists a b, In a corners /\ In b corners /\ vy a <> vy b) ->
    0 <= inflate ->
    exists box,
      Block.compute_obb Mesh_obb inflate self = Ok (box, Block.set_obb (Some box) self) /\
      world_bounds_of corners inflate = Some box /\
      world_aligned box /\
      forall v, In v corners -> inside box v.
Proof.
  intros Mesh_obb inflate self corners Hc Hx Hy Hi.
  destruct corners as [|p ps].
  - destruct Hx as (a & _ & [] & _).
  - exists (world_bounds p ps inflate).
    split; [apply Block_compute_obb_ok; auto using extent_of_two |].
    split; [reflexivity |].
    split; [apply world_bounds_aligned |].
    intros v Hv. apply world_bounds_encloses; assumption.
Qed.

(** X9, at the tetrahedron block, for a routine that answers with the
    corners of a box turned about the world z axis. *)
Lemma Block_compute_obb_is_parallel_to_the_world_witness :
  turned_corners (Block._geometry tetrahedron_block) = Ok (Box_vertices turned_box) /\
  (exists a b, In a (Box_vertices turned_box) /\ In b (Box_vertices turned_box) /\
               vx a <> vx b) /\
  (exists a b, In a (Box_vertices turned_box) /\ In b (Box_vertices turned_box) /\
               vy a <> vy b) /\
  0 <= 0 /\
  exists box,
    Block.compute_obb turned_corners 0 tetrahedron_block
    = Ok (box, Block.set_obb (Some box) tetrahedron_block) /\
    world_bounds_of (Box_vertices turned_box) 0 = Some box /\
    world_aligned box /\
    forall v, In v (Box_vertices turned_box) -> inside box v.
Proof.
  assert (Hx : exists a b, In a (Box_vertices turned_box) /\ In b (Box_vertices turned_box) /\
                           vx a <> vx b).
  { eexists; eexists. split; [left; reflexivity |].
    split; [right; right; left; reflexivity |]. simpl. lra. }
  assert (Hy : exists a b, In a (Box_vertices turned_box) /\ In b (Box_vertices turned_box) /\
                           vy a <> vy b).
  { eexists; eexists. split; [left; reflexivity |].
    split; [right; right; left; reflexivity |]. simpl. lra. }
  split; [reflexivity |]. split; [exact Hx |]. split; [exact Hy |].
  split; [exact (Rle_refl 0) |].
  exact (Block_compute_obb_is_parallel_to_the_world turned_corners 0 tetrahedron_block
           (Box_vertices turned_box) eq_refl Hx Hy (Rle_refl 0)).
Defined.

(** X18.  [Block.face_polygons] hands out the list the attribute holds and
    never reads the faces of the mesh; [transform] maps the polygons of that
    list.  So a block keeps the empty list of its constructor through every
    rigid [transform]. *)
Theorem Block_face_polygons_are_the_stored_list :
  forall (Mesh_obb : Mesh -> result (list Point)) (depth : nat) (T : Transformation)
         (self : Block.t) (polygons : list Polygon),
    is_rigid T -> Block_well_formed self ->
    Block._face_polygons self = Some polygons ->
    Block.face_polygons self = Ok (polygons, self) /\
    exists self',
      Block.transform Mesh_obb (S depth) T self = Ok self' /\
      Block._face_polygons self' = Some (map (Polygon_transform T) polygons) /\
      Block.face_polygons self' = Ok (map (Polygon_transform T) polygons, self').
Proof.
  intros Mesh_obb depth T self polygons HT Hself Hp.
  split.
  - unfold Block.face_polygons, Block._compute_face_polygons. rewrite Hp.
    destruct polygons as [|q qs]; [| reflexivity].
    cbn [bind].
    destruct self as [f gs g a o m p]; simpl in Hp; subst p. reflexivity.
  - exists (Block_moved T self).
    split; [apply Block_transform_rigid; assumption |].
    destruct self as [f gs g a o m p]; simpl in Hp; subst p.
    destruct polygons as [|q qs]; split; reflexivity.
Qed.

(** X18, at the tetrahedron block, for a quarter turn. *)
Lemma Block_face_polygons_are_the_stored_list_witness :
  is_rigid quarter_turn /\ Block_well_formed tetrahedron_block /\
  Block._face_polygons tetrahedron_block = Some [] /\
  Block.face_polygons tetrahedron_block = Ok ([], tetrahedron_block) /\
  exists self',
    Block.transform plain_obb 1 quarter_turn tetrahedron_block = Ok self' /\
    Block._face_polygons self' = Some (map (Polygon_transform quarter_turn) []) /\
    Block.face_polygons self' = Ok (map (Polygon_transform quarter_turn) [], self').
Proof.
  split; [exact quarter_turn_rigid |].
  split; [exact tetrahedron_block_well_formed |].
  split; [reflexivity |].
  exact (Block_face_polygons_are_the_stored_list plain_obb 0 quarter_turn
           tetrahedron_block [] quarter_turn_rigid tetrahedron_block_well_formed eq_refl).
Defined.

(* ====================================================================== *)
(** * Beam.from_line *)
(* ====================================================================== *)



Lemma length_vector_opposite (v : Vector) :
  length_vector (scale_vector v (-1)) = length_vector v.
Proof.
  unfold length_vector. f_equal. unfold dot_vectors; simpl. ring.
Qed.




Section FromLine.

Variable tol : Tolerance.
Variable center_axis : Line.
Variables width height : R.
Variable kwargs : keywords.
Hypothesis width_positive : 0 < width.
Hypothesis height_positive : 0 < height.




End FromLine.







(** X12.  [Beam.from_line] with a [z_vector] parallel to the axis (a
    multiple of its direction, the zero vector included), or with an axis of
    length zero, raises [ValueError] before any geometry is built, whenever
    the approximation tolerance is positive. *)
Theorem Beam_from_line_rejects_parallel_z_vector :
  forall (tol : Tolerance) (center_axis : Line) (width height : R) (z : Vector)
         (kwargs : keywords),
    0 < Tolerance_approximation tol ->
    Line_start center_axis = Line_end center_axis \/
    (exists k, z = scale_vector (Line_vector center_axis) k) ->
    exists msg,
      Beam.from_line tol center_axis width height (Some z) kwargs
      = ([], Raise (ValueError msg)).
Proof.
  intros tol center_axis width height z kwargs Htol H.
  assert (Hc : cross_vectors (Line_vector center_axis) z = mkVector 0 0 0).
  { destruct H as [H | [k ->]].
    - unfold Line_vector. rewrite H. apply vector_eq; simpl; ring.
    - apply vector_eq; simpl; ring. }
  unfold Beam.from_line. rewrite length_vector_opposite, Hc, length_vector_zero.
  destruct (Rlt_dec 0 (Tolerance_approximation tol)); [| lra].
  eexists. reflexivity.
Qed.

(** X12, at the axis from the origin to (2, 0, 0) with a [z_vector] along
    it. *)
Lemma Beam_from_line_rejects_parallel_z_vector_witness :
  0 < Tolerance_approximation Tolerance___init__ /\
  (Line_start (mkLine (mkVector 0 0 0) (mkVector 2 0 0))
   = Line_end (mkLine (mkVector 0 0 0) (mkVector 2 0 0)) \/
   (exists k, mkVector 1 0 0
              = scale_vector (Line_vector (mkLine (mkVector 0 0 0) (mkVector 2 0 0))) k)) /\
  exists msg,
    Beam.from_line Tolerance___init__ (mkLine (mkVector 0 0 0) (mkVector 2 0 0)) 1 1
      (Some (mkVector 1 0 0)) []
    = ([], Raise (ValueError msg)).
Proof.
  assert (Htol : 0 < Tolerance_approximation Tolerance___init__) by (simpl; lra).
  assert (H : Line_start (mkLine (mkVector 0 0 0) (mkVector 2 0 0))
              = Line_end (mkLine (mkVector 0 0 0) (mkVector 2 0 0)) \/
              (exists k, mkVector 1 0 0
                         = scale_vector (Line_vector (mkLine (mkVector 0 0 0) (mkVector 2 0 0))) k)).
  { right. exists (1 / 2). apply vector_eq; simpl; lra. }
  split; [exact Htol |]. split; [exact H |].
  exact (Beam_from_line_rejects_parallel_z_vector Tolerance___init__
           (mkLine (mkVector 0 0 0) (mkVector 2 0 0)) 1 1 (mkVector 1 0 0) [] Htol H).
Defined.





Lemma long_axis_length : Line_length long_axis = 2.
Proof.
  unfold Line_length.
  replace (Line_vector long_axis) with (scale_vector (mkVector 1 0 0) 2)
    by (apply vector_eq; simpl; ring).
  apply length_vector_scale; [unfold dot_vectors; simpl |]; lra.
Qed.





(* ====================================================================== *)
(** * The box of a beam in the frame of the beam *)
(* ====================================================================== *)

(** The coordinates of a point of an orthonormal frame are read off by the
    dot products with its axes. *)
Lemma in_frame_coordinates (f : Frame) (a b c : R) :
  orthonormal f ->
  dot_vectors (subtract_vectors (in_frame f a b c) (Frame_point f)) (Frame_xaxis f) = a /\
  dot_vectors (subtract_vectors (in_frame f a b c) (Frame_point f)) (Frame_yaxis f) = b /\
  dot_vectors (subtract_vectors (in_frame f a b c) (Frame_point f)) (Frame_zaxis f) = c.
Proof.
  intros (Hx & Hy & Hxy). unfold in_frame, Frame_zaxis.
  rewrite !corner_along.
  rewrite (cross_unit _ _ Hx Hy Hxy), dot_cross_left, dot_cross_right, Hx, Hy, Hxy.
  rewrite (dot_vectors_comm (Frame_yaxis f) (Frame_xaxis f)), Hxy.
  rewrite (dot_vectors_comm (Frame_xaxis f) (cross_vectors _ _)), dot_cross_left.
  rewrite (dot_vectors_comm (Frame_yaxis f) (cross_vectors _ _)), dot_cross_right.
  repeat split; ring.
Qed.

Lemma in_frame_inj (f : Frame) (a b c a' b' c' : R) :
  orthonormal f -> in_frame f a b c = in_frame f a' b' c' ->
  a = a' /\ b = b' /\ c = c'.
Proof.
  intros Hf H.
  destruct (in_frame_coordinates f a b c Hf) as (Ha & Hb & Hc).
  destruct (in_frame_coordinates f a' b' c' Hf) as (Ha' & Hb' & Hc').
  rewrite H in Ha, Hb, Hc. repeat split; congruence.
Qed.

(** The corners of the box [Beam._create_box] builds, in the frame of the
    beam. *)
Lemma Beam_create_box_vertices (frame : Frame) (width height length : R) :
  Box_vertices
    (mkBox (mkFrame (add_vectors (Frame_point frame)
                       (scale_vector (scale_vector (Frame_xaxis frame) length) 0.5))
                    (Frame_xaxis frame) (Frame_yaxis frame))
           length width height)
  = [in_frame frame 0 (- width / 2) (- height / 2);
     in_frame frame 0 (width / 2) (- height / 2);
     in_frame frame length (width / 2) (- height / 2);
     in_frame frame length (- width / 2) (- height / 2);
     in_frame frame 0 (- width / 2) (height / 2);
     in_frame frame length (- width / 2) (height / 2);
     in_frame frame length (width / 2) (height / 2);
     in_frame frame 0 (width / 2) (height / 2)].
Proof.
  unfold Box_vertices, in_frame, Frame_zaxis.
  cbn [Box_frame Box_xsize Box_ysize Box_zsize Frame_point Frame_xaxis Frame_yaxis].
  cbv zeta. unfold Point.
  repeat match goal with
         | |- _ :: _ = _ :: _ => f_equal
         | |- _ = add_vectors _ _ => apply vector_eq; simpl; rewrite ?half_eq; field
         end.
Qed.

Lemma Beam_create_box_value (frame : Frame) (width height length : R) :
  0 < width -> 0 < height -> 0 < length ->
  Beam._create_box frame width height length
  = Ok (mkBox (mkFrame (add_vectors (Frame_point frame)
                          (scale_vector (scale_vector (Frame_xaxis frame) length) 0.5))
                       (Frame_xaxis frame) (Frame_yaxis frame))
              length width height).
Proof. intros Hw Hh Hl. unfold Beam._create_box. apply Box_init_ok; lra. Qed.

(** The six quads of [Beam.compute_face_polygons], in the frame of the
    beam, for a beam with the box of [Beam._create_box]. *)
Lemma Beam_face_polygons_in_frame (self : Beam.t) (length width height : R) :
  Beam._geometry self
  = mkBox (mkFrame (add_vectors (Frame_point (Beam._frame self))
                      (scale_vector (scale_vector (Frame_xaxis (Beam._frame self)) length) 0.5))
                   (Frame_xaxis (Beam._frame self)) (Frame_yaxis (Beam._frame self)))
          length width height ->
  Beam.compute_face_polygons self
  = Ok (let f := Beam._frame self in
        let l := length / 2 in let w := width in let h := height / 2 in
        [mkPolygon [in_frame f w l h; in_frame f w l (- h);
                    in_frame f 0 l (- h); in_frame f 0 l h];
         mkPolygon [in_frame f w l (- h); in_frame f w (- l) (- h);
                    in_frame f 0 (- l) (- h); in_frame f 0 l (- h)];
         mkPolygon [in_frame f w (- l) h; in_frame f w (- l) (- h);
                    in_frame f 0 (- l) (- h); in_frame f 0 (- l) h];
         mkPolygon [in_frame f w l h; in_frame f w (- l) h;
                    in_frame f 0 (- l) h; in_frame f 0 l h];
         mkPolygon [in_frame f 0 l h; in_frame f 0 l (- h);
                    in_frame f 0 (- l) (- h); in_frame f 0 (- l) h];
         mkPolygon [in_frame f w l h; in_frame f w l (- h);
                    in_frame f w (- l) (- h); in_frame f w (- l) h]]).
Proof.
  intros Hg. unfold Beam.compute_face_polygons, Beam.mid_point, Beam.dimensions.
  rewrite Hg. unfold Box_width, Box_height, Box_depth.
  cbn [Box_xsize Box_ysize Box_zsize getitem nth_error bind combine map Beam.quad].
  unfold in_frame, Frame_zaxis. unfold Point.
  repeat match goal with
         | |- Ok _ = Ok _ => f_equal
         | |- _ :: _ = _ :: _ => f_equal
         | |- mkPolygon _ = mkPolygon _ => f_equal
         | |- _ = add_vectors _ _ => apply vector_eq; simpl; rewrite ?half_eq; field
         end.
Qed.

Lemma in_frame_eq (f : Frame) (a b c a' b' c' : R) :
  a = a' -> b = b' -> c = c' -> in_frame f a b c = in_frame f a' b' c'.
Proof. intros -> -> ->. reflexivity. Qed.

(** X20.  [Beam._create_box] with positive sizes returns the box that, in
    the frame of the beam, runs from 0 to [zsize] along x and lies
    symmetric about the x axis, with half of [xsize] to either side along y
    and half of [ysize] along z; it is well formed when the frame is
    orthonormal.  [Beam.dimensions] of a beam with the box of
    [_create_box(frame, width, height, length)] is the list [length],
    [height], [width]. *)
Theorem Beam_create_box_starts_at_the_frame :
  forall (frame : Frame) (xsize ysize zsize : R),
    0 < xsize -> 0 < ysize -> 0 < zsize ->
    exists box,
      Beam._create_box frame xsize ysize zsize = Ok box /\
      Box_vertices box
      = [in_frame frame 0 (- xsize / 2) (- ysize / 2);
         in_frame frame 0 (xsize / 2) (- ysize / 2);
         in_frame frame zsize (xsize / 2) (- ysize / 2);
         in_frame frame zsize (- xsize / 2) (- ysize / 2);
         in_frame frame 0 (- xsize / 2) (ysize / 2);
         in_frame frame zsize (- xsize / 2) (ysize / 2);
         in_frame frame zsize (xsize / 2) (ysize / 2);
         in_frame frame 0 (xsize / 2) (ysize / 2)] /\
      (orthonormal frame -> well_formed_box box) /\
      (forall self : Beam.t,
         Beam._geometry self = box -> Beam.dimensions self = [zsize; ysize; xsize]).
Proof.
  intros frame xsize ysize zsize Hx Hy Hz.
  eexists. split; [apply Beam_create_box_value; assumption |].
  split; [apply Beam_create_box_vertices |].
  split.
  - intros Hf. split; [exact Hf |]. cbn [Box_xsize Box_ysize Box_zsize]. lra.
  - intros self E. unfold Beam.dimensions. rewrite E. reflexivity.
Qed.

(** X20, at the box of the beam of length 2, width 1 and height 1 on the
    world frame. *)
Lemma Beam_create_box_starts_at_the_frame_witness :
  0 < 1 /\ 0 < 2 /\
  exists box,
    Beam._create_box worldXY 1 1 2 = Ok box /\
    Box_vertices box
    = [in_frame worldXY 0 (- 1 / 2) (- 1 / 2);
       in_frame worldXY 0 (1 / 2) (- 1 / 2);
       in_frame worldXY 2 (1 / 2) (- 1 / 2);
       in_frame worldXY 2 (- 1 / 2) (- 1 / 2);
       in_frame worldXY 0 (- 1 / 2) (1 / 2);
       in_frame worldXY 2 (- 1 / 2) (1 / 2);
       in_frame worldXY 2 (1 / 2) (1 / 2);
       in_frame worldXY 0 (1 / 2) (1 / 2)] /\
    (orthonormal worldXY -> well_formed_box box) /\
    (forall self : Beam.t,
       Beam._geometry self = box -> Beam.dimensions self = [2; 1; 1]).
Proof.
  split; [exact Rlt_0_1 |]. split; [exact Rlt_0_2 |].
  exact (Beam_create_box_starts_at_the_frame worldXY 1 1 2 Rlt_0_1 Rlt_0_1 Rlt_0_2).
Defined.

(** X15.  [Beam.mid_point] of a beam with the box of
    [_create_box(frame, width, height, length)] lies on the x axis of the
    beam at half of the width, since entry 2 of [dimensions] is the width:
    it is the centre of the box exactly when the length equals the width. *)
Theorem Beam_mid_point_is_at_half_the_width :
  forall (self : Beam.t) (length width height : R),
    orthonormal (Beam._frame self) ->
    0 < length -> 0 < width -> 0 < height ->
    Beam._create_box (Beam._frame self) width height length = Ok (Beam._geometry self) ->
    Beam.mid_point self = Ok (in_frame (Beam._frame self) (width / 2) 0 0) /\
    Frame_point (Box_frame (Beam._geometry self))
    = in_frame (Beam._frame self) (length / 2) 0 0 /\
    (Beam.mid_point self = Ok (Frame_point (Box_frame (Beam._geometry self)))
     <-> length = width).
Proof.
  intros self length width height Hf Hl Hw Hh Hbox.
  rewrite Beam_create_box_value in Hbox by assumption. injection Hbox as Hg.
  assert (Hmid : Beam.mid_point self = Ok (in_frame (Beam._frame self) (width / 2) 0 0)).
  { unfold Beam.mid_point, Beam.dimensions. rewrite <- Hg.
    cbn [getitem nth_error bind Box_depth Box_ysize]. apply f_equal.
    unfold in_frame. apply vector_eq; simpl; rewrite ?half_eq; field. }
  assert (Hcentre : Frame_point (Box_frame (Beam._geometry self))
                    = in_frame (Beam._frame self) (length / 2) 0 0).
  { rewrite <- Hg. cbn [Box_frame Frame_point].
    unfold in_frame. apply vector_eq; simpl; rewrite ?half_eq; field. }
  split; [exact Hmid |]. split; [exact Hcentre |].
  rewrite Hmid, Hcentre. split.
  - intros H.
    assert (E : in_frame (Beam._frame self) (width / 2) 0 0
                = in_frame (Beam._frame self) (length / 2) 0 0) by congruence.
    apply (in_frame_inj _ _ _ _ _ _ _ Hf) in E. lra.
  - intros ->. reflexivity.
Qed.

(** X15, at the beam of length 2 and width 1: the mid point lies at 1/2
    along the axis, the centre of the box at 1. *)
Lemma Beam_mid_point_is_at_half_the_width_witness :
  orthonormal (Beam._frame long_beam) /\ 0 < 2 /\ 0 < 1 /\
  Beam._create_box (Beam._frame long_beam) 1 1 2 = Ok (Beam._geometry long_beam) /\
  Beam.mid_point long_beam = Ok (in_frame (Beam._frame long_beam) (1 / 2) 0 0) /\
  Frame_point (Box_frame (Beam._geometry long_beam))
  = in_frame (Beam._frame long_beam) (2 / 2) 0 0 /\
  (Beam.mid_point long_beam = Ok (Frame_point (Box_frame (Beam._geometry long_beam)))
   <-> 2 = 1).
Proof.
  split; [exact worldXY_orthonormal |]. split; [exact Rlt_0_2 |]. split; [exact Rlt_0_1 |].
  split; [exact long_box_created |].
  exact (Beam_mid_point_is_at_half_the_width long_beam 2 1 1 worldXY_orthonormal
           Rlt_0_2 Rlt_0_1 Rlt_0_1 long_box_created).
Defined.

(** X16.  For a beam with the box of [_create_box(frame, width, height,
    length)], [Beam.compute_face_polygons] returns six quads whose vertices
    are all corners of the box exactly when the length equals the width: it
    reads the width for the extent along x and the length for the extent
    along y. *)
Theorem Beam_face_polygons_fit_the_box_iff_length_is_width :
  forall (self : Beam.t) (length width height : R),
    orthonormal (Beam._frame self) ->
    0 < length -> 0 < width -> 0 < height ->
    Beam._create_box (Beam._frame self) width height length = Ok (Beam._geometry self) ->
    exists polygons,
      Beam.compute_face_polygons self = Ok polygons /\
      ((forall q v, In q polygons -> In v (Polygon_points q) ->
                    In v (Box_vertices (Beam._geometry self)))
       <-> length = width).
Proof.
  intros self length width height Hf Hl Hw Hh Hbox.
  rewrite Beam_create_box_value in Hbox by assumption. injection Hbox as Hg.
  symmetry in Hg.
  eexists. split; [apply (Beam_face_polygons_in_frame self length width height Hg) |].
  rewrite Hg, Beam_create_box_vertices. cbv zeta. split.
  - intros H.
    specialize (H _ (in_frame (Beam._frame self) width (length / 2) (height / 2))
                  (or_introl eq_refl) (or_introl eq_refl)).
    cbn [In] in H.
    repeat (destruct H as [H | H];
            [apply (in_frame_inj _ _ _ _ _ _ _ Hf) in H; lra |]).
    contradiction.
  - intros ->. intros q v Hq Hv. cbn [In] in Hq.
    repeat (destruct Hq as [<- | Hq];
            [cbn [Polygon_points In] in Hv;
             repeat (destruct Hv as [<- | Hv];
                     [cbn [In];
                      repeat first [left; apply in_frame_eq; lra | right] |]);
             contradiction |]).
    contradiction.
Qed.

(** X16, at the beam of length 2 and width 1. *)
Lemma Beam_face_polygons_fit_the_box_iff_length_is_width_witness :
  orthonormal (Beam._frame long_beam) /\ 0 < 2 /\ 0 < 1 /\
  Beam._create_box (Beam._frame long_beam) 1 1 2 = Ok (Beam._geometry long_beam) /\
  exists polygons,
    Beam.compute_face_polygons long_beam = Ok polygons /\
    ((forall q v, In q polygons -> In v (Polygon_points q) ->
                  In v (Box_vertices (Beam._geometry long_beam)))
     <-> 2 = 1).
Proof.
  split; [exact worldXY_orthonormal |]. split; [exact Rlt_0_2 |]. split; [exact Rlt_0_1 |].
  split; [exact long_box_created |].
  exact (Beam_face_polygons_fit_the_box_iff_length_is_width long_beam 2 1 1
           worldXY_orthonormal Rlt_0_2 Rlt_0_1 Rlt_0_1 long_box_created).
Defined.

(* ====================================================================== *)
(** * Transforming twice *)
(* ====================================================================== *)

Lemma transform_vector_mul (A B : Transformation) (v : Vector) :
  transform_vector (Transformation___mul__ A B) v
  = transform_vector A (transform_vector B v).
Proof. apply vector_eq; simpl; ring. Qed.

Lemma transform_point_mul (A B : Transformation) (p : Point) :
  transform_point (Transformation___mul__ A B) p
  = transform_point A (transform_point B p).
Proof. apply vector_eq; simpl; ring. Qed.

Lemma determinant_mul (A B : Transformation) :
  determinant (Transformation___mul__ A B) = determinant A * determinant B.
Proof. unfold determinant; simpl; ring. Qed.

(** The product of two rigid transformations is rigid. *)
Lemma mul_rigid (A B : Transformation) :
  is_rigid A -> is_rigid B -> is_rigid (Transformation___mul__ A B).
Proof.
  intros HA HB.
  pose proof (rigid_dot A HA) as Hdot.
  destruct HB as (B11 & B22 & B33 & B12 & B13 & B23 & Bdet).
  pose proof (Hdot (mkVector (m11 B) (m21 B) (m31 B)) (mkVector (m11 B) (m21 B) (m31 B))) as C11.
  pose proof (Hdot (mkVector (m12 B) (m22 B) (m32 B)) (mkVector (m12 B) (m22 B) (m32 B))) as C22.
  pose proof (Hdot (mkVector (m13 B) (m23 B) (m33 B)) (mkVector (m13 B) (m23 B) (m33 B))) as C33.
  pose proof (Hdot (mkVector (m11 B) (m21 B) (m31 B)) (mkVector (m12 B) (m22 B) (m32 B))) as C12.
  pose proof (Hdot (mkVector (m11 B) (m21 B) (m31 B)) (mkVector (m13 B) (m23 B) (m33 B))) as C13.
  pose proof (Hdot (mkVector (m12 B) (m22 B) (m32 B)) (mkVector (m13 B) (m23 B) (m33 B))) as C23.
  unfold dot_vectors in C11, C22, C33, C12, C13, C23.
  cbn [transform_vector vx vy vz] in C11, C22, C33, C12, C13, C23.
  unfold is_rigid. rewrite determinant_mul.
  cbn [Transformation___mul__ m11 m12 m13 m21 m22 m23 m31 m32 m33].
  repeat split; try lra.
  destruct HA as (_ & _ & _ & _ & _ & _ & Adet). rewrite Adet, Bdet. ring.
Qed.

Lemma moved_frame_mul (A B : Transformation) (f : Frame) :
  moved_frame (Transformation___mul__ A B) f = moved_frame A (moved_frame B f).
Proof.
  unfold moved_frame. cbn [Frame_point Frame_xaxis Frame_yaxis].
  rewrite transform_point_mul, !transform_vector_mul. reflexivity.
Qed.

Lemma moved_box_mul (A B : Transformation) (b : Box) :
  moved_box (Transformation___mul__ A B) b = moved_box A (moved_box B b).
Proof. unfold moved_box. rewrite moved_frame_mul. reflexivity. Qed.

Lemma points_mul (A B : Transformation) (ps : list Point) :
  map (transform_point (Transformation___mul__ A B)) ps
  = map (transform_point A) (map (transform_point B) ps).
Proof.
  rewrite map_map. apply map_ext. intros p. apply transform_point_mul.
Qed.

Lemma Mesh_transform_mul (A B : Transformation) (m : Mesh) :
  Mesh_transform (Transformation___mul__ A B) m = Mesh_transform A (Mesh_transform B m).
Proof. unfold Mesh_transform. cbn [Mesh_vertices Mesh_faces]. rewrite points_mul. reflexivity. Qed.

Lemma Line_transform_mul (A B : Transformation) (l : Line) :
  Line_transform (Transformation___mul__ A B) l = Line_transform A (Line_transform B l).
Proof.
  unfold Line_transform. cbn [Line_start Line_end].
  rewrite !transform_point_mul. reflexivity.
Qed.

Lemma Polygon_transform_mul (A B : Transformation) (p : Polygon) :
  Polygon_transform (Transformation___mul__ A B) p
  = Polygon_transform A (Polygon_transform B p).
Proof. unfold Polygon_transform. cbn [Polygon_points]. rewrite points_mul. reflexivity. Qed.

Lemma moved_polygons_mul (A B : Transformation) (v : option (list Polygon)) :
  moved_polygons (Transformation___mul__ A B) v = moved_polygons A (moved_polygons B v).
Proof.
  destruct v as [[|p ps]|]; try reflexivity.
  cbn [moved_polygons map]. rewrite Polygon_transform_mul. do 2 f_equal.
  rewrite map_map. apply map_ext. intros q. apply Polygon_transform_mul.
Qed.

Lemma Beam_moved_mul (A B : Transformation) (self : Beam.t) :
  Beam_moved (Transformation___mul__ A B) self = Beam_moved A (Beam_moved B self).
Proof.
  destruct self as [f gs g a o m p]. unfold Beam_moved.
  cbn [Beam._frame Beam.geometry_simplified Beam._geometry Beam._aabb Beam._obb
       Beam._collision_mesh Beam._face_polygons].
  rewrite moved_frame_mul, Line_transform_mul, moved_box_mul, moved_polygons_mul.
  f_equal.
  - destruct a; reflexivity.
  - destruct o; [cbn [option_map]; rewrite moved_box_mul |]; reflexivity.
  - destruct m; [cbn [option_map]; rewrite Mesh_transform_mul |]; reflexivity.
Qed.

Lemma Block_moved_mul (A B : Transformation) (self : Block.t) :
  Mesh_vertices (Block._geometry self) <> [] ->
  Block_moved (Transformation___mul__ A B) self = Block_moved A (Block_moved B self).
Proof.
  destruct self as [f gs g a o m p]. unfold Block_moved.
  cbn [Block._frame Block.geometry_simplified Block._geometry Block._aabb Block._obb
       Block._collision_mesh Block._face_polygons].
  intros Hne.
  rewrite moved_frame_mul, transform_point_mul, Mesh_transform_mul, moved_polygons_mul.
  f_equal.
  - destruct a; [| reflexivity].
    destruct g as [[|v vs] faces]; [contradiction Hne; reflexivity |]. reflexivity.
  - destruct o; [cbn [option_map]; rewrite moved_box_mul |]; reflexivity.
Qed.

(** X19.  Two rigid [transform] calls in a row leave the beam, or the block
    without collision mesh, that one call with the product of the two
    transformations leaves; the product is rigid again. *)
Theorem transform_twice_is_transform_by_the_product :
  forall (Mesh_obb : Mesh -> result (list Point)) (depth : nat)
         (T1 T2 : Transformation) (beam : Beam.t) (block : Block.t),
    is_rigid T1 -> is_rigid T2 -> Beam_well_formed beam -> Block_well_formed block ->
    is_rigid (Transformation___mul__ T2 T1) /\
    (exists beam',
       (s <- Beam.transform T1 beam ;; Beam.transform T2 s) = Ok beam' /\
       Beam.transform (Transformation___mul__ T2 T1) beam = Ok beam') /\
    (exists block',
       (s <- Block.transform Mesh_obb (S depth) T1 block ;;
        Block.transform Mesh_obb (S depth) T2 s) = Ok block' /\
       Block.transform Mesh_obb (S depth) (Transformation___mul__ T2 T1) block = Ok block').
Proof.
  intros Mesh_obb depth T1 T2 beam block H1 H2 Hbeam Hblock.
  pose proof (mul_rigid T2 T1 H2 H1) as H21.
  split; [exact H21 |]. split.
  - exists (Beam_moved (Transformation___mul__ T2 T1) beam).
    rewrite (Beam_transform_rigid T1 beam H1 Hbeam). cbn [bind].
    rewrite (Beam_transform_rigid T2 _ H2 (Beam_moved_well_formed T1 beam H1 Hbeam)).
    rewrite (Beam_transform_rigid _ beam H21 Hbeam), Beam_moved_mul.
    split; reflexivity.
  - exists (Block_moved (Transformation___mul__ T2 T1) block).
    rewrite (Block_transform_rigid Mesh_obb depth T1 block H1 Hblock). cbn [bind].
    rewrite (Block_transform_rigid Mesh_obb depth T2 _ H2
               (Block_moved_well_formed T1 block H1 Hblock)).
    rewrite (Block_transform_rigid Mesh_obb depth _ block H21 Hblock).
    rewrite Block_moved_mul by (apply solid_not_empty, Hblock).
    split; reflexivity.
Qed.

(** X19, at the beam of length 2 and the tetrahedron block: a translation,
    then a quarter turn. *)
Lemma transform_twice_is_transform_by_the_product_witness :
  is_rigid shift /\ is_rigid quarter_turn /\
  Beam_well_formed long_beam_inflated /\ Block_well_formed tetrahedron_block /\
  is_rigid (Transformation___mul__ quarter_turn shift) /\
  (exists beam',
     (s <- Beam.transform shift long_beam_inflated ;; Beam.transform quarter_turn s)
     = Ok beam' /\
     Beam.transform (Transformation___mul__ quarter_turn shift) long_beam_inflated
     = Ok beam') /\
  (exists block',
     (s <- Block.transform plain_obb 1 shift tetrahedron_block ;;
      Block.transform plain_obb 1 quarter_turn s) = Ok block' /\
     Block.transform plain_obb 1 (Transformation___mul__ quarter_turn shift)
       tetrahedron_block = Ok block').
Proof.
  split; [exact shift_rigid |]. split; [exact quarter_turn_rigid |].
  split; [exact long_beam_inflated_well_formed |].
  split; [exact tetrahedron_block_well_formed |].
  exact (transform_twice_is_transform_by_the_product plain_obb 0 shift quarter_turn
           long_beam_inflated tetrahedron_block shift_rigid quarter_turn_rigid
           long_beam_inflated_well_formed tetrahedron_block_well_formed).
Defined.

(** X21.  [transform] treats the two bounding boxes differently.  After
    [compute_aabb(inflate)] and [compute_obb(inflate)] with [inflate >= 0], a
    rigid [transform] of a well formed beam computes the AABB anew without
    the margin, from the moved box, and moves the OBB as it is, margin
    included; on a well formed block it computes the AABB anew without the
    margin, from the moved vertices, and moves the OBB it finds. *)
Theorem transform_drops_the_margin_of_the_aabb_only :
  forall (Mesh_obb : Mesh -> result (list Point)) (depth : nat) (T : Transformation)
         (inflate : R) (beam : Beam.t) (block : Block.t) (obb : Box) (block1 : Block.t),
    is_rigid T -> 0 <= inflate ->
    Beam_well_formed beam -> Block_well_formed block ->
    Block.compute_obb Mesh_obb inflate block = Ok (obb, block1) ->
    (exists beam',
       ('(_, s1) <- Beam.compute_aabb inflate beam ;;
        '(_, s2) <- Beam.compute_obb inflate s1 ;;
        Beam.transform T s2) = Ok beam' /\
       Beam._aabb beam' = Some (oriented_bounds (moved_box T (Beam._geometry beam)) 0) /\
       Beam._obb beam' = Some (moved_box T (grown (Beam._geometry beam) inflate))) /\
    (exists block',
       ('(_, s2) <- Block.compute_aabb inflate block1 ;;
        Block.transform Mesh_obb (S depth) T s2) = Ok block' /\
       Block._aabb block'
       = world_bounds_of (map (transform_point T) (Mesh_vertices (Block._geometry block))) 0 /\
       Block._obb block' = Some (moved_box T obb)).
Proof.
  intros Mesh_obb depth T inflate beam block obb block1 HT Hi Hbeam Hblock Hobb.
  pose proof (Block_compute_obb_frame Mesh_obb inflate block block1 obb Hobb) as Hframe.
  split.
  - assert (Hg : well_formed_box (Beam._geometry beam)) by apply Hbeam.
    rewrite (Beam_compute_aabb_ok inflate beam Hg Hi). cbn [bind].
    rewrite Beam_compute_obb_ok by (try exact Hi; exact Hg). cbn [bind].
    rewrite Beam_transform_rigid.
    + eexists. split; [reflexivity |]. split; reflexivity.
    + exact HT.
    + apply Beam_set_obb_well_formed; [exact Hbeam | apply Hg].
  - apply Block_compute_obb_state in Hobb. subst block1.
    assert (Hwf : Block_well_formed (Block.set_obb (Some obb) block)).
    { destruct Hblock as (Hf & Hs & _ & Hm & Hp).
      split; [exact Hf |]. split; [exact Hs |]. split; [| split; assumption].
      cbn [Block.set_obb Block._obb]. intros b E. injection E as <-. exact Hframe. }
    destruct (Block_compute_aabb_solid inflate (Block.set_obb (Some obb) block))
      as (box & Hbox & Haabb); [apply Hblock | exact Hi |].
    rewrite Haabb. cbn [bind].
    rewrite Block_transform_rigid;
      [| exact HT
       | destruct Hwf as (Hf & Hs & Ho & Hm & Hp);
         split; [exact Hf |]; split; [exact Hs |]; split; [exact Ho |]; split; assumption].
    eexists. split; [reflexivity |]. split; reflexivity.
Qed.

(** X21, at the beam of length 2 and the tetrahedron block, inflated by 1,
    for a quarter turn. *)
Lemma transform_drops_the_margin_of_the_aabb_only_witness :
  is_rigid quarter_turn /\ 0 <= 1 /\
  Beam_well_formed long_beam /\ Block_well_formed tetrahedron_block /\
  (exists obb block1,
     Block.compute_obb plain_obb 1 tetrahedron_block = Ok (obb, block1) /\
     (exists beam',
        ('(_, s1) <- Beam.compute_aabb 1 long_beam ;;
         '(_, s2) <- Beam.compute_obb 1 s1 ;;
         Beam.transform quarter_turn s2) = Ok beam' /\
        Beam._aabb beam'
        = Some (oriented_bounds (moved_box quarter_turn (Beam._geometry long_beam)) 0) /\
        Beam._obb beam'
        = Some (moved_box quarter_turn (grown (Beam._geometry long_beam) 1))) /\
     (exists block',
        ('(_, s2) <- Block.compute_aabb 1 block1 ;;
         Block.transform plain_obb 1 quarter_turn s2) = Ok block' /\
        Block._aabb block'
        = world_bounds_of (map (transform_point quarter_turn)
                               (Mesh_vertices (Block._geometry tetrahedron_block))) 0 /\
        Block._obb block' = Some (moved_box quarter_turn obb))).
Proof.
  split; [exact quarter_turn_rigid |]. split; [exact Rle_0_1 |].
  split; [exact long_beam_well_formed |]. split; [exact tetrahedron_block_well_formed |].
  do 2 eexists.
  split; [exact (tetrahedron_obb 1 Rle_0_1) |].
  exact (transform_drops_the_margin_of_the_aabb_only plain_obb 0 quarter_turn 1
           long_beam tetrahedron_block _ _ quarter_turn_rigid Rle_0_1
           long_beam_well_formed tetrahedron_block_well_formed
           (tetrahedron_obb 1 Rle_0_1)).
Defined.

(* ====================================================================== *)
(** * Further edge cases *)
(* ====================================================================== *)

Lemma along_world_axis_negate (v : Vector) :
  along_world_axis (negate_vector v) <-> along_world_axis v.
Proof.
  unfold along_world_axis; simpl.
  split; intros [[H1 H2] | [[H1 H2] | [H1 H2]]];
    [left | right; left | right; right | left | right; left | right; right]; split; lra.
Qed.

(** The box read off the corners of [g] is parallel to the world axes
    exactly when [g] is. *)
Lemma oriented_bounds_world_aligned (g : Box) (inflate : R) :
  world_aligned (oriented_bounds g inflate) <-> world_aligned g.
Proof.
  unfold world_aligned, oriented_bounds, Frame_zaxis.
  cbn [Box_frame Frame_xaxis Frame_yaxis].
  rewrite (cross_vectors_swap (Frame_xaxis (Box_frame g)) (Frame_yaxis (Box_frame g))).
  rewrite along_world_axis_negate. tauto.
Qed.

(** The three [+= inflate] of [Block.compute_aabb] and [Block.compute_obb],
    for any margin. *)
Lemma inflate_additive_bounds (b : Box) (inflate : R) :
  (- Box_xsize b <= inflate /\ - Box_ysize b <= inflate /\ - Box_zsize b <= inflate ->
   (b1 <- Box_set_xsize b (Box_xsize b + inflate) ;;
    b2 <- Box_set_ysize b1 (Box_ysize b1 + inflate) ;;
    Box_set_zsize b2 (Box_zsize b2 + inflate)) = Ok (grown b inflate)) /\
  (inflate < - Box_xsize b \/ inflate < - Box_ysize b \/ inflate < - Box_zsize b ->
   exists msg,
     (b1 <- Box_set_xsize b (Box_xsize b + inflate) ;;
      b2 <- Box_set_ysize b1 (Box_ysize b1 + inflate) ;;
      Box_set_zsize b2 (Box_zsize b2 + inflate)) = Raise (ValueError msg)).
Proof.
  unfold Box_set_xsize, Box_set_ysize, Box_set_zsize, grown. split.
  - intros (Hx & Hy & Hz).
    destruct (Rlt_dec (Box_xsize b + inflate) 0); [lra |]. cbn [bind Box_ysize Box_zsize].
    destruct (Rlt_dec (Box_ysize b + inflate) 0); [lra |]. cbn [bind Box_xsize Box_zsize].
    destruct (Rlt_dec (Box_zsize b + inflate) 0); [lra |]. reflexivity.
  - intros H.
    destruct (Rlt_dec (Box_xsize b + inflate) 0); [eexists; reflexivity |].
    cbn [bind Box_ysize Box_zsize].
    destruct (Rlt_dec (Box_ysize b + inflate) 0); [eexists; reflexivity |].
    cbn [bind Box_xsize Box_zsize].
    destruct (Rlt_dec (Box_zsize b + inflate) 0); [eexists; reflexivity | lra].
Qed.

Lemma grown_zero_sizes (b : Box) :
  Box_xsize (grown b 0) = Box_xsize b /\ Box_ysize (grown b 0) = Box_ysize b /\
  Box_zsize (grown b 0) = Box_zsize b.
Proof. unfold grown; simpl. repeat split; ring. Qed.

Lemma Block_compute_aabb_margin (inflate : R) (self s0 : Block.t) (box0 : Box) :
  Block.compute_aabb 0 self = Ok (box0, s0) ->
  (- Box_xsize box0 <= inflate /\ - Box_ysize box0 <= inflate /\ - Box_zsize box0 <= inflate ->
   Block.compute_aabb inflate self
   = Ok (grown box0 inflate, Block.set_aabb (Some (grown box0 inflate)) self)) /\
  (inflate < - Box_xsize box0 \/ inflate < - Box_ysize box0 \/ inflate < - Box_zsize box0 ->
   exists msg, Block.compute_aabb inflate self = Raise (ValueError msg)).
Proof.
  unfold Block.compute_aabb.
  destruct (Mesh_aabb (Block._geometry self)) as [points|]; [| discriminate]. cbn [bind].
  destruct (Box_from_points points) as [b|] eqn:E; [| discriminate]. cbn [bind].
  destruct (Box_from_points_sizes points b E) as (Hx & Hy & Hz).
  pose proof (inflate_additive b 0 Hx Hy Hz (Rle_refl 0)) as H0.
  destruct (inflate_additive_bounds b inflate) as [Hok Hraise].
  unfold bind in H0, Hok, Hraise |- *.
  destruct (Box_set_xsize b (Box_xsize b + 0)) as [b1|]; [| discriminate].
  destruct (Box_set_ysize b1 (Box_ysize b1 + 0)) as [b2|]; [| discriminate].
  rewrite H0. intros H; injection H as <- <-.
  destruct (grown_zero_sizes b) as (-> & -> & ->). rewrite grown_grown.
  split.
  - intros Hi. specialize (Hok Hi).
    destruct (Box_set_xsize b (Box_xsize b + inflate)) as [c1|]; [| discriminate].
    destruct (Box_set_ysize c1 (Box_ysize c1 + inflate)) as [c2|]; [| discriminate].
    rewrite Hok. reflexivity.
  - intros Hi. destruct (Hraise Hi) as [msg Hmsg]. exists msg.
    destruct (Box_set_xsize b (Box_xsize b + inflate)) as [c1|]; [| injection Hmsg as ->; reflexivity].
    destruct (Box_set_ysize c1 (Box_ysize c1 + inflate)) as [c2|]; [| injection Hmsg as ->; reflexivity].
    rewrite Hmsg. reflexivity.
Qed.

Lemma Block_compute_obb_margin (Mesh_obb : Mesh -> result (list Point)) (inflate : R)
  (self s0 : Block.t) (box0 : Box) :
  Block.compute_obb Mesh_obb 0 self = Ok (box0, s0) ->
  (- Box_xsize box0 <= inflate /\ - Box_ysize box0 <= inflate /\ - Box_zsize box0 <= inflate ->
   Block.compute_obb Mesh_obb inflate self
   = Ok (grown box0 inflate, Block.set_obb (Some (grown box0 inflate)) self)) /\
  (inflate < - Box_xsize box0 \/ inflate < - Box_ysize box0 \/ inflate < - Box_zsize box0 ->
   exists msg, Block.compute_obb Mesh_obb inflate self = Raise (ValueError msg)).
Proof.
  unfold Block.compute_obb.
  destruct (Mesh_obb (Block._geometry self)) as [points|]; [| discriminate]. cbn [bind].
  destruct (Box_from_points points) as [b|] eqn:E; [| discriminate]. cbn [bind].
  destruct (Box_from_points_sizes points b E) as (Hx & Hy & Hz).
  pose proof (inflate_additive b 0 Hx Hy Hz (Rle_refl 0)) as H0.
  destruct (inflate_additive_bounds b inflate) as [Hok Hraise].
  unfold bind in H0, Hok, Hraise |- *.
  destruct (Box_set_xsize b (Box_xsize b + 0)) as [b1|]; [| discriminate].
  destruct (Box_set_ysize b1 (Box_ysize b1 + 0)) as [b2|]; [| discriminate].
  rewrite H0. intros H; injection H as <- <-.
  destruct (grown_zero_sizes b) as (-> & -> & ->). rewrite grown_grown.
  split.
  - intros Hi. specialize (Hok Hi).
    destruct (Box_set_xsize b (Box_xsize b + inflate)) as [c1|]; [| discriminate].
    destruct (Box_set_ysize c1 (Box_ysize c1 + inflate)) as [c2|]; [| discriminate].
    rewrite Hok. reflexivity.
  - intros Hi. destruct (Hraise Hi) as [msg Hmsg]. exists msg.
    destruct (Box_set_xsize b (Box_xsize b + inflate)) as [c1|]; [| injection Hmsg as ->; reflexivity].
    destruct (Box_set_ysize c1 (Box_ysize c1 + inflate)) as [c2|]; [| injection Hmsg as ->; reflexivity].
    rewrite Hmsg. reflexivity.
Qed.

(** X22.  For a well formed box and [inflate >= 0], the box
    [Beam.compute_aabb] returns is parallel to the world axes exactly when
    the beam's box is: the method gives an axis aligned box for the beams
    that lie along the world axes, and for no others. *)
Theorem Beam_compute_aabb_is_aligned_iff_the_box_is :
  forall (inflate : R) (self : Beam.t),
    well_formed_box (Beam._geometry self) -> 0 <= inflate ->
    exists box,
      Beam.compute_aabb inflate self = Ok (box, Beam.set_aabb (Some box) self) /\
      (world_aligned box <-> world_aligned (Beam._geometry self)).
Proof.
  intros inflate self Hg Hi. exists (oriented_bounds (Beam._geometry self) inflate).
  split; [apply Beam_compute_aabb_ok; assumption |].
  apply oriented_bounds_world_aligned.
Qed.

(** X22, at the beam of length 2 on the world frame, inflated by 1. *)
Lemma Beam_compute_aabb_is_aligned_iff_the_box_is_witness :
  well_formed_box (Beam._geometry long_beam) /\ 0 <= 1 /\
  exists box,
    Beam.compute_aabb 1 long_beam = Ok (box, Beam.set_aabb (Some box) long_beam) /\
    (world_aligned box <-> world_aligned (Beam._geometry long_beam)).
Proof.
  split; [exact long_box_well_formed |]. split; [exact Rle_0_1 |].
  exact (Beam_compute_aabb_is_aligned_iff_the_box_is 1 long_beam long_box_well_formed Rle_0_1).
Defined.

(** X23.  [Block.compute_aabb] and [Block.compute_obb] with a negative
    margin, for a block on which they return without margin: while no size
    of the box without margin would become negative, every size shrinks by
    the margin (down to zero); a margin below minus one of the sizes raises
    [ValueError], from the setter of the size. *)
Theorem Block_bounding_boxes_with_negative_margin :
  forall (Mesh_obb : Mesh -> result (list Point)) (inflate : R)
         (self s1 s2 : Block.t) (aabb0 obb0 : Box),
    Block.compute_aabb 0 self = Ok (aabb0, s1) ->
    Block.compute_obb Mesh_obb 0 self = Ok (obb0, s2) ->
    ((- Box_xsize aabb0 <= inflate /\ - Box_ysize aabb0 <= inflate /\
      - Box_zsize aabb0 <= inflate ->
      Block.compute_aabb inflate self
      = Ok (grown aabb0 inflate, Block.set_aabb (Some (grown aabb0 inflate)) self)) /\
     (inflate < - Box_xsize aabb0 \/ inflate < - Box_ysize aabb0 \/
      inflate < - Box_zsize aabb0 ->
      exists msg, Block.compute_aabb inflate self = Raise (ValueError msg))) /\
    ((- Box_xsize obb0 <= inflate /\ - Box_ysize obb0 <= inflate /\
      - Box_zsize obb0 <= inflate ->
      Block.compute_obb Mesh_obb inflate self
      = Ok (grown obb0 inflate, Block.set_obb (Some (grown obb0 inflate)) self)) /\
     (inflate < - Box_xsize obb0 \/ inflate < - Box_ysize obb0 \/
      inflate < - Box_zsize obb0 ->
      exists msg, Block.compute_obb Mesh_obb inflate self = Raise (ValueError msg))).
Proof.
  intros Mesh_obb inflate self s1 s2 aabb0 obb0 Ha Ho.
  split;
    [apply (Block_compute_aabb_margin inflate self s1 aabb0 Ha)
    | apply (Block_compute_obb_margin Mesh_obb inflate self s2 obb0 Ho)].
Qed.

(** X23, at the tetrahedron block, whose boxes have the sizes 1, 1, 1: the
    margin -1 leaves boxes of size zero, the margin -2 raises. *)
Lemma Block_bounding_boxes_with_negative_margin_witness :
  exists aabb0 s1 obb0 s2,
    Block.compute_aabb 0 tetrahedron_block = Ok (aabb0, s1) /\
    Block.compute_obb plain_obb 0 tetrahedron_block = Ok (obb0, s2) /\
    Block.compute_aabb (-1) tetrahedron_block
    = Ok (grown aabb0 (-1), Block.set_aabb (Some (grown aabb0 (-1))) tetrahedron_block) /\
    (exists msg, Block.compute_aabb (-2) tetrahedron_block = Raise (ValueError msg)) /\
    Block.compute_obb plain_obb (-1) tetrahedron_block
    = Ok (grown obb0 (-1), Block.set_obb (Some (grown obb0 (-1))) tetrahedron_block) /\
    (exists msg, Block.compute_obb plain_obb (-2) tetrahedron_block = Raise (ValueError msg)).
Proof.
  do 4 eexists.
  split; [exact (tetrahedron_aabb 0 (Rle_refl 0)) |].
  split; [exact (tetrahedron_obb 0 (Rle_refl 0)) |].
  pose proof (Block_bounding_boxes_with_negative_margin plain_obb (-1) tetrahedron_block
                _ _ _ _ (tetrahedron_aabb 0 (Rle_refl 0)) (tetrahedron_obb 0 (Rle_refl 0)))
    as [[A1 _] [O1 _]].
  pose proof (Block_bounding_boxes_with_negative_margin plain_obb (-2) tetrahedron_block
                _ _ _ _ (tetrahedron_aabb 0 (Rle_refl 0)) (tetrahedron_obb 0 (Rle_refl 0)))
    as [[_ A2] [_ O2]].
  split; [apply A1; simpl; lra |].
  split; [apply A2; simpl; lra |].
  split; [apply O1; simpl; lra |].
  apply O2; simpl; lra.
Defined.



(** X25.  [transform(T)] followed by [transform(T.inverse())], in place, for
    a rigid [T]: on a beam with orthonormal frames and a box of positive
    sizes, and on a block with orthonormal frames, a mesh that lies in no
    plane, its list of face polygons and no collision mesh, both calls return
    and the element ends with its frame, geometries, OBB, collision mesh and
    face polygons as at the start and with a populated AABB computed anew
    without inflation: as at the start altogether, when the AABB was empty or
    had been computed without inflation. *)
Theorem transform_there_and_back :
  forall (Mesh_obb : Mesh -> result (list Point)) (depth : nat) (T : Transformation)
         (beam : Beam.t) (block : Block.t),
    is_rigid T -> Beam_well_formed beam -> Block_well_formed block ->
    exists T',
      Transformation_inverse T = Ok T' /\
      (self <- Beam.transform T beam ;; Beam.transform T' self)
      = Ok (Beam_refreshed beam) /\
      (self <- Block.transform Mesh_obb (S depth) T block ;;
       Block.transform Mesh_obb (S depth) T' self)
      = Ok (Block_refreshed block) /\
      (Beam._aabb beam = None \/
       Beam._aabb beam = Some (oriented_bounds (Beam._geometry beam) 0) ->
       Beam_refreshed beam = beam) /\
      (Block._aabb block = None \/
       Block._aabb block = world_bounds_of (Mesh_vertices (Block._geometry block)) 0 ->
       Block_refreshed block = block).
Proof.
  intros Mesh_obb depth T beam block HT Hbeam Hblock.
  pose proof (inverse_rigid T HT) as Hinv.
  exists (transpose T). split; [exact Hinv |].
  split; [| split; [| split; [apply Beam_refreshed_same | apply Block_refreshed_same]]].
  - rewrite (Beam_transform_rigid T beam HT Hbeam). cbn [bind].
    rewrite (Beam_transform_rigid (transpose T) (Beam_moved T beam)
               (transpose_rigid T HT) (Beam_moved_well_formed T beam HT Hbeam)).
    f_equal. apply Beam_moved_inverse. exact Hinv.
  - rewrite (Block_transform_rigid Mesh_obb depth T block HT Hblock). cbn [bind].
    rewrite (Block_transform_rigid Mesh_obb depth (transpose T) (Block_moved T block)
               (transpose_rigid T HT) (Block_moved_well_formed T block HT Hblock)).
    f_equal. apply Block_moved_inverse. exact Hinv.
Qed.

(** X25, at the beam with an inflated AABB and the tetrahedron block, for a
    quarter turn. *)
Lemma transform_there_and_back_witness :
  is_rigid quarter_turn /\ Beam_well_formed long_beam_inflated /\
  Block_well_formed tetrahedron_block /\
  exists T',
    Transformation_inverse quarter_turn = Ok T' /\
    (self <- Beam.transform quarter_turn long_beam_inflated ;; Beam.transform T' self)
    = Ok (Beam_refreshed long_beam_inflated) /\
    (self <- Block.transform plain_obb 1 quarter_turn tetrahedron_block ;;
     Block.transform plain_obb 1 T' self)
    = Ok (Block_refreshed tetrahedron_block) /\
    (Beam._aabb long_beam_inflated = None \/
     Beam._aabb long_beam_inflated
     = Some (oriented_bounds (Beam._geometry long_beam_inflated) 0) ->
     Beam_refreshed long_beam_inflated = long_beam_inflated) /\
    (Block._aabb tetrahedron_block = None \/
     Block._aabb tetrahedron_block
     = world_bounds_of (Mesh_vertices (Block._geometry tetrahedron_block)) 0 ->
     Block_refreshed tetrahedron_block = tetrahedron_block).
Proof.
  split; [exact quarter_turn_rigid |].
  split; [exact long_beam_inflated_well_formed |].
  split; [exact tetrahedron_block_well_formed |].
  exact (transform_there_and_back plain_obb 0 quarter_turn long_beam_inflated
           tetrahedron_block quarter_turn_rigid long_beam_inflated_well_formed
           tetrahedron_block_well_formed).
Defined.
